(* ===== verification/_CoqProject ===== *)
-Q . S2P
Prelude.v
JsString.v
JsValue.v
Regex.v
Validation.v
Layout.v
Canvas.v
Pdf.v
Runtime.v
CertService.v
EmailService.v
Route.v
Form.v
System.v
