(* ===== verification/Prelude.v ===== *)
(** * A verification development of the certificate generation system

    The program is a small web application: a client form
    ([src/components/certificate-form.jsx], rendered by
    [src/app/page.jsx]) posts five fields to the handler
    [POST /api/generate-certificate]
    ([src/app/api/generate-certificate/route.js]).  The handler validates
    the body, calls [generateCertificate]
    ([src/lib/certificate-generator.js]) which draws the certificate twice,
    on a 2D canvas saved as JPEG (PNG as fallback) and as a PDFKit
    document, both under [public/certificates], then calls
    [sendCertificateEmail] ([src/lib/email-service.js]) which mails both
    files through a cached SMTP transport, and answers with JSON.

    ** Files, in dependency order

    - [Prelude] (this file): the [result] type of fallible code with its
      monad instances, string predicates, the hint databases [jsdb]
      (resolve) and [jsrw] (rewrite), the tactics [inv_result] and
      [ascii_cases], generic lemmas on strings and lists.
    - [JsString]: the JavaScript built-ins the program calls on strings
      and numbers: [substr], [replace] with a string pattern, [join],
      [Number.prototype.toString] in decimal, [Number.parseInt].
    - [JsValue]: JSON values, ToBoolean, ToString and property reads
      (with the [TypeError] of reading [null] or [undefined]).
    - [Regex]: regular expressions with an inductive semantics and a
      matcher by Brzozowski derivatives proved equivalent to it
      ([re_matches_correct]); the anchored [RegExp.prototype.test].
    - [Validation] (Module [Validation]): lines 9-21 of the handler.
    - [Layout]: the nine lines a certificate shows (text, color, size,
      weight) and the typeclass interface [Renderer]/[RendererLaws] that
      the two renderers implement; clients are proved against it.
    - [Canvas] (Module [Canvas]): the 2D context as a state machine
      ([ctx_step]) and the exact call sequence of [generateJPG]
      ([jpg_ops], lines 45-116).
    - [Pdf] (Module [Pdf]): the PDFKit document as a state machine and the
      call sequence of [generatePDF] ([pdf_ops], lines 161-203).
    - [Runtime]: the process as a [World] (directories and files as stdpp
      [gset]/[gmap], environment, the email module's [transporter], the
      mail delivered, a trace of visible actions, and an [Oracle] for
      everything the program learns from outside: clock, [Math.random],
      encoder, disk and SMTP outcomes, indexed by a counter that every
      query advances); the state and exception monad [M]; [fs] and [path]
      as the program uses them; the frame calculus [preserves].
    - [CertService] (Module [CertService]): module initialisation, the
      certificate id, [generateJPG], [generatePDF], [generateCertificate].
    - [EmailService] (Module [EmailService]): [getTransporter],
      [sendCertificateEmail], [testEmailConnection].
    - [Route] (Module [Route]): [POST], its abstract contract [post_spec]
      and the refinement theorem [POST_refines].
    - [Form] (Module [Form]): the React component as a step function
      [form_step] on events [Change], [Submit], [Resolve], and
      reachability [reachable] as an inductive relation.
    - [System] (Module [System]): the form and the handler composed.

    Each state-changing operation of the source is one definition: a
    JavaScript function [f] of the source is the Rocq [f] (the names are
    kept), of type [M A] when it touches the process, and a pure function
    otherwise.  Exceptions are [Err] values of [result]; a [try]/[catch]
    is [try_catch]; an exception does not undo the writes before it.

    ** Theorems (claim numbers C1-C32 in order of importance)

    - Handler: the refinement of its contract [post_spec] (C1); its
      converse, every valid request answered 200 with one delivery when
      nothing external fails (C2); the 400 answers (C4, C5); a send
      failure answered 500 with the files left on disk, scenario E (C8);
      validation throws only on [null] (C29), answered 500 (C30).
    - Client and server: the form shows exactly what the handler decided
      (C3); scenario A end to end, from the form to the delivered mail
      (C13); a submission the form allows never misses a field (C27).
    - Validation: the email test accepts exactly [local@domain.tld] (C9).
    - Generation: both files written, in order, with the same nine lines,
      proved through the [Renderer] interface (C6); the canvas detail
      lines centered on x = 100 and clipped (C7); a working directory
      containing [".jpg"] breaks the PNG fallback (C10); after a fallback
      the PNG is mailed as [<id>.jpg] (C11); scenario D, the fallback
      written as [<id>.png] (C12); two runs differ only in the date line
      (C14); the id round trip and the length of its random part (C15,
      C16); module initialisation creates the directory (C17); the two
      files place three rows differently (C32).
    - Email: the transport created once (C18), the send on success and
      on SMTP failure (C19), missing files (C20), the port (C21), the
      connection check (C22), the name pasted unescaped into the HTML
      (C31).
    - Form: the banner and loading invariant by rule induction on
      [reachable] (C23), one request in flight at a time (C24), inputs
      emptied only on success (C25), every reply ends the request (C26),
      success discards edits made in flight (C28).

    ** Bounds and fuel

    Numbers are [Z]: the timestamp is a non-negative integer and the
    program does no arithmetic that can overflow a double.  Decimal
    printing recurses on fuel [N.size n + 1], one more than the number of
    binary digits, hence at least the number of decimal digits; the
    round trip [js_parseInt_N_to_string] shows the fuel is enough.  The
    recursive [mkdirSync] walks from a directory to the root through
    [dirname] with fuel [String.length dir + 1]; every step removes at
    least one character, and [ancestors_root] proves the walk reaches
    the root within that fuel.  No other definition
    needs fuel.

    ** Not modelled

    Pixels, fonts and text metrics (a text width is a parameter of the
    theorems that need one); PDFKit's line wrapping and the bytes of both
    files (a file is the list of marks it shows); console output; the
    page markup; the browser's [type="email"] check (the form model lets
    through more submissions than the browser, so its invariants are
    sound); JSON numbers with a fraction. *)

From stdpp Require Export base strings list.
From Stdlib Require Export ZArith NArith Ascii String.

Declare Scope js_scope.
Delimit Scope js_scope with js.

(** ** Results of fallible JavaScript code.

    A JavaScript function either returns a value or throws; every
    exception the program raises or catches is an [Error] whose only
    observed part is its [message] string. *)

Inductive result (A : Type) : Type :=
| Ok (a : A)
| Err (msg : string).
Arguments Ok {A} a.
Arguments Err {A} msg.

#[export] Instance result_eq_dec {A} `{EqDecision A} : EqDecision (result A).
Proof. solve_decision. Defined.

#[export] Instance result_ret : MRet result := fun A a => Ok a.
#[export] Instance result_bind : MBind result :=
  fun A B f r => match r with Ok a => f a | Err m => Err m end.

(** ** Character predicates on strings *)

Fixpoint str_all (p : ascii -> bool) (s : string) : bool :=
  match s with
  | EmptyString => true
  | String c s' => p c && str_all p s'
  end.

Definition str_has (c : ascii) (s : string) : bool :=
  negb (str_all (fun d => negb (Ascii.eqb d c)) s).

Definition chr (n : nat) : string := String (ascii_of_nat n) EmptyString.

(** ** Automation *)

Create HintDb jsdb discriminated.
Create Rewrite HintDb jsrw.

Ltac inv_result :=
  repeat match goal with
  | H : Ok _ = Ok _ |- _ => injection H as H; subst
  | H : Err _ = Err _ |- _ => injection H as H; subst
  | H : Ok _ = Err _ |- _ => discriminate H
  | H : Err _ = Ok _ |- _ => discriminate H
  end.

(** A property of a single character, decided by its 256 cases. *)
Ltac ascii_cases c :=
  destruct c as [[] [] [] [] [] [] [] []]; vm_compute; intros; try discriminate; try done.

(** ** Generic lemmas on strings

    stdpp declares [String.append] [simpl never]; the two computation
    rules below are used instead of [simpl]. *)

Lemma sapp_nil_l (s : string) : ("" +:+ s)%string = s.
Proof. reflexivity. Qed.

Lemma sapp_cons (c : ascii) (a b : string) : (String c a +:+ b)%string = String c (a +:+ b).
Proof. reflexivity. Qed.

Lemma sapp_nil_r (s : string) : (s +:+ "")%string = s.
Proof. induction s as [|c s IH]; [done | by rewrite sapp_cons, IH]. Qed.

Lemma sapp_assoc (a b c : string) : (a +:+ (b +:+ c))%string = ((a +:+ b) +:+ c)%string.
Proof. induction a as [|x a IH]; [done | by rewrite !sapp_cons, IH]. Qed.

Lemma length_sapp (a b : string) : String.length (a +:+ b) = String.length a + String.length b.
Proof. induction a as [|x a IH]; [done | rewrite sapp_cons; simpl; by rewrite IH]. Qed.

Lemma str_all_app p (a b : string) : str_all p (a +:+ b) = str_all p a && str_all p b.
Proof. induction a as [|x a IH]; [done | rewrite sapp_cons; simpl; by rewrite IH, andb_assoc]. Qed.

Lemma str_has_app c (a b : string) : str_has c (a +:+ b) = str_has c a || str_has c b.
Proof. unfold str_has. rewrite str_all_app. by destruct (str_all _ a), (str_all _ b). Qed.

Lemma str_all_impl (p q : ascii -> bool) (s : string) :
  (forall c, p c = true -> q c = true) -> str_all p s = true -> str_all q s = true.
Proof.
  intros Hpq. induction s as [|c s IH]; simpl; [done|].
  intros [Hc Hs]%andb_true_iff. apply andb_true_iff. auto.
Qed.

Lemma str_all_has_false p c (s : string) :
  p c = false -> str_all p s = true -> str_has c s = false.
Proof.
  intros Hc. unfold str_has. induction s as [|d s IH]; simpl; [done|].
  intros [Hd Hs]%andb_true_iff. apply negb_false_iff in IH; [|done].
  rewrite IH, andb_true_r.
  destruct (Ascii.eqb_spec d c); subst; [congruence|done].
Qed.

Lemma sapp_snoc_cons (x y : string) (c : ascii) :
  ((x +:+ String c "") +:+ y)%string = (x +:+ String c y)%string.
Proof. by rewrite <- sapp_assoc, sapp_cons, sapp_nil_l. Qed.

Lemma sapp_nil_inv (a b : string) : (a +:+ b)%string = "" -> a = "" /\ b = "".
Proof. destruct a, b; done. Qed.

(** ** Lists *)

Lemma filter_negb_all {A} (p : A -> bool) (l : list A) :
  Forall (fun x => p x = true) l -> List.filter (fun x => negb (p x)) l = [].
Proof. induction 1 as [|x l Hx _ IH]; [done|]. simpl. by rewrite Hx. Qed.

#[export] Hint Rewrite sapp_nil_l sapp_cons sapp_nil_r str_all_app str_has_app length_sapp : jsrw.
#[export] Hint Resolve str_all_impl str_all_has_false : jsdb.
