(* ===== verification/JsString.v ===== *)
(** * JsString: the JavaScript string and number built-ins the program calls

    Strings are modelled as Rocq [string]s, that is sequences of 8-bit
    code units (the Latin-1 subset of JavaScript's UTF-16 strings).
    This file gives [String.prototype.substr], [indexOf], [replace]
    with a string pattern, [Array.prototype.join] on strings,
    [Number.prototype.toString] on non-negative integers (below 1e21, where
    it prints plain decimal digits) and the global [parseInt] with no
    radix argument. *)

From S2P Require Import Prelude.

Local Open Scope string_scope.
Local Open Scope list_scope.

(** ** Whitespace: ECMAScript's WhiteSpace and LineTerminator code points
    below 256 (TAB, LF, VT, FF, CR, SPACE, NO-BREAK SPACE).  This one set is
    both the [\s] class of regular expressions and what [parseInt] skips. *)

Definition js_is_space (c : ascii) : bool :=
  let n := nat_of_ascii c in
  (((9 <=? n) && (n <=? 13)) || (n =? 32) || (n =? 160))%nat.

(** ** [String.prototype.substr(start, length)] (ECMA-262 B.2.2.1).
    [len = None] is an omitted length argument. *)

Definition js_substr (s : string) (start : Z) (len : option Z) : string :=
  let size := Z.of_nat (String.length s) in
  let st := if (start <? 0)%Z then Z.max (size + start) 0 else Z.min start size in
  let l := match len with None => size | Some l => Z.min (Z.max l 0) size end in
  let en := Z.min (st + l) size in
  String.substring (Z.to_nat st) (Z.to_nat (en - st)) s.

(** ** [String.prototype.indexOf(pat)]: the least position where [pat]
    occurs. *)

Fixpoint str_index_of (pat s : string) : option nat :=
  if String.prefix pat s then Some 0 else
  match s with
  | EmptyString => None
  | String _ s' => S <$> str_index_of pat s'
  end.

(** ** [String.prototype.replace(pat, rep)] with a string pattern: only the
    first occurrence is replaced.  The replacement strings of the program
    contain no [$], so the substitution patterns of GetSubstitution do not
    apply. *)

Definition js_replace (s pat rep : string) : string :=
  match str_index_of pat s with
  | None => s
  | Some i =>
      String.substring 0 i s +:+ rep
        +:+ String.substring (i + String.length pat) (String.length s) s
  end.

(** ** [Array.prototype.join(sep)] on an array of strings. *)

Fixpoint js_join (sep : string) (l : list string) : string :=
  match l with
  | [] => ""
  | [x] => x
  | x :: l' => x +:+ sep +:+ js_join sep l'
  end.

(** ** Decimal digits. *)

Definition dec_char (d : N) : ascii := ascii_of_N (48 + d).

Fixpoint N_to_dec_fuel (fuel : nat) (n : N) : string :=
  match fuel with
  | O => ""
  | S f =>
      if (n <? 10)%N then String (dec_char n) ""
      else N_to_dec_fuel f (n / 10) +:+ String (dec_char (n mod 10)) ""
  end.

(** [Number.prototype.toString()] of a non-negative integer below 1e21.
    [N.size n] bits are at least as many as decimal digits. *)
Definition js_N_to_string (n : N) : string := N_to_dec_fuel (N.to_nat (N.size n) + 1) n.

(** The value of a digit in a radix up to 36: [0-9], then [a-z] or [A-Z]. *)
Definition digit_val (radix : N) (c : ascii) : option N :=
  let n := N_of_ascii c in
  let v :=
    if ((48 <=? n) && (n <=? 57))%N then Some (n - 48)%N
    else if ((97 <=? n) && (n <=? 122))%N then Some (n - 87)%N
    else if ((65 <=? n) && (n <=? 90))%N then Some (n - 55)%N
    else None in
  match v with Some d => if (d <? radix)%N then Some d else None | None => None end.

(** The longest prefix of digits of [radix], and the rest. *)
Fixpoint scan_digits (radix : N) (s : string) : string * string :=
  match s with
  | EmptyString => ("", "")
  | String c s' =>
      match digit_val radix c with
      | Some _ => let '(ds, rest) := scan_digits radix s' in (String c ds, rest)
      | None => ("", s)
      end
  end.

Fixpoint digits_value_acc (radix acc : N) (s : string) : N :=
  match s with
  | EmptyString => acc
  | String c s' =>
      digits_value_acc radix (acc * radix + default 0%N (digit_val radix c)) s'
  end.

Definition digits_value (radix : N) (s : string) : N := digits_value_acc radix 0 s.

Fixpoint trim_start (s : string) : string :=
  match s with
  | String c s' => if js_is_space c then trim_start s' else s
  | EmptyString => EmptyString
  end.

(** ** The global [parseInt(s)] with no radix (ECMA-262 19.2.5): skip
    leading whitespace, read a sign, strip a [0x]/[0X] prefix (radix 16),
    then read the longest digit prefix.  [None] is [NaN].  The value is
    exact; JavaScript rounds values above 2^53, which the program never
    reads (TCP ports). *)

Definition js_parseInt (s : string) : option Z :=
  let s1 := trim_start s in
  let '(sign, s2) :=
    match s1 with
    | String c r =>
        if Ascii.eqb c "-" then ((-1)%Z, r)
        else if Ascii.eqb c "+" then (1%Z, r) else (1%Z, s1)
    | EmptyString => (1%Z, s1)
    end in
  let '(radix, s3) :=
    match s2 with
    | String z (String x r) =>
        if Ascii.eqb z "0" && (Ascii.eqb x "x" || Ascii.eqb x "X")
        then (16%N, r) else (10%N, s2)
    | _ => (10%N, s2)
    end in
  let '(ds, _) := scan_digits radix s3 in
  match ds with
  | EmptyString => None
  | _ => Some (sign * Z.of_N (digits_value radix ds))%Z
  end.

Definition is_radix_digit (radix : N) (c : ascii) : bool :=
  match digit_val radix c with Some _ => true | None => false end.

Definition is_digit : ascii -> bool := is_radix_digit 10.

(** ** Lemmas: decimal printing and reading back *)

Lemma digits_value_acc_app radix acc (a b : string) :
  digits_value_acc radix acc (a +:+ b) = digits_value_acc radix (digits_value_acc radix acc a) b.
Proof. revert acc. induction a as [|c a IH]; intros acc; [done|]. rewrite sapp_cons. apply IH. Qed.

Lemma dec_char_val (d : N) : (d < 10)%N -> digit_val 10 (dec_char d) = Some d.
Proof.
  intros Hd. unfold digit_val, dec_char.
  rewrite N_ascii_embedding by lia.
  destruct (N.leb_spec 48 (48 + d)), (N.leb_spec (48 + d) 57); try lia. simpl.
  replace (48 + d - 48)%N with d by lia.
  destruct (N.ltb_spec d 10); [done | lia].
Qed.

Lemma N_to_dec_fuel_value (f : nat) (n : N) :
  (n < 10 ^ N.of_nat f)%N -> digits_value 10 (N_to_dec_fuel f n) = n.
Proof.
  revert n. induction f as [|f IH]; intros n Hn.
  - change (10 ^ N.of_nat 0)%N with 1%N in Hn. unfold digits_value. simpl. lia.
  - cbn [N_to_dec_fuel]. destruct (N.ltb_spec n 10).
    + unfold digits_value. cbn [digits_value_acc]. rewrite dec_char_val by lia. done.
    + unfold digits_value. rewrite digits_value_acc_app. fold (digits_value 10 (N_to_dec_fuel f (n / 10))).
      rewrite IH.
      * cbn [digits_value_acc]. rewrite dec_char_val by (apply N.mod_lt; lia). simpl.
        rewrite (N.div_mod n 10) at 3 by lia. lia.
      * apply N.Div0.div_lt_upper_bound. rewrite Nat2N.inj_succ, N.pow_succ_r' in Hn. lia.
Qed.

Lemma N_to_dec_fuel_digits (f : nat) (n : N) : str_all is_digit (N_to_dec_fuel f n) = true.
Proof.
  revert n. induction f as [|f IH]; intros n; simpl; [done|].
  destruct (N.ltb_spec n 10).
  - unfold is_digit, is_radix_digit. simpl. by rewrite dec_char_val.
  - rewrite str_all_app, IH. unfold is_digit, is_radix_digit. simpl.
    rewrite dec_char_val by (apply N.mod_lt; lia). done.
Qed.

Lemma N_to_dec_fuel_nonempty (f : nat) (n : N) : f <> 0 -> N_to_dec_fuel f n <> "".
Proof.
  destruct f as [|f]; [done|]. intros _. simpl. destruct (n <? 10)%N; [done|].
  intros [_ ?]%sapp_nil_inv. done.
Qed.

Lemma js_N_to_string_value (n : N) : digits_value 10 (js_N_to_string n) = n.
Proof.
  apply N_to_dec_fuel_value. rewrite Nat2N.inj_add, N2Nat.id.
  eapply N.lt_le_trans; [apply N.size_gt|].
  transitivity (10 ^ N.size n)%N; [apply N.pow_le_mono_l; lia|].
  apply N.pow_le_mono_r; lia.
Qed.

Lemma js_N_to_string_digits (n : N) : str_all is_digit (js_N_to_string n) = true.
Proof. apply N_to_dec_fuel_digits. Qed.

Lemma js_N_to_string_nonempty (n : N) : js_N_to_string n <> "".
Proof. apply N_to_dec_fuel_nonempty. lia. Qed.

#[export] Hint Resolve js_N_to_string_digits js_N_to_string_nonempty : jsdb.

Lemma is_digit_char c :
  is_digit c = true ->
  js_is_space c = false /\ Ascii.eqb c "-" = false /\ Ascii.eqb c "+" = false /\
  Ascii.eqb c "x" = false /\ Ascii.eqb c "X" = false.
Proof. ascii_cases c. Qed.

Lemma scan_digits_all radix (s r : string) :
  str_all (is_radix_digit radix) s = true ->
  (match r with String c _ => digit_val radix c = None | EmptyString => True end) ->
  scan_digits radix (s +:+ r) = (s, r).
Proof.
  intros Hs Hr. induction s as [|c s IH].
  - destruct r as [|c r]; simpl; [done|]. by rewrite Hr.
  - rewrite sapp_cons. simpl in Hs |- *. apply andb_true_iff in Hs as [Hc Hs].
    unfold is_radix_digit in Hc. destruct (digit_val radix c); [|done]. by rewrite IH.
Qed.

(** Printing a non-negative integer and reading it back with [parseInt]
    gives the integer back. *)
Lemma js_parseInt_N_to_string (n : N) : js_parseInt (js_N_to_string n) = Some (Z.of_N n).
Proof.
  pose proof (js_N_to_string_digits n) as Hd.
  pose proof (js_N_to_string_nonempty n) as Hne.
  pose proof (js_N_to_string_value n) as Hv.
  unfold js_parseInt.
  destruct (js_N_to_string n) as [|c s] eqn:E; [done|].
  cbn [str_all] in Hd. apply andb_true_iff in Hd as [Hc Hs].
  destruct (is_digit_char c Hc) as (Hsp & Hm & Hp & _).
  simpl. rewrite Hsp, Hm, Hp.
  assert (Hsc : scan_digits 10 (String c s) = (String c s, "")).
  { pose proof (scan_digits_all 10 (String c s) "") as H. rewrite sapp_nil_r in H.
    apply H; [|done]. exact (andb_true_intro (conj Hc Hs)). }
  destruct s as [|x s].
  - rewrite Hsc. cbn -[digits_value]. rewrite Hv. f_equal. lia.
  - cbn [str_all] in Hs. apply andb_true_iff in Hs as [Hx _].
    destruct (is_digit_char x Hx) as (_ & _ & _ & Hx1 & Hx2).
    rewrite Hx1, Hx2, andb_false_r. rewrite Hsc. cbn -[digits_value]. rewrite Hv. f_equal. lia.
Qed.

(** ** Lemmas on [substring] and [substr] *)

Lemma substring_0_length n (s : string) :
  String.length (String.substring 0 n s) = Nat.min n (String.length s).
Proof.
  revert n. induction s as [|c s IH]; intros [|n]; simpl; auto.
Qed.

Lemma str_all_substring p n m (s : string) :
  str_all p s = true -> str_all p (String.substring n m s) = true.
Proof.
  revert n m. induction s as [|c s IH]; intros [|n] [|m]; simpl; auto.
  - intros [Hc Hs]%andb_true_iff. by rewrite Hc, IH.
  - intros [_ Hs]%andb_true_iff. auto.
  - intros [_ Hs]%andb_true_iff. auto.
Qed.

Lemma substring_app_r n m (a b : string) :
  String.substring (String.length a + n) m (a +:+ b) = String.substring n m b.
Proof. induction a as [|c a IH]; [done|]. rewrite sapp_cons. simpl. apply IH. Qed.

Lemma substring_0_min n (s : string) :
  String.substring 0 (Nat.min n (String.length s)) s = String.substring 0 n s.
Proof.
  revert n. induction s as [|c s IH]; intros [|n]; simpl; auto. by rewrite IH.
Qed.

(** [("0." + ds).substr(2, 9)] keeps the first nine characters of [ds]. *)
Lemma js_substr_after_prefix (ds : string) :
  js_substr ("0." +:+ ds) 2 (Some 9%Z) = String.substring 0 9 ds.
Proof.
  unfold js_substr. cbv zeta. change (2 <? 0)%Z with false. cbv iota.
  rewrite !sapp_cons, sapp_nil_l. cbn [String.length].
  set (L := String.length ds).
  match goal with
  | |- String.substring (Z.to_nat ?a) (Z.to_nat ?b) _ = _ =>
      replace (Z.to_nat a) with 2 by lia; replace (Z.to_nat b) with (Nat.min 9 L) by lia
  end.
  cbn [String.substring]. apply substring_0_min.
Qed.

Lemma js_substr_zero : js_substr "0" 2 (Some 9%Z) = "".
Proof. reflexivity. Qed.

Lemma substring_0_ge n (s : string) : String.length s <= n -> String.substring 0 n s = s.
Proof.
  revert n. induction s as [|c s IH]; intros [|n] Hn; simpl in *; try done; [lia|].
  rewrite IH; [done | lia].
Qed.

Lemma prefix_app (a b : string) : String.prefix a (a +:+ b) = true.
Proof.
  induction a as [|c a IH]; [by destruct b|]. rewrite sapp_cons. simpl.
  destruct (ascii_dec c c); [done | congruence].
Qed.

(** ** The last character, and what [replace] keeps of it *)

Fixpoint last_char (s : string) : option ascii :=
  match s with
  | EmptyString => None
  | String c s' => match s' with EmptyString => Some c | _ => last_char s' end
  end.

Fixpoint str_drop (n : nat) (s : string) : string :=
  match n, s with
  | 0, _ => s
  | S n', String _ s' => str_drop n' s'
  | S _, EmptyString => EmptyString
  end.

Lemma last_char_app (a b : string) : b <> "" -> last_char (a +:+ b) = last_char b.
Proof.
  intros Hb. induction a as [|c a IH]; [done|]. rewrite sapp_cons. simpl. rewrite IH.
  destruct (a +:+ b)%string eqn:E; [apply sapp_nil_inv in E as [_ ->]; done | done].
Qed.

Lemma substring_to_end n m (s : string) :
  String.length s <= n + m -> String.substring n m s = str_drop n s.
Proof.
  revert n. induction s as [|c s IH]; intros [|n] Hs; simpl in *.
  - by destruct m.
  - done.
  - destruct m as [|m]; [lia|]. f_equal. apply substring_0_ge. lia.
  - apply IH. lia.
Qed.

Lemma str_drop_last (k : nat) (s : string) :
  str_drop k s <> "" -> last_char (str_drop k s) = last_char s.
Proof.
  revert k. induction s as [|c s IH]; intros [|k] Hne; simpl in *; try done.
  rewrite IH by done. destruct s; [by destruct k | done].
Qed.

(** If the input and the replacement end with the same character, so does
    the result of [replace]. *)
Lemma js_replace_last_char (s pat rep : string) (g : ascii) :
  last_char s = Some g -> last_char rep = Some g -> last_char (js_replace s pat rep) = Some g.
Proof.
  intros Hs Hr. unfold js_replace. destruct (str_index_of pat s) as [i|]; [|done].
  rewrite (substring_to_end (i + String.length pat)) by lia.
  destruct (str_drop (i + String.length pat) s) as [|c t] eqn:E.
  - rewrite sapp_nil_r, last_char_app; [done|]. by destruct rep.
  - rewrite last_char_app by (intros [_ ?]%sapp_nil_inv; discriminate).
    rewrite last_char_app by discriminate. rewrite <- E, str_drop_last; [done|]. by rewrite E.
Qed.

(** ** [replace] on a string with a suffix appended *)

Lemma prefix_length (pat s : string) : String.prefix pat s = true -> String.length pat <= String.length s.
Proof.
  revert s. induction pat as [|c p IH]; intros [|d s] H; cbn in *; try lia; try discriminate.
  destruct (ascii_dec c d); [|discriminate]. specialize (IH s H). lia.
Qed.

Lemma prefix_app_inv (a b s : string) : String.prefix (a +:+ b) s = true -> String.prefix a s = true.
Proof.
  revert s. induction a as [|c a IH]; intros [|d s]; rewrite ?sapp_nil_l, ?sapp_cons; cbn; try done.
  destruct (ascii_dec c d); [apply IH | done].
Qed.

Lemma prefix_app_long (pat s t : string) :
  String.length pat <= String.length s -> String.prefix pat (s +:+ t) = String.prefix pat s.
Proof.
  revert s. induction pat as [|c p IH]; intros [|d s] Hl; cbn in *; try lia; try done.
  - by destruct t.
  - rewrite sapp_cons. cbn. destruct (ascii_dec c d); [apply IH; lia | done].
Qed.

Lemma str_index_of_bound (pat s : string) i :
  str_index_of pat s = Some i -> i + String.length pat <= String.length s.
Proof.
  revert i. induction s as [|c s IH]; intros i; cbn [str_index_of].
  - destruct (String.prefix pat "") eqn:E; intros H; [|discriminate].
    injection H as <-. apply prefix_length in E. cbn in *. lia.
  - destruct (String.prefix pat (String c s)) eqn:E.
    + intros [= <-]. apply prefix_length in E. cbn in *. lia.
    + destruct (str_index_of pat s) as [j|] eqn:Ej; cbn [fmap option_fmap option_map]; [|discriminate].
      intros [= <-]. specialize (IH j eq_refl). cbn. lia.
Qed.

Lemma str_index_of_app (pat s t : string) i :
  str_index_of pat s = Some i -> str_index_of pat (s +:+ t) = Some i.
Proof.
  intros H. pose proof (str_index_of_bound _ _ _ H) as Hb. revert i H Hb.
  induction s as [|c s IH]; intros i; cbn [str_index_of].
  - destruct (String.prefix pat "") eqn:E; intros H; [|discriminate]. injection H as <-.
    intros Hb. destruct pat; [|cbn in Hb; lia]. by destruct t.
  - rewrite sapp_cons. cbn [str_index_of].
    destruct (String.prefix pat (String c s)) eqn:E.
    + intros [= <-] _. change (String c (s +:+ t)) with (String c s +:+ t).
      rewrite prefix_app_long; [by rewrite E | apply prefix_length, E].
    + destruct (str_index_of pat s) as [j|] eqn:Ej; cbn [fmap option_fmap option_map]; [|discriminate].
      intros [= <-] Hb. change (String c (s +:+ t)) with (String c s +:+ t).
      rewrite prefix_app_long, E by (cbn in *; lia). by rewrite (IH j eq_refl) by (cbn in *; lia).
Qed.

Lemma substring_0_app n (s t : string) :
  n <= String.length s -> String.substring 0 n (s +:+ t) = String.substring 0 n s.
Proof.
  revert n. induction s as [|c s IH]; intros [|n] Hn; cbn in *; try done; try lia.
  - by destruct t.
  - rewrite sapp_cons. cbn. rewrite IH; [done | lia].
Qed.

Lemma str_drop_app k (s t : string) :
  k <= String.length s -> str_drop k (s +:+ t) = str_drop k s +:+ t.
Proof.
  revert k. induction s as [|c s IH]; intros [|k] Hk; cbn in *; try done; try lia.
  rewrite sapp_cons. cbn. apply IH. lia.
Qed.

(** Replacing in [s +:+ t] a pattern that already occurs in [s] changes
    [s] only. *)
Lemma js_replace_app (s t pat rep : string) :
  str_index_of pat s <> None -> js_replace (s +:+ t) pat rep = js_replace s pat rep +:+ t.
Proof.
  unfold js_replace. destruct (str_index_of pat s) as [i|] eqn:E; [intros _|done].
  pose proof (str_index_of_bound _ _ _ E) as Hb.
  rewrite (str_index_of_app _ _ t _ E), substring_0_app by lia.
  rewrite (substring_to_end (i + String.length pat) (String.length (s +:+ t))),
    (substring_to_end (i + String.length pat) (String.length s)) by (rewrite ?length_sapp; lia).
  rewrite str_drop_app by lia. by rewrite !sapp_assoc.
Qed.

Lemma length_js_replace_ge (s pat rep : string) :
  str_index_of pat s <> None -> String.length rep <= String.length (js_replace s pat rep).
Proof.
  unfold js_replace. destruct (str_index_of pat s); [intros _|done]. rewrite !length_sapp. lia.
Qed.

(** ** The first occurrence of a pattern after a separator *)

Lemma prefix_sep (pat x t : string) (c : ascii) :
  str_has c pat = false -> String.prefix pat (x +:+ String c t) = true -> String.prefix pat x = true.
Proof.
  unfold str_has. revert x. induction pat as [|p0 p IH]; intros [|x0 x] Hc H; try done.
  - rewrite sapp_nil_l in H. cbn in H, Hc. destruct (ascii_dec p0 c) as [->|]; [|done].
    by rewrite Ascii.eqb_refl in Hc.
  - rewrite sapp_cons in H. cbn in H |- *. destruct (ascii_dec p0 x0); [|done].
    apply (IH x); [|exact H]. cbn in Hc. destruct (Ascii.eqb p0 c); [done|]. exact Hc.
Qed.

Lemma str_index_of_sep (pat s t : string) (c : ascii) :
  str_index_of pat s = None -> str_has c pat = false ->
  str_index_of pat (s +:+ String c t) = (fun i => String.length s + 1 + i) <$> str_index_of pat t.
Proof.
  intros Hs Hc. induction s as [|s0 s IH]; cbn [str_index_of] in *.
  - destruct (String.prefix pat "") eqn:E; [discriminate|].
    rewrite sapp_nil_l. cbn [str_index_of].
    destruct (String.prefix pat (String c t)) eqn:Ec.
    + exfalso. destruct pat as [|p0 p]; [discriminate|]. cbn in Ec. unfold str_has in Hc.
      cbn [str_all] in Hc. destruct (ascii_dec p0 c) as [->|]; [|discriminate].
      by rewrite Ascii.eqb_refl in Hc.
    + by destruct (str_index_of pat t).
  - destruct (String.prefix pat (String s0 s)) eqn:E; [discriminate|].
    destruct (str_index_of pat s) eqn:Es; [discriminate|].
    rewrite sapp_cons. cbn [str_index_of].
    change (String s0 (s +:+ String c t)) with (String s0 s +:+ String c t).
    destruct (String.prefix pat (String s0 s +:+ String c t)) eqn:Ec.
    + apply prefix_sep in Ec; [congruence | exact Hc].
    + rewrite IH by done. by destruct (str_index_of pat t).
Qed.

Lemma prefix_refl (s : string) : String.prefix s s = true.
Proof. pose proof (prefix_app s "") as H. by rewrite sapp_nil_r in H. Qed.

Lemma str_index_of_suffix (s p : string) (c0 : ascii) :
  str_has c0 s = false -> str_index_of (String c0 p) (s +:+ String c0 p) = Some (String.length s).
Proof.
  intros Hs. induction s as [|x s IH].
  - rewrite sapp_nil_l. cbn [str_index_of]. by rewrite prefix_refl.
  - rewrite sapp_cons. cbn [str_index_of]. unfold str_has in Hs, IH. cbn [str_all] in Hs.
    destruct (Ascii.eqb_spec x c0) as [->|Hne]; [cbn in Hs; discriminate|].
    replace (String.prefix (String c0 p) (String x (s +:+ String c0 p))) with false.
    + rewrite IH; [done|]. cbn in Hs. destruct (str_all _ s); [done | discriminate].
    + cbn. by destruct (ascii_dec c0 x) as [->|].
Qed.

Lemma str_drop_length (s : string) : str_drop (String.length s) s = "".
Proof. induction s; cbn; auto. Qed.

Lemma js_replace_suffix (a pat rep : string) :
  str_index_of pat (a +:+ pat) = Some (String.length a) -> js_replace (a +:+ pat) pat rep = a +:+ rep.
Proof.
  intros H. unfold js_replace. rewrite H.
  rewrite substring_0_app, substring_0_ge by lia.
  rewrite (substring_to_end _ (String.length (a +:+ pat))) by (rewrite length_sapp; lia).
  rewrite <- length_sapp, str_drop_length. by rewrite sapp_nil_r.
Qed.
