(* ===== verification/JsValue.v ===== *)
(** * JsValue: the JSON values of a request body and the JavaScript
    operations the handler applies to them

    [request.json()] yields a JSON value; the handler reads fields with
    [body[field]], tests them with [!] (ToBoolean) and hands them to
    template literals, [RegExp.prototype.test], [fillText] and PDFKit's
    [text], all of which convert with ToString.  Numbers are modelled as
    integers ([Z]); JSON numbers with a fraction or an exponent are not
    modelled.  Objects keep their members in source order, with the last
    duplicate key winning as in [JSON.parse]. *)

From S2P Require Import Prelude JsString.

Local Open Scope string_scope.
Local Open Scope list_scope.

#[warnings="-register-all"]
Inductive JsValue : Type :=
| JUndefined
| JNull
| JBool (b : bool)
| JNum (z : Z)
| JStr (s : string)
| JArr (vs : list JsValue)
| JObj (members : list (string * JsValue)).

(** ToBoolean: [!v] is [negb (js_truthy v)]. *)
Definition js_truthy (v : JsValue) : bool :=
  match v with
  | JUndefined | JNull => false
  | JBool b => b
  | JNum z => negb (Z.eqb z 0)
  | JStr s => negb (String.eqb s "")
  | JArr _ | JObj _ => true
  end.

(** [Number.prototype.toString()] on an integer. *)
Definition js_Z_to_string (z : Z) : string :=
  if (z <? 0)%Z then "-" +:+ js_N_to_string (Z.to_N (- z)) else js_N_to_string (Z.to_N z).

(** ToString.  An array prints as the [join(",")] of its elements, with
    [null] and [undefined] elements printed as the empty string; an object
    prints as [[object Object]]. *)
Fixpoint js_to_string (v : JsValue) : string :=
  match v with
  | JUndefined => "undefined"
  | JNull => "null"
  | JBool true => "true"
  | JBool false => "false"
  | JNum z => js_Z_to_string z
  | JStr s => s
  | JArr vs =>
      js_join ","
        (map (fun w => match w with JUndefined | JNull => "" | _ => js_to_string w end) vs)
  | JObj _ => "[object Object]"
  end.

(** The last member with key [k], as [JSON.parse] keeps it. *)
Fixpoint assoc_last (k : string) (ms : list (string * JsValue)) : option JsValue :=
  match ms with
  | [] => None
  | (k', v) :: ms' =>
      match assoc_last k ms' with
      | Some w => Some w
      | None => if String.eqb k k' then Some v else None
      end
  end.

(** Property read [v[k]] for a key that is not an array index.  Reading a
    property of [null] or [undefined] throws the V8 [TypeError]; strings and
    arrays have [length]; the other primitive wrappers have no own
    properties and the keys the program reads are not on their
    prototypes. *)
Definition js_get (v : JsValue) (k : string) : result JsValue :=
  match v with
  | JUndefined => Err ("Cannot read properties of undefined (reading '" +:+ k +:+ "')")
  | JNull => Err ("Cannot read properties of null (reading '" +:+ k +:+ "')")
  | JObj ms => Ok (default JUndefined (assoc_last k ms))
  | JArr vs => Ok (if String.eqb k "length" then JNum (Z.of_nat (List.length vs)) else JUndefined)
  | JStr s => Ok (if String.eqb k "length" then JNum (Z.of_nat (String.length s)) else JUndefined)
  | JBool _ | JNum _ => Ok JUndefined
  end.

(** [v[k]] and [v.k], in the scope of the development's JavaScript
    notations. *)
Notation "v .[ k ]" := (js_get v k) (at level 1, left associativity, format "v .[ k ]") : js_scope.

(** Decidable equality, by a fixpoint nested through the lists of arrays
    and objects. *)
Fixpoint JsValue_eq_dec (x y : JsValue) {struct x} : {x = y} + {x <> y}.
Proof.
  decide equality.
  - apply bool_dec.
  - apply Z.eq_dec.
  - apply string_dec.
  - apply (List.list_eq_dec JsValue_eq_dec).
  - apply (List.list_eq_dec (fun p q : string * JsValue =>
      match p, q with
      | (k1, v1), (k2, v2) =>
          match string_dec k1 k2, JsValue_eq_dec v1 v2 with
          | left e1, left e2 => left (f_equal2 pair e1 e2)
          | right n, _ => right (fun E : (k1, v1) = (k2, v2) => n (f_equal fst E))
          | _, right n => right (fun E : (k1, v1) = (k2, v2) => n (f_equal snd E))
          end
      end)).
Defined.

#[export] Instance JsValue_EqDecision : EqDecision JsValue := JsValue_eq_dec.

(** ** Lemmas *)

Lemma js_truthy_str (s : string) : js_truthy (JStr s) = true <-> s <> "".
Proof.
  simpl. destruct (String.eqb_spec s ""); simpl; split; congruence.
Qed.

Lemma assoc_last_app k (ms1 ms2 : list (string * JsValue)) :
  assoc_last k (ms1 ++ ms2) =
  match assoc_last k ms2 with Some w => Some w | None => assoc_last k ms1 end.
Proof.
  induction ms1 as [|[k' v] ms1 IH]; simpl.
  - by destruct (assoc_last k ms2).
  - rewrite IH. by destruct (assoc_last k ms2).
Qed.

Lemma js_get_obj_ok ms k : js_get (JObj ms) k = Ok (default JUndefined (assoc_last k ms)).
Proof. reflexivity. Qed.

Lemma js_get_defined v k : v <> JNull -> v <> JUndefined -> exists w, js_get v k = Ok w.
Proof. destruct v; simpl; try congruence; eauto. Qed.

#[export] Hint Resolve js_get_defined : jsdb.
