(* ===== verification/Regex.v ===== *)
(** * Regex: the subset of JavaScript regular expressions the program uses

    Character classes, concatenation, alternation and repetition, with
    the [^] and [$] anchors, as [RegExp.prototype.test] evaluates them on
    a pattern without flags.  [re_matches] decides membership with
    Brzozowski derivatives and is proved equal to the inductive language
    [in_re]; [regex_test] adds the search semantics of [test]: an
    unanchored side may skip any prefix or suffix of the input. *)

From S2P Require Import Prelude.

Local Open Scope string_scope.
Local Open Scope list_scope.

Inductive re : Type :=
| RVoid
| REps
| RClass (p : ascii -> bool)
| RAlt (r1 r2 : re)
| RCat (r1 r2 : re)
| RStar (r : re).

Definition RPlus (r : re) : re := RCat r (RStar r).
Definition RChar (c : ascii) : re := RClass (fun d => Ascii.eqb d c).
Definition RAny : re := RClass (fun _ => true).

(** The language of a regular expression. *)
Inductive in_re : string -> re -> Prop :=
| in_eps : in_re "" REps
| in_class c p : p c = true -> in_re (String c "") (RClass p)
| in_alt_l s r1 r2 : in_re s r1 -> in_re s (RAlt r1 r2)
| in_alt_r s r1 r2 : in_re s r2 -> in_re s (RAlt r1 r2)
| in_cat s1 s2 r1 r2 : in_re s1 r1 -> in_re s2 r2 -> in_re (s1 +:+ s2) (RCat r1 r2)
| in_star_nil r : in_re "" (RStar r)
| in_star_app s1 s2 r : in_re s1 r -> in_re s2 (RStar r) -> in_re (s1 +:+ s2) (RStar r).

Fixpoint nullable (r : re) : bool :=
  match r with
  | RVoid | RClass _ => false
  | REps | RStar _ => true
  | RAlt r1 r2 => nullable r1 || nullable r2
  | RCat r1 r2 => nullable r1 && nullable r2
  end.

Fixpoint deriv (c : ascii) (r : re) : re :=
  match r with
  | RVoid | REps => RVoid
  | RClass p => if p c then REps else RVoid
  | RAlt r1 r2 => RAlt (deriv c r1) (deriv c r2)
  | RCat r1 r2 =>
      if nullable r1 then RAlt (RCat (deriv c r1) r2) (deriv c r2)
      else RCat (deriv c r1) r2
  | RStar r1 => RCat (deriv c r1) (RStar r1)
  end.

Fixpoint re_matches (r : re) (s : string) : bool :=
  match s with
  | EmptyString => nullable r
  | String c s' => re_matches (deriv c r) s'
  end.

(** A pattern literal: its body and whether it starts with [^] and ends
    with [$]. *)
Record js_regex := { rx_start : bool; rx_body : re; rx_end : bool }.

Definition rx_full (rx : js_regex) : re :=
  let r := if rx_start rx then rx_body rx else RCat (RStar RAny) (rx_body rx) in
  if rx_end rx then r else RCat r (RStar RAny).

(** [rx.test(s)] *)
Definition regex_test (rx : js_regex) (s : string) : bool := re_matches (rx_full rx) s.

(** ** Inversion lemmas of the language *)

Lemma in_cat_inv s r1 r2 :
  in_re s (RCat r1 r2) <-> exists s1 s2, s = (s1 +:+ s2)%string /\ in_re s1 r1 /\ in_re s2 r2.
Proof.
  split.
  - intros H. inversion H; subst. eauto.
  - intros (s1 & s2 & -> & H1 & H2). by constructor.
Qed.

Lemma in_alt_inv s r1 r2 : in_re s (RAlt r1 r2) <-> in_re s r1 \/ in_re s r2.
Proof.
  split.
  - intros H. inversion H; subst; auto.
  - intros [H|H]; [apply in_alt_l | apply in_alt_r]; done.
Qed.

Lemma in_class_inv s p : in_re s (RClass p) <-> exists c, s = String c "" /\ p c = true.
Proof.
  split.
  - intros H. inversion H; subst. eauto.
  - intros (c & -> & Hc). by constructor.
Qed.

Lemma in_void_inv s : ~ in_re s RVoid.
Proof. intros H. inversion H. Qed.

Lemma in_eps_inv s : in_re s REps <-> s = "".
Proof. split; [intros H; by inversion H | intros ->; constructor]. Qed.

(** A non-empty word of [r*] starts with a non-empty word of [r]. *)
Lemma in_star_inv c s r :
  in_re (String c s) (RStar r) ->
  exists s1 s2, s = (s1 +:+ s2)%string /\ in_re (String c s1) r /\ in_re s2 (RStar r).
Proof.
  intros H. remember (String c s) as w eqn:Ew. remember (RStar r) as q eqn:Eq.
  revert c s Ew Eq. induction H as [| | | | |r0|s1 s2 r0 H1 _ H2 IH2];
    intros d t Ew Eq; try discriminate.
  injection Eq as ->. destruct s1 as [|e s1].
  - exact (IH2 d t Ew eq_refl).
  - rewrite sapp_cons in Ew. injection Ew as <- <-. eauto.
Qed.

Lemma in_star_cat s1 s2 r : in_re s1 (RStar r) -> in_re s2 (RStar r) -> in_re (s1 +:+ s2) (RStar r).
Proof.
  intros H. remember (RStar r) as q eqn:Eq. revert Eq.
  induction H; intros Eq Hs2; try discriminate; [done|].
  injection Eq as ->. rewrite <- sapp_assoc. constructor; auto.
Qed.

(** ** Correctness of the derivative matcher *)

Lemma nullable_correct r : nullable r = true <-> in_re "" r.
Proof.
  induction r as [| |p|r1 IH1 r2 IH2|r1 IH1 r2 IH2|r IH]; simpl.
  - split; [done | intros H; by apply in_void_inv in H].
  - split; [constructor | done].
  - split; [done | intros (c & ? & _)%in_class_inv; discriminate].
  - rewrite orb_true_iff, in_alt_inv. tauto.
  - rewrite andb_true_iff, in_cat_inv, IH1, IH2. split.
    + intros [H1 H2]. exists "", "". auto.
    + intros (s1 & s2 & E & H1 & H2). symmetry in E. apply sapp_nil_inv in E as [-> ->]. auto.
  - split; [constructor | done].
Qed.

Lemma deriv_correct c r s : in_re s (deriv c r) <-> in_re (String c s) r.
Proof.
  revert s. induction r as [| |p|r1 IH1 r2 IH2|r1 IH1 r2 IH2|r IH]; intros s; simpl.
  - split; intros H; by apply in_void_inv in H.
  - split; intros H; [by apply in_void_inv in H | by apply in_eps_inv in H].
  - rewrite in_class_inv. destruct (p c) eqn:Hp.
    + rewrite in_eps_inv. split; [intros ->; eauto | intros (d & Hd & _); congruence].
    + split; [intros H; by apply in_void_inv in H | intros (d & Hd & Hpd); congruence].
  - rewrite !in_alt_inv, IH1, IH2. done.
  - assert (Hsplit : in_re (String c s) (RCat r1 r2) <->
      (exists s1 s2, s = (s1 +:+ s2)%string /\ in_re s1 (deriv c r1) /\ in_re s2 r2)
      \/ (in_re "" r1 /\ in_re (String c s) r2)).
    { rewrite in_cat_inv. split.
      - intros ([|d s1] & s2 & E & H1 & H2).
        + right. by rewrite sapp_nil_l in E; subst.
        + left. rewrite sapp_cons in E. injection E as <- ->. exists s1, s2. rewrite IH1. auto.
      - intros [(s1 & s2 & -> & H1 & H2) | [H1 H2]].
        + exists (String c s1), s2. rewrite IH1 in H1. auto.
        + exists "", (String c s). auto. }
    rewrite Hsplit. destruct (nullable r1) eqn:Hn.
    + rewrite in_alt_inv, in_cat_inv, IH2. apply nullable_correct in Hn. tauto.
    + rewrite in_cat_inv. split; [tauto|].
      intros [H | [H _]]; [done|]. apply nullable_correct in H. congruence.
  - rewrite in_cat_inv. split.
    + intros (s1 & s2 & -> & H1 & H2). rewrite IH in H1.
      rewrite <- sapp_cons. by constructor.
    + intros H. apply in_star_inv in H as (s1 & s2 & -> & H1 & H2).
      exists s1, s2. rewrite IH. auto.
Qed.

Theorem re_matches_correct r s : re_matches r s = true <-> in_re s r.
Proof.
  revert r. induction s as [|c s IH]; intros r; simpl.
  - apply nullable_correct.
  - rewrite IH. apply deriv_correct.
Qed.

(** ** Languages of the derived forms *)

Lemma in_star_class s p : in_re s (RStar (RClass p)) <-> str_all p s = true.
Proof.
  split.
  - intros H. induction s as [|c s IH]; [done|].
    apply in_star_inv in H as (s1 & s2 & -> & H1 & H2).
    apply in_class_inv in H1 as (d & Ed & Hd). injection Ed as -> ->.
    rewrite sapp_nil_l in IH |- *. simpl. rewrite Hd. by apply IH.
  - induction s as [|c s IH]; intros H; [constructor|].
    simpl in H. apply andb_true_iff in H as [Hc Hs].
    change (String c s) with (String c "" +:+ s)%string.
    constructor; [by constructor | auto].
Qed.

Lemma in_plus_class s p : in_re s (RPlus (RClass p)) <-> s <> "" /\ str_all p s = true.
Proof.
  unfold RPlus. rewrite in_cat_inv. split.
  - intros (s1 & s2 & -> & H1 & H2). apply in_class_inv in H1 as (c & -> & Hc).
    apply in_star_class in H2. rewrite sapp_cons, sapp_nil_l. split; [done|]. simpl. by rewrite Hc, H2.
  - intros [Hne Hall]. destruct s as [|c s]; [done|]. simpl in Hall.
    apply andb_true_iff in Hall as [Hc Hs]. exists (String c ""), s.
    split; [done|]. split; [by constructor | by apply in_star_class].
Qed.

Lemma in_char s c : in_re s (RChar c) <-> s = String c "".
Proof.
  unfold RChar. rewrite in_class_inv. split.
  - intros (d & -> & Hd). by apply Ascii.eqb_eq in Hd as ->.
  - intros ->. exists c. split; [done | apply Ascii.eqb_refl].
Qed.

#[export] Hint Rewrite in_cat_inv in_alt_inv in_plus_class in_char in_star_class : jsrw.
