(* ===== verification/Validation.v ===== *)
(** * Validation: the request checks of [POST /api/generate-certificate]

    [src/app/api/generate-certificate/route.js], lines 9-21: the
    required-field filter [required.filter((field) => !body[field])] and
    the email pattern [/^[^\s@]+@[^\s@]+\.[^\s@]+$/].  [validate] returns
    the verdict the handler turns into a 400 response, or the exception
    the filter throws when the body is [null]. *)

From S2P Require Import Prelude JsString JsValue Regex.

Local Open Scope string_scope.
Local Open Scope list_scope.
Local Open Scope js_scope.

Module Validation.

(** [const required = ["name", "email", "gstNumber", "businessName", "businessAddress"]] *)
Definition required : list string :=
  ["name"; "email"; "gstNumber"; "businessName"; "businessAddress"].

(** [fields.filter((field) => !body[field])]: the predicate runs on each
    field in order and its first exception escapes. *)
Fixpoint filter_missing (body : JsValue) (fields : list string) : result (list string) :=
  match fields with
  | [] => Ok []
  | f :: fs =>
      v ← body.[f];
      rest ← filter_missing body fs;
      mret (if js_truthy v then rest else f :: rest)
  end.

(** [[^\s@]] *)
Definition not_space_or_at (c : ascii) : bool := negb (js_is_space c || Ascii.eqb c "@").

(** [/^[^\s@]+@[^\s@]+\.[^\s@]+$/] *)
Definition emailRegex : js_regex :=
  {| rx_start := true;
     rx_body :=
       RCat (RPlus (RClass not_space_or_at))
         (RCat (RChar "@")
            (RCat (RPlus (RClass not_space_or_at))
               (RCat (RChar ".") (RPlus (RClass not_space_or_at)))));
     rx_end := true |}.

Inductive verdict : Type :=
| VMissing (fields : list string)
| VBadEmail
| VOk.

#[export] Instance verdict_eq_dec : EqDecision verdict.
Proof. solve_decision. Defined.

(** Lines 10-21 of the handler, up to the response they select. *)
Definition validate (body : JsValue) : result verdict :=
  missing ← filter_missing body required;
  match missing with
  | _ :: _ => Ok (VMissing missing)
  | [] =>
      email ← body.["email"];
      Ok (if regex_test emailRegex (js_to_string email) then VOk else VBadEmail)
  end.

(** The text of the 400 response for missing fields. *)
Definition missing_message (missing : list string) : string :=
  "Missing required fields: " +:+ js_join ", " missing.

(** ** The shape the email pattern accepts: [local@domain.tld], three
    non-empty parts without whitespace or [@]; the domain part may
    contain further dots. *)
Definition email_shape (s : string) : Prop :=
  exists l d1 d2,
    s = (l +:+ "@" +:+ d1 +:+ "." +:+ d2)%string /\
    l <> "" /\ d1 <> "" /\ d2 <> "" /\
    str_all not_space_or_at l = true /\ str_all not_space_or_at d1 = true /\
    str_all not_space_or_at d2 = true.

(** ** Lemmas *)

Lemma filter_missing_obj ms fields :
  filter_missing (JObj ms) fields =
  Ok (List.filter (fun f => negb (js_truthy (default JUndefined (assoc_last f ms)))) fields).
Proof.
  induction fields as [|f fs IH]; [done|]. cbn [filter_missing]. rewrite js_get_obj_ok, IH.
  cbv [mbind result_bind mret result_ret]. simpl. by destruct (js_truthy _).
Qed.

Lemma validate_defined body v : validate body = Ok v -> body <> JNull /\ body <> JUndefined.
Proof. intros H. split; intros ->; discriminate H. Qed.

Lemma email_regex_in_re s :
  regex_test emailRegex s = true <-> in_re s (rx_body emailRegex).
Proof. apply re_matches_correct. Qed.

Lemma email_regex_shape (s : string) : regex_test emailRegex s = true <-> email_shape s.
Proof.
  rewrite email_regex_in_re. simpl rx_body. split.
  - intros (l & r1 & -> & Hl & Hr1)%in_cat_inv.
    apply in_cat_inv in Hr1 as (a & r2 & -> & Ha%in_char & Hr2). subst a.
    apply in_cat_inv in Hr2 as (d1 & r3 & -> & Hd1 & Hr3).
    apply in_cat_inv in Hr3 as (dot & d2 & -> & Hdot%in_char & Hd2). subst dot.
    apply in_plus_class in Hl as [? ?], Hd1 as [? ?], Hd2 as [? ?].
    exists l, d1, d2. repeat split; done.
  - intros (l & d1 & d2 & -> & ? & ? & ? & ? & ? & ?).
    apply in_cat; [by apply in_plus_class|].
    apply in_cat; [by apply in_char|].
    apply in_cat; [by apply in_plus_class|].
    apply in_cat; [by apply in_char | by apply in_plus_class].
Qed.

#[export] Instance email_shape_dec (s : string) : Decision (email_shape s).
Proof.
  refine (cast_if (decide (regex_test emailRegex s = true)));
    by rewrite <- email_regex_shape.
Defined.

Lemma validate_obj ms :
  validate (JObj ms) =
  Ok (match List.filter (fun f => negb (js_truthy (default JUndefined (assoc_last f ms)))) required with
      | [] => if regex_test emailRegex (js_to_string (default JUndefined (assoc_last "email" ms)))
              then VOk else VBadEmail
      | missing => VMissing missing
      end).
Proof.
  unfold validate. rewrite filter_missing_obj.
  cbv [mbind result_bind]. by destruct (List.filter _ required).
Qed.

(** C9: the email test of line 19 accepts exactly the strings
    [local@domain.tld] whose three parts are non-empty and free of
    whitespace and [@] (the domain may contain more dots). *)
Theorem email_regex_spec (s : string) : regex_test emailRegex s = true <-> email_shape s.
Proof. exact (email_regex_shape s). Qed.

Lemma filter_missing_defined body fields :
  body <> JNull -> body <> JUndefined -> exists l, filter_missing body fields = Ok l.
Proof.
  intros Hn Hu. induction fields as [|f fs [l IH]]; [by exists []|].
  destruct (js_get_defined body f Hn Hu) as [v Hv].
  cbn [filter_missing]. rewrite Hv. cbn. rewrite IH. cbn. by eexists.
Qed.

(** C29: validation fails (throws) only on a [null] body, with the
    engine's [TypeError] for the first field read; every other JSON body
    gets a verdict. *)
Theorem validate_total body :
  body <> JUndefined ->
  (exists v, validate body = Ok v) \/
  (body = JNull /\ validate body = Err "Cannot read properties of null (reading 'name')").
Proof.
  intros Hu. destruct (decide (body = JNull)) as [->|Hn]; [by right|left].
  destruct (filter_missing_defined body required Hn Hu) as [l Hl].
  unfold validate. rewrite Hl. cbn. destruct l; [|by eexists].
  destruct (js_get_defined body "email" Hn Hu) as [v Hv]. rewrite Hv. by eexists.
Qed.

Lemma validate_total_witness :
  JArr [] <> JUndefined /\ exists v, validate (JArr []) = Ok v.
Proof.
  assert (H : JArr [] <> JUndefined) by discriminate.
  split; [exact H|]. destruct (validate_total (JArr []) H) as [Hv | [Hn _]]; [exact Hv | discriminate Hn].
Defined.

End Validation.
