(* ===== verification/Layout.v ===== *)
(** * Layout: what a certificate renderer promises

    Both renderers of [src/lib/certificate-generator.js] ([generateJPG] on
    a canvas, [generatePDF] on a PDFKit document) draw the same nine lines
    of text.  This file states that contract once: the business fields a
    renderer receives ([CertFields], the ToString of the request fields),
    the styled lines of the layout of spec section 4.1
    ([certificate_layout]), and the class [Renderer] of drawing routines
    whose text marks are exactly those lines ([RendererLaws]).  Clients
    such as the certificate service are proved against the class. *)

From S2P Require Import Prelude.

Local Open Scope string_scope.
Local Open Scope list_scope.

(** The data both renderers receive: [{ name, gstNumber, businessName,
    businessAddress }]. *)
Record CertFields := {
  cf_name : string;
  cf_gstNumber : string;
  cf_businessName : string;
  cf_businessAddress : string;
}.

(** The fields of the example request of spec section 8, scenario A. *)
Definition sample_fields : CertFields :=
  {| cf_name := "Jane Doe"; cf_gstNumber := "27AABCT1234H1Z0";
     cf_businessName := "ABC Corp"; cf_businessAddress := "123 Main St" |}.

(** A line of text as the reader sees it: its text, fill color, point
    size and weight. *)
Record LineStyle := {
  ls_text : string;
  ls_color : string;
  ls_size : Z;
  ls_bold : bool;
}.

Definition gold : string := "#fbbf24".
Definition white : string := "#ffffff".

(** The nine lines of spec section 4.1, top to bottom. *)
Definition certificate_layout (f : CertFields) (date : string) : list LineStyle :=
  [ {| ls_text := "CERTIFICATE OF COMPLETION"; ls_color := gold; ls_size := 60; ls_bold := true |};
    {| ls_text := "This is to certify that"; ls_color := white; ls_size := 24; ls_bold := false |};
    {| ls_text := cf_name f; ls_color := gold; ls_size := 48; ls_bold := true |};
    {| ls_text := "has successfully completed the requirements"; ls_color := white; ls_size := 20; ls_bold := false |};
    {| ls_text := "Business: " +:+ cf_businessName f; ls_color := white; ls_size := 18; ls_bold := false |};
    {| ls_text := "GST Number: " +:+ cf_gstNumber f; ls_color := white; ls_size := 18; ls_bold := false |};
    {| ls_text := "Address: " +:+ cf_businessAddress f; ls_color := white; ls_size := 18; ls_bold := false |};
    {| ls_text := "Date: " +:+ date; ls_color := white; ls_size := 16; ls_bold := false |};
    {| ls_text := "Authorized Signature"; ls_color := white; ls_size := 16; ls_bold := false |} ].

(** A renderer draws a list of marks from the fields and the date string;
    [mark_line] reads the styled text of a text mark and is [None] on the
    other marks (rectangles, lines). *)
Class Renderer (Mark : Type) := {
  render : CertFields -> string -> list Mark;
  mark_line : Mark -> option LineStyle;
}.

Class RendererLaws (Mark : Type) `{Renderer Mark} := {
  render_layout : forall f date, omap mark_line (render f date) = certificate_layout f date;
}.

Section Clients.
Context {M1 M2 : Type} `{RendererLaws M1} `{RendererLaws M2}.

(** Any two lawful renderers show the same text, colors, sizes and
    weights, line by line. *)
Lemma renderers_agree f date :
  omap mark_line (render (Mark := M1) f date) = omap mark_line (render (Mark := M2) f date).
Proof. by rewrite !render_layout. Qed.

Lemma render_texts f date :
  ls_text <$> omap mark_line (render (Mark := M1) f date) =
  ["CERTIFICATE OF COMPLETION"; "This is to certify that"; cf_name f;
   "has successfully completed the requirements"; "Business: " +:+ cf_businessName f;
   "GST Number: " +:+ cf_gstNumber f; "Address: " +:+ cf_businessAddress f;
   "Date: " +:+ date; "Authorized Signature"].
Proof. by rewrite render_layout. Qed.

(** Two drawings of the same fields differ at most in the date line
    (line 7, counting from 0). *)
Lemma render_only_date f d1 d2 i :
  i <> 7 ->
  omap mark_line (render (Mark := M1) f d1) !! i = omap mark_line (render (Mark := M1) f d2) !! i.
Proof.
  intros Hi. rewrite !render_layout.
  do 7 (destruct i as [|i]; [done|]). destruct i as [|i]; [done|]. by destruct i.
Qed.
End Clients.
