(* ===== verification/Canvas.v ===== *)
(** * Canvas: the 2D context and the drawing half of [generateJPG]

    [src/lib/certificate-generator.js], lines 42-116.  The canvas 2D
    context is a state machine: the setters of [fillStyle], [strokeStyle],
    [lineWidth], [font] and [textAlign] change its state, the path
    commands build the current path, and the drawing calls
    ([fillRect], [strokeRect], [fillText], [stroke]) emit marks painted
    with the state current at the call.  [jpg_ops] is the exact sequence of
    context calls of lines 48-116 and [jpg_marks] what they paint.  The
    encoding and the file write (lines 118-145) are in [CertService]. *)

From S2P Require Import Prelude JsString Layout.

Local Open Scope string_scope.
Local Open Scope list_scope.

Module Canvas.

Inductive TextAlign : Type :=
| AlignStart | AlignEnd | AlignLeft | AlignRight | AlignCenter.

#[export] Instance TextAlign_eq_dec : EqDecision TextAlign.
Proof. solve_decision. Defined.

(** A [CanvasGradient] from [createLinearGradient(x0, y0, x1, y1)] with
    the color stops added so far. *)
Record Gradient := {
  g_x0 : Z; g_y0 : Z; g_x1 : Z; g_y1 : Z;
  g_stops : list (Z * string);
}.

Definition createLinearGradient (x0 y0 x1 y1 : Z) : Gradient :=
  {| g_x0 := x0; g_y0 := y0; g_x1 := x1; g_y1 := y1; g_stops := [] |}.

Definition addColorStop (g : Gradient) (offset : Z) (color : string) : Gradient :=
  {| g_x0 := g_x0 g; g_y0 := g_y0 g; g_x1 := g_x1 g; g_y1 := g_y1 g;
     g_stops := (g_stops g ++ [(offset, color)])%list |}.

Inductive Paint : Type :=
| Solid (color : string)
| Linear (g : Gradient).

#[export] Instance Gradient_eq_dec : EqDecision Gradient.
Proof. solve_decision. Defined.
#[export] Instance Paint_eq_dec : EqDecision Paint.
Proof. solve_decision. Defined.

Record CtxState := {
  fillStyle : Paint;
  strokeStyle : Paint;
  lineWidth : Z;
  font : string;
  textAlign : TextAlign;
  path : list (list (Z * Z));
}.

(** The state of a fresh context (HTML canvas defaults). *)
Definition initial_ctx : CtxState :=
  {| fillStyle := Solid "#000000"; strokeStyle := Solid "#000000"; lineWidth := 1;
     font := "10px sans-serif"; textAlign := AlignStart; path := [] |}.

Inductive CtxOp : Type :=
| SetFillStyle (p : Paint)
| SetStrokeStyle (p : Paint)
| SetLineWidth (w : Z)
| SetFont (f : string)
| SetTextAlign (a : TextAlign)
| FillRect (x y w h : Z)
| StrokeRect (x y w h : Z)
| FillText (s : string) (x y : Z)
| BeginPath
| MoveTo (x y : Z)
| LineTo (x y : Z)
| Stroke.

Inductive Mark : Type :=
| MFillRect (paint : Paint) (x y w h : Z)
| MStrokeRect (paint : Paint) (width : Z) (x y w h : Z)
| MText (s : string) (paint : Paint) (font : string) (align : TextAlign) (x y : Z)
| MStrokePath (paint : Paint) (width : Z) (subpaths : list (list (Z * Z))).

#[export] Instance Mark_eq_dec : EqDecision Mark.
Proof. solve_decision. Defined.

Definition set_fill (st : CtxState) p : CtxState :=
  {| fillStyle := p; strokeStyle := strokeStyle st; lineWidth := lineWidth st;
     font := font st; textAlign := textAlign st; path := path st |}.
Definition set_stroke (st : CtxState) p : CtxState :=
  {| fillStyle := fillStyle st; strokeStyle := p; lineWidth := lineWidth st;
     font := font st; textAlign := textAlign st; path := path st |}.
Definition set_width (st : CtxState) w : CtxState :=
  {| fillStyle := fillStyle st; strokeStyle := strokeStyle st; lineWidth := w;
     font := font st; textAlign := textAlign st; path := path st |}.
Definition set_font (st : CtxState) f : CtxState :=
  {| fillStyle := fillStyle st; strokeStyle := strokeStyle st; lineWidth := lineWidth st;
     font := f; textAlign := textAlign st; path := path st |}.
Definition set_align (st : CtxState) a : CtxState :=
  {| fillStyle := fillStyle st; strokeStyle := strokeStyle st; lineWidth := lineWidth st;
     font := font st; textAlign := a; path := path st |}.
Definition set_path (st : CtxState) p : CtxState :=
  {| fillStyle := fillStyle st; strokeStyle := strokeStyle st; lineWidth := lineWidth st;
     font := font st; textAlign := textAlign st; path := p |}.

(** [lineTo] on an empty path starts a subpath at its point. *)
Definition path_line_to (p : list (list (Z * Z))) (pt : Z * Z) : list (list (Z * Z)) :=
  match rev p with
  | [] => [[pt]]
  | last :: init => (rev init ++ [last ++ [pt]])%list
  end.

(** One context call: the new state and the marks it paints.  Setting
    [lineWidth] to a value that is not positive is ignored, as the HTML
    canvas specifies. *)
Definition ctx_step (st : CtxState) (op : CtxOp) : CtxState * list Mark :=
  match op with
  | SetFillStyle p => (set_fill st p, [])
  | SetStrokeStyle p => (set_stroke st p, [])
  | SetLineWidth w => (if (0 <? w)%Z then set_width st w else st, [])
  | SetFont f => (set_font st f, [])
  | SetTextAlign a => (set_align st a, [])
  | FillRect x y w h => (st, [MFillRect (fillStyle st) x y w h])
  | StrokeRect x y w h => (st, [MStrokeRect (strokeStyle st) (lineWidth st) x y w h])
  | FillText s x y => (st, [MText s (fillStyle st) (font st) (textAlign st) x y])
  | BeginPath => (set_path st [], [])
  | MoveTo x y => (set_path st (path st ++ [[(x, y)]])%list, [])
  | LineTo x y => (set_path st (path_line_to (path st) (x, y)), [])
  | Stroke => (st, [MStrokePath (strokeStyle st) (lineWidth st) (path st)])
  end.

Fixpoint ctx_run (st : CtxState) (ops : list CtxOp) : CtxState * list Mark :=
  match ops with
  | [] => (st, [])
  | op :: ops' =>
      let '(st1, m1) := ctx_step st op in
      let '(st2, m2) := ctx_run st1 ops' in
      (st2, (m1 ++ m2)%list)
  end.

Definition width : Z := 1200.
Definition height : Z := 800.

(** Lines 48-116 of [generateJPG], call by call; [date] is the value of
    [new Date().toLocaleDateString()] read at line 114. *)
Definition jpg_ops (data : CertFields) (date : string) : list CtxOp :=
  let gradient :=
    addColorStop (addColorStop (createLinearGradient 0 0 width height) 0 "#1e3a8a") 1 "#1e40af" in
  let detailsX := 100%Z in
  let detailsY := 470%Z in
  let lineHeight := 45%Z in
  ([ SetFillStyle (Linear gradient);
    FillRect 0 0 width height;
    SetStrokeStyle (Solid "#fbbf24");
    SetLineWidth 8;
    StrokeRect 20 20 (width - 40) (height - 40);
    SetStrokeStyle (Solid "#fbbf24");
    SetLineWidth 3;
    StrokeRect 40 40 (width - 80) (height - 80);
    SetFillStyle (Solid "#fbbf24");
    SetFont "bold 60px serif";
    SetTextAlign AlignCenter;
    FillText "CERTIFICATE OF COMPLETION" (width / 2) 120;
    SetStrokeStyle (Solid "#fbbf24");
    SetLineWidth 2;
    BeginPath;
    MoveTo 200 160;
    LineTo (width - 200) 160;
    Stroke;
    SetFillStyle (Solid "#ffffff");
    SetFont "24px serif";
    SetTextAlign AlignCenter;
    FillText "This is to certify that" (width / 2) 250;
    SetFillStyle (Solid "#fbbf24");
    SetFont "bold 48px serif";
    FillText (cf_name data) (width / 2) 330;
    SetFillStyle (Solid "#ffffff");
    SetFont "20px serif";
    FillText "has successfully completed the requirements" (width / 2) 390;
    SetFont "18px serif";
    SetFillStyle (Solid "#ffffff");
    FillText ("Business: " +:+ cf_businessName data) detailsX detailsY ] ++
  (let detailsY := (detailsY + lineHeight)%Z in
   [ FillText ("GST Number: " +:+ cf_gstNumber data) detailsX detailsY ] ++
   (let detailsY := (detailsY + lineHeight)%Z in
  [ FillText ("Address: " +:+ cf_businessAddress data) detailsX detailsY;
    SetFillStyle (Solid "#ffffff");
    SetFont "16px serif";
    SetTextAlign AlignLeft;
    FillText ("Date: " +:+ date) 100 720;
    SetTextAlign AlignRight;
    FillText "Authorized Signature" (width - 100) 720 ])))%list.

Definition jpg_marks (data : CertFields) (date : string) : list Mark :=
  snd (ctx_run initial_ctx (jpg_ops data date)).

(** ** Reading the marks *)

(** The weight and pixel size of a CSS font shorthand of the form
    [[bold ]<n>px <family>], the only form the program sets. *)
Definition css_font_style (f : string) : option (bool * Z) :=
  let '(bold, rest) :=
    if String.prefix "bold " f then (true, String.substring 5 (String.length f) f) else (false, f) in
  let '(ds, after) := scan_digits 10 rest in
  match ds with
  | EmptyString => None
  | _ => if String.prefix "px " after then Some (bold, Z.of_N (digits_value 10 ds)) else None
  end.

Definition mark_style (m : Mark) : option LineStyle :=
  match m with
  | MText s (Solid c) f _ _ _ =>
      match css_font_style f with
      | Some (b, sz) => Some {| ls_text := s; ls_color := c; ls_size := sz; ls_bold := b |}
      | None => None
      end
  | _ => None
  end.

(** Twice the abscissa of a text's left edge, for a measured text width
    [w] (twice, so that centering stays exact on integers).  The canvas is
    left-to-right, so [start] is [left]. *)
Definition text_left_edge_x2 (a : TextAlign) (x w : Z) : Z :=
  match a with
  | AlignStart | AlignLeft => 2 * x
  | AlignCenter => 2 * x - w
  | AlignEnd | AlignRight => 2 * x - 2 * w
  end.

(** ** The context as a state machine *)

Lemma ctx_run_app st ops1 ops2 :
  ctx_run st (ops1 ++ ops2) =
  let '(st1, m1) := ctx_run st ops1 in
  let '(st2, m2) := ctx_run st1 ops2 in (st2, m1 ++ m2).
Proof.
  revert st. induction ops1 as [|op ops1 IH]; intros st; simpl.
  - by destruct (ctx_run st ops2).
  - destruct (ctx_step st op) as [st1 m1]. rewrite IH.
    destruct (ctx_run st1 ops1) as [st2 m2]. destruct (ctx_run st2 ops2) as [st3 m3].
    by rewrite app_assoc.
Qed.

(** The vertical coordinate of a text: its baseline. *)
Definition text_y (m : Mark) : option Z :=
  match m with MText _ _ _ _ _ y => Some y | _ => None end.

Definition stroke_width_ok (m : Mark) : Prop :=
  match m with
  | MStrokeRect _ w _ _ _ _ | MStrokePath _ w _ => (0 < w)%Z
  | _ => True
  end.

Lemma ctx_step_width st op :
  (0 < lineWidth st)%Z ->
  (0 < lineWidth (fst (ctx_step st op)))%Z /\ Forall stroke_width_ok (snd (ctx_step st op)).
Proof.
  intros Hw. destruct op; simpl; try (split; [done | repeat constructor; done]).
  destruct (Z.ltb_spec 0 w); simpl; auto.
Qed.

(** The canvas that [jpg_ops] paints, mark by mark. *)
Lemma jpg_marks_unfold data date :
  jpg_marks data date =
  [MFillRect (Linear {| g_x0 := 0; g_y0 := 0; g_x1 := 1200; g_y1 := 800;
                        g_stops := [(0%Z, "#1e3a8a"); (1%Z, "#1e40af")] |}) 0 0 1200 800;
   MStrokeRect (Solid gold) 8 20 20 1160 760;
   MStrokeRect (Solid gold) 3 40 40 1120 720;
   MText "CERTIFICATE OF COMPLETION" (Solid gold) "bold 60px serif" AlignCenter 600 120;
   MStrokePath (Solid gold) 2 [[(200%Z, 160%Z); (1000%Z, 160%Z)]];
   MText "This is to certify that" (Solid white) "24px serif" AlignCenter 600 250;
   MText (cf_name data) (Solid gold) "bold 48px serif" AlignCenter 600 330;
   MText "has successfully completed the requirements" (Solid white) "20px serif" AlignCenter 600 390;
   MText ("Business: " +:+ cf_businessName data) (Solid white) "18px serif" AlignCenter 100 470;
   MText ("GST Number: " +:+ cf_gstNumber data) (Solid white) "18px serif" AlignCenter 100 515;
   MText ("Address: " +:+ cf_businessAddress data) (Solid white) "18px serif" AlignCenter 100 560;
   MText ("Date: " +:+ date) (Solid white) "16px serif" AlignLeft 100 720;
   MText "Authorized Signature" (Solid white) "16px serif" AlignRight 1100 720].
Proof. reflexivity. Qed.

Lemma jpg_layout data date : omap mark_style (jpg_marks data date) = certificate_layout data date.
Proof. reflexivity. Qed.

(** C7: the three detail lines ([Business], [GST Number], [Address], drawn at
    y = 470..560 in the 18px font) inherit the [textAlign = "center"] set at
    line 82: they are centered on x = 100 instead of starting there, so any
    such line wider than 200px starts left of the canvas edge and is
    clipped. *)
Theorem jpg_details_offcanvas data date s paint a x y w :
  MText s paint "18px serif" a x y ∈ jpg_marks data date ->
  (200 < w)%Z ->
  (text_left_edge_x2 a x w < 0)%Z.
Proof.
  rewrite jpg_marks_unfold. intros Hin%list_elem_of_In Hw. simpl in Hin.
  repeat destruct Hin as [Hin|Hin]; try contradiction; try discriminate Hin;
    injection Hin; intros; subst; simpl; lia.
Qed.

Lemma jpg_details_offcanvas_witness :
  MText "Business: ABC Corp" (Solid white) "18px serif" AlignCenter 100 470
    ∈ jpg_marks sample_fields "1/1/2025" /\
  (200 < 300)%Z /\ (text_left_edge_x2 AlignCenter 100 300 < 0)%Z.
Proof.
  assert (H : MText "Business: ABC Corp" (Solid white) "18px serif" AlignCenter 100 470
                ∈ jpg_marks sample_fields "1/1/2025")
    by (apply (list_elem_of_lookup_2 _ 8); vm_compute; reflexivity).
  split; [exact H | split; [lia | exact (jpg_details_offcanvas _ _ _ _ _ _ _ 300 H ltac:(lia))]].
Defined.

(** The context never holds a non-positive line width: from a state
    with a positive width, every sequence of context calls ends in a state
    with a positive width and strokes every rectangle and path with a
    positive width. *)
Theorem ctx_run_width_invariant ops st :
  (0 < lineWidth st)%Z ->
  (0 < lineWidth (fst (ctx_run st ops)))%Z /\ Forall stroke_width_ok (snd (ctx_run st ops)).
Proof.
  revert st. induction ops as [|op ops IH]; intros st Hw; simpl; [done|].
  destruct (ctx_step_width st op Hw) as [Hw1 Hm1].
  destruct (ctx_step st op) as [st1 m1] eqn:E. simpl in Hw1, Hm1.
  destruct (IH st1 Hw1) as [Hw2 Hm2]. destruct (ctx_run st1 ops) as [st2 m2].
  split; [done | by apply Forall_app].
Qed.

Lemma ctx_run_width_invariant_witness :
  (0 < lineWidth initial_ctx)%Z /\
  (0 < lineWidth (fst (ctx_run initial_ctx (jpg_ops sample_fields "1/1/2025"))))%Z.
Proof.
  split; [reflexivity|].
  exact (proj1 (ctx_run_width_invariant (jpg_ops sample_fields "1/1/2025") initial_ctx eq_refl)).
Defined.

End Canvas.

(** The canvas drawing of [generateJPG] is a lawful certificate renderer. *)
#[export] Instance canvas_renderer : Renderer Canvas.Mark :=
  {| render := Canvas.jpg_marks; mark_line := Canvas.mark_style |}.

#[export] Instance canvas_renderer_laws : RendererLaws Canvas.Mark :=
  {| render_layout := Canvas.jpg_layout |}.
