(* ===== verification/Pdf.v ===== *)
(** * Pdf: the PDFKit document and the drawing half of [generatePDF]

    [src/lib/certificate-generator.js], lines 148-205.  A PDFKit document
    keeps a fill color, a stroke color, a line width, a font and a font
    size, and a current path; [rect], [moveTo] and [lineTo] extend the
    path, [fill] and [stroke] paint it with the current color and consume
    it, and [text(s, x, y, options)] places a text box.  A text box
    without a [width] option extends to the right margin: its width is
    [page width - x - right margin].  [pdf_ops] is the call sequence of
    lines 162-203 and [pdf_marks] what it paints.  The stream to disk
    (lines 149-159, 205-211) is in [CertService]. *)

From S2P Require Import Prelude Layout.

Local Open Scope string_scope.
Local Open Scope list_scope.

Module Pdf.

Inductive PathCmd : Type :=
| PRect (x y w h : Z)
| PMove (x y : Z)
| PLine (x y : Z).

Inductive TextAlign : Type := TLeft | TCenter | TRight | TJustify.

Record TextOpts := { opt_align : option TextAlign; opt_width : option Z }.

Definition no_opts : TextOpts := {| opt_align := None; opt_width := None |}.
Definition centered (w : Z) : TextOpts := {| opt_align := Some TCenter; opt_width := Some w |}.

Record DocState := {
  fillColor : string;
  strokeColor : string;
  lineWidth : Z;
  fontSize : Z;
  fontName : string;
  path : list PathCmd;
}.

(** [new PDFDocument({ size: [1200, 800], margin: 20 })] *)
Definition page_width : Z := 1200.
Definition page_height : Z := 800.
Definition margin : Z := 20.

Definition initial_doc : DocState :=
  {| fillColor := "#000000"; strokeColor := "#000000"; lineWidth := 1;
     fontSize := 12; fontName := "Helvetica"; path := [] |}.

Inductive DocOp : Type :=
| DFillColor (c : string)
| DStrokeColor (c : string)
| DLineWidth (w : Z)
| DRect (x y w h : Z)
| DFill
| DStroke
| DMoveTo (x y : Z)
| DLineTo (x y : Z)
| DFontSize (n : Z)
| DFont (name : string)
| DText (s : string) (x y : Z) (opts : TextOpts).

Inductive PMark : Type :=
| PFillPath (color : string) (p : list PathCmd)
| PStrokePath (color : string) (width : Z) (p : list PathCmd)
| PText (s : string) (color font : string) (size x y : Z) (align : TextAlign) (width : Z).

Definition with_fill (d : DocState) c : DocState :=
  {| fillColor := c; strokeColor := strokeColor d; lineWidth := lineWidth d;
     fontSize := fontSize d; fontName := fontName d; path := path d |}.
Definition with_stroke (d : DocState) c : DocState :=
  {| fillColor := fillColor d; strokeColor := c; lineWidth := lineWidth d;
     fontSize := fontSize d; fontName := fontName d; path := path d |}.
Definition with_width (d : DocState) w : DocState :=
  {| fillColor := fillColor d; strokeColor := strokeColor d; lineWidth := w;
     fontSize := fontSize d; fontName := fontName d; path := path d |}.
Definition with_size (d : DocState) n : DocState :=
  {| fillColor := fillColor d; strokeColor := strokeColor d; lineWidth := lineWidth d;
     fontSize := n; fontName := fontName d; path := path d |}.
Definition with_font (d : DocState) f : DocState :=
  {| fillColor := fillColor d; strokeColor := strokeColor d; lineWidth := lineWidth d;
     fontSize := fontSize d; fontName := f; path := path d |}.
Definition with_path (d : DocState) p : DocState :=
  {| fillColor := fillColor d; strokeColor := strokeColor d; lineWidth := lineWidth d;
     fontSize := fontSize d; fontName := fontName d; path := p |}.

Definition doc_step (d : DocState) (op : DocOp) : DocState * list PMark :=
  match op with
  | DFillColor c => (with_fill d c, [])
  | DStrokeColor c => (with_stroke d c, [])
  | DLineWidth w => (with_width d w, [])
  | DRect x y w h => (with_path d (path d ++ [PRect x y w h]), [])
  | DFill => (with_path d [], [PFillPath (fillColor d) (path d)])
  | DStroke => (with_path d [], [PStrokePath (strokeColor d) (lineWidth d) (path d)])
  | DMoveTo x y => (with_path d (path d ++ [PMove x y]), [])
  | DLineTo x y => (with_path d (path d ++ [PLine x y]), [])
  | DFontSize n => (with_size d n, [])
  | DFont f => (with_font d f, [])
  | DText s x y o =>
      (d, [PText s (fillColor d) (fontName d) (fontSize d) x y
             (default TLeft (opt_align o))
             (default (page_width - x - margin)%Z (opt_width o))])
  end.

Fixpoint doc_run (d : DocState) (ops : list DocOp) : DocState * list PMark :=
  match ops with
  | [] => (d, [])
  | op :: ops' =>
      let '(d1, m1) := doc_step d op in
      let '(d2, m2) := doc_run d1 ops' in
      (d2, m1 ++ m2)
  end.

(** Lines 162-203 of [generatePDF]; [date] is the value of
    [new Date().toLocaleDateString()] read at line 202. *)
Definition pdf_ops (data : CertFields) (date : string) : list DocOp :=
  [ DFillColor "#1e3a8a"; DRect 20 20 1160 760; DFill;
    DStrokeColor "#fbbf24"; DLineWidth 8; DRect 20 20 1160 760; DStroke;
    DStrokeColor "#fbbf24"; DLineWidth 3; DRect 40 40 1120 720; DStroke;
    DFillColor "#fbbf24"; DFontSize 60; DFont "Courier-Bold";
    DText "CERTIFICATE OF COMPLETION" 0 100 (centered 1200);
    DStrokeColor "#fbbf24"; DLineWidth 2; DMoveTo 200 160; DLineTo 1000 160; DStroke;
    DFillColor "#ffffff"; DFontSize 24; DFont "Courier";
    DText "This is to certify that" 0 250 (centered 1200);
    DFillColor "#fbbf24"; DFontSize 48; DFont "Courier-Bold";
    DText (cf_name data) 0 330 (centered 1200);
    DFillColor "#ffffff"; DFontSize 20; DFont "Courier";
    DText "has successfully completed the requirements" 0 390 (centered 1200);
    DFontSize 18; DText ("Business: " +:+ cf_businessName data) 100 470 no_opts;
    DText ("GST Number: " +:+ cf_gstNumber data) 100 510 no_opts;
    DText ("Address: " +:+ cf_businessAddress data) 100 550 no_opts;
    DFontSize 16; DText ("Date: " +:+ date) 100 720 no_opts;
    DText "Authorized Signature" 900 720 no_opts ].

Definition pdf_marks (data : CertFields) (date : string) : list PMark :=
  snd (doc_run initial_doc (pdf_ops data date)).

(** The weight of the standard PDF fonts the program selects. *)
Definition font_bold (f : string) : bool := String.eqb f "Courier-Bold".

Definition pmark_style (m : PMark) : option LineStyle :=
  match m with
  | PText s c f sz _ _ _ _ => Some {| ls_text := s; ls_color := c; ls_size := sz; ls_bold := font_bold f |}
  | _ => None
  end.

(** The vertical coordinate of a text box: its top edge. *)
Definition text_y (m : PMark) : option Z :=
  match m with PText _ _ _ _ _ y _ _ => Some y | _ => None end.

(** ** Lemmas *)

Lemma pdf_marks_unfold data date :
  pdf_marks data date =
  [PFillPath "#1e3a8a" [PRect 20 20 1160 760];
   PStrokePath gold 8 [PRect 20 20 1160 760];
   PStrokePath gold 3 [PRect 40 40 1120 720];
   PText "CERTIFICATE OF COMPLETION" gold "Courier-Bold" 60 0 100 TCenter 1200;
   PStrokePath gold 2 [PMove 200 160; PLine 1000 160];
   PText "This is to certify that" white "Courier" 24 0 250 TCenter 1200;
   PText (cf_name data) gold "Courier-Bold" 48 0 330 TCenter 1200;
   PText "has successfully completed the requirements" white "Courier" 20 0 390 TCenter 1200;
   PText ("Business: " +:+ cf_businessName data) white "Courier" 18 100 470 TLeft 1080;
   PText ("GST Number: " +:+ cf_gstNumber data) white "Courier" 18 100 510 TLeft 1080;
   PText ("Address: " +:+ cf_businessAddress data) white "Courier" 18 100 550 TLeft 1080;
   PText ("Date: " +:+ date) white "Courier" 16 100 720 TLeft 1080;
   PText "Authorized Signature" white "Courier" 16 900 720 TLeft 280].
Proof. reflexivity. Qed.

Lemma pdf_layout data date : omap pmark_style (pdf_marks data date) = certificate_layout data date.
Proof. by rewrite pdf_marks_unfold. Qed.

End Pdf.

(** The document drawing of [generatePDF] is a lawful certificate renderer. *)
#[export] Instance pdf_renderer : Renderer Pdf.PMark :=
  {| render := Pdf.pdf_marks; mark_line := Pdf.pmark_style |}.

#[export] Instance pdf_renderer_laws : RendererLaws Pdf.PMark :=
  {| render_layout := Pdf.pdf_layout |}.
