(* ===== verification/Runtime.v ===== *)
(** * Runtime: the process state the server code reads and changes

    The state a request handler sees is a [World]: the file system
    (directories and files, as stdpp sets and maps keyed by path), the
    environment variables, the module-level [transporter] of
    [src/lib/email-service.js], the mail the SMTP server accepted, and a
    trace of the externally visible actions in the order they happen.
    Everything the program learns from outside (the clock, [Math.random],
    the image encoder, I/O failures, the SMTP server's replies) comes from
    an [Oracle] indexed by a counter [w_tick] that every query advances,
    so two queries of one run may receive different answers.

    Code that may throw runs in the monad [M]: a state monad over [World]
    whose result is a [result].  An exception does not roll back the state:
    a file written before a later failure stays on disk. *)

From stdpp Require Import gmap.
From S2P Require Import Prelude JsString JsValue Layout Canvas Pdf.

Local Open Scope string_scope.
Local Open Scope list_scope.

Inductive ImageFormat : Type := Jpeg | Png.

(** The content of a file the program writes. *)
Inductive FileData : Type :=
| ImageFile (fmt : ImageFormat) (marks : list Canvas.Mark)
| PdfFile (marks : list Pdf.PMark).

(** The options object passed to [nodemailer.createTransport]; [None] is
    an [undefined] member, and a port of [None] is [NaN]. *)
Record Transport := {
  t_host : option string;
  t_port : option Z;
  t_secure : bool;
  t_user : option string;
  t_pass : option string;
}.

Record Attachment := { att_filename : string; att_path : string }.

Record Mail := {
  mail_from : option string;
  mail_to : JsValue;
  mail_subject : string;
  mail_html : string;
  mail_attachments : list Attachment;
}.

Inductive Event : Type :=
| EvMkdir (dir : string)
| EvWrite (path : string)
| EvSendMail (m : Mail)
| EvVerify.

Record Oracle := {
  clock : nat -> Z;                        (** [Date.now()] *)
  locale_date : Z -> string;               (** [toLocaleDateString()] of a time *)
  random36 : nat -> string;                (** [Math.random().toString(36)] *)
  jpeg_error : nat -> option string;       (** the JPEG encoder's callback error *)
  png_error : nat -> option string;        (** an exception of the PNG encoder *)
  io_error : nat -> string -> option string; (** an I/O failure opening a path *)
  smtp_send : nat -> Transport -> Mail -> result string;
    (** the server's message id, or the transport's error message *)
  smtp_verify : nat -> Transport -> option string;  (** [None]: the connection verifies *)
}.

Record World := {
  w_cwd : string;
  w_dirs : gset string;
  w_files : gmap string FileData;
  w_env : gmap string string;
  w_transporter : option Transport;
  w_sent : list Mail;
  w_trace : list Event;
  w_tick : nat;
  w_oracle : Oracle;
}.

(** A run of the example of spec section 8, scenario A: a process started
    in [/srv/app] with only the root directory, whose clock reads
    1731196800123 ms, whose random number prints as [0.4fzyo82mvyr], and
    where the encoders, the disk and the SMTP server all succeed. *)
Definition sample_oracle : Oracle :=
  {| clock := fun _ => 1731196800123%Z;
     locale_date := fun _ => "11/10/2024";
     random36 := fun _ => "0.4fzyo82mvyr";
     jpeg_error := fun _ => None;
     png_error := fun _ => None;
     io_error := fun _ _ => None;
     smtp_send := fun _ _ _ => Ok "<cert-1@mail>";
     smtp_verify := fun _ _ => None |}.

Definition sample_world : World :=
  {| w_cwd := "/srv/app"; w_dirs := {["/"]}; w_files := ∅;
     w_env := <["SMTP_PORT" := "465"]> (<["SMTP_FROM_EMAIL" := "certs@example.com"]> ∅);
     w_transporter := None; w_sent := []; w_trace := []; w_tick := 0;
     w_oracle := sample_oracle |}.

(** The body of the request of scenario A. *)
Definition sample_body : JsValue :=
  JObj [("name", JStr "Jane Doe"); ("email", JStr "jane@example.com");
        ("gstNumber", JStr "27AABCT1234H1Z0"); ("businessName", JStr "ABC Corp");
        ("businessAddress", JStr "123 Main St")].

(** ** The monad *)

Definition M (A : Type) : Type := World -> result A * World.

#[export] Instance M_ret : MRet M := fun A a w => (Ok a, w).
#[export] Instance M_bind : MBind M := fun A B f m w =>
  match m w with
  | (Ok a, w') => f a w'
  | (Err e, w') => (Err e, w')
  end.

Definition throw {A} (msg : string) : M A := fun w => (Err msg, w).

(** [try { m } catch (error) { h(error.message) }] *)
Definition try_catch {A} (m : M A) (h : string -> M A) : M A := fun w =>
  match m w with
  | (Ok a, w') => (Ok a, w')
  | (Err e, w') => h e w'
  end.

Definition gets {A} (f : World -> A) : M A := fun w => (Ok (f w), w).

(** ** World updates *)

Definition advance (w : World) : World :=
  {| w_cwd := w_cwd w; w_dirs := w_dirs w; w_files := w_files w; w_env := w_env w;
     w_transporter := w_transporter w; w_sent := w_sent w; w_trace := w_trace w;
     w_tick := S (w_tick w); w_oracle := w_oracle w |}.

Definition with_files (w : World) (fs : gmap string FileData) (ev : Event) : World :=
  {| w_cwd := w_cwd w; w_dirs := w_dirs w; w_files := fs; w_env := w_env w;
     w_transporter := w_transporter w; w_sent := w_sent w; w_trace := w_trace w ++ [ev];
     w_tick := w_tick w; w_oracle := w_oracle w |}.

Definition with_dirs (w : World) (ds : gset string) (ev : Event) : World :=
  {| w_cwd := w_cwd w; w_dirs := ds; w_files := w_files w; w_env := w_env w;
     w_transporter := w_transporter w; w_sent := w_sent w; w_trace := w_trace w ++ [ev];
     w_tick := w_tick w; w_oracle := w_oracle w |}.

Definition with_transporter (w : World) (t : Transport) : World :=
  {| w_cwd := w_cwd w; w_dirs := w_dirs w; w_files := w_files w; w_env := w_env w;
     w_transporter := Some t; w_sent := w_sent w; w_trace := w_trace w;
     w_tick := w_tick w; w_oracle := w_oracle w |}.

Definition with_mail (w : World) (m : Mail) (accepted : bool) : World :=
  {| w_cwd := w_cwd w; w_dirs := w_dirs w; w_files := w_files w; w_env := w_env w;
     w_transporter := w_transporter w;
     w_sent := if accepted then w_sent w ++ [m] else w_sent w;
     w_trace := w_trace w ++ [EvSendMail m];
     w_tick := w_tick w; w_oracle := w_oracle w |}.

Definition with_event (w : World) (ev : Event) : World :=
  {| w_cwd := w_cwd w; w_dirs := w_dirs w; w_files := w_files w; w_env := w_env w;
     w_transporter := w_transporter w; w_sent := w_sent w; w_trace := w_trace w ++ [ev];
     w_tick := w_tick w; w_oracle := w_oracle w |}.

(** Advance the oracle counter and return the index of this query. *)
Definition tick : M nat := fun w => (Ok (w_tick w), advance w).

Definition ask {A} (q : Oracle -> nat -> A) : M A := n ← tick; gets (fun w => q (w_oracle w) n).

Definition set_files (fs : gmap string FileData) (ev : Event) : M unit :=
  fun w => (Ok tt, with_files w fs ev).
Definition set_dirs (ds : gset string) (ev : Event) : M unit :=
  fun w => (Ok tt, with_dirs w ds ev).
Definition set_transporter (t : Transport) : M unit :=
  fun w => (Ok tt, with_transporter w t).
Definition record_mail (m : Mail) (accepted : bool) : M unit :=
  fun w => (Ok tt, with_mail w m accepted).
Definition record_event (ev : Event) : M unit :=
  fun w => (Ok tt, with_event w ev).

(** Simplify projections of updated worlds. *)
Ltac wsimpl :=
  cbn [advance with_files with_dirs with_transporter with_mail with_event
       w_cwd w_dirs w_files w_env w_transporter w_sent w_trace w_tick w_oracle] in *.

(** ** Paths (Node's [path] module on normalized POSIX paths) *)

(** [path.join(a, b)] for a normalized absolute [a] without a trailing
    slash (or the root) and a relative segment [b] without [..]. *)
Definition path_join (a b : string) : string :=
  if String.eqb a "/" then "/" +:+ b else a +:+ "/" +:+ b.

(** [path.dirname(p)]: everything before the last slash. *)
Fixpoint dirname_aux (p : string) (cur last : string) : string :=
  match p with
  | EmptyString => last
  | String c p' =>
      if Ascii.eqb c "/" then dirname_aux p' (cur +:+ "/") cur
      else dirname_aux p' (cur +:+ String c "") last
  end.

Definition dirname (p : string) : string :=
  let d := dirname_aux p "" "" in if String.eqb d "" then "/" else d.

(** ** The [fs] calls *)

Definition existsSync (p : string) : M bool :=
  gets (fun w => bool_decide (p ∈ dom (w_files w) \/ p ∈ w_dirs w)).

(** Open [p] for writing and store [d]: fails with [ENOENT] when the
    parent directory does not exist, or with the oracle's I/O error. *)
Definition write_file (p : string) (d : FileData) : M unit :=
  dirs ← gets w_dirs;
  if bool_decide (dirname p ∈ dirs) then
    err ← ask (fun o n => io_error o n p);
    match err with
    | Some e => throw e
    | None => fs ← gets w_files; set_files (<[p := d]> fs) (EvWrite p)
    end
  else throw ("ENOENT: no such file or directory, open '" +:+ p +:+ "'").

(** [fs.writeFileSync(p, d)] *)
Definition writeFileSync (p : string) (d : FileData) : M unit := write_file p d.

(** The path [p] and its ancestors up to the root, for a normalized
    absolute [p]; each step drops at least one character, so
    [String.length p + 1] steps reach the root. *)
Fixpoint ancestors_fuel (fuel : nat) (p : string) : list string :=
  match fuel with
  | O => []
  | S f => if String.eqb p "/" then ["/"] else p :: ancestors_fuel f (dirname p)
  end.

Definition ancestors (p : string) : list string := ancestors_fuel (S (String.length p)) p.

(** [fs.mkdirSync(dir, { recursive: true })] for a normalized absolute
    [dir]: the directory and its missing ancestors are created; a regular
    file on the way makes it throw [ENOTDIR]. *)
Definition mkdirSync_recursive (dir : string) : M unit :=
  fs ← gets w_files;
  if bool_decide (Exists (fun p => p ∈ dom fs) (ancestors dir))
  then throw ("ENOTDIR: not a directory, mkdir '" +:+ dir +:+ "'")
  else dirs ← gets w_dirs;
       set_dirs (list_to_set (ancestors dir) ∪ dirs) (EvMkdir dir).

(** [new Date().toLocaleDateString()] *)
Definition locale_date_now : M string :=
  n ← tick; gets (fun w => locale_date (w_oracle w) (clock (w_oracle w) n)).

(** [Date.now()] *)
Definition date_now : M Z := ask clock.

(** [process.env[k]] *)
Definition env_var (k : string) : M (option string) := gets (fun w => w_env w !! k).

(** ** Lemmas: running the primitives *)

Lemma bind_run {A B} (m : M A) (f : A -> M B) w :
  (m ≫= f) w = match m w with (Ok a, w') => f a w' | (Err e, w') => (Err e, w') end.
Proof. reflexivity. Qed.

Lemma run_ask {A} (q : Oracle -> nat -> A) w : ask q w = (Ok (q (w_oracle w) (w_tick w)), advance w).
Proof. reflexivity. Qed.

Lemma run_locale_date_now w :
  locale_date_now w = (Ok (locale_date (w_oracle w) (clock (w_oracle w) (w_tick w))), advance w).
Proof. reflexivity. Qed.

Lemma run_write_file_ok p d w :
  dirname p ∈ w_dirs w -> io_error (w_oracle w) (w_tick w) p = None ->
  write_file p d w = (Ok tt, with_files (advance w) (<[p := d]> (w_files w)) (EvWrite p)).
Proof.
  intros Hd Hio. unfold write_file. rewrite bind_run. cbn [gets].
  rewrite bool_decide_eq_true_2 by done. rewrite bind_run, run_ask. wsimpl. by rewrite Hio.
Qed.

Lemma run_write_file_io p d w e :
  dirname p ∈ w_dirs w -> io_error (w_oracle w) (w_tick w) p = Some e ->
  write_file p d w = (Err e, advance w).
Proof.
  intros Hd Hio. unfold write_file. rewrite bind_run. cbn [gets].
  rewrite bool_decide_eq_true_2 by done. rewrite bind_run, run_ask. wsimpl. by rewrite Hio.
Qed.

Lemma run_write_file_enoent p d w :
  dirname p ∉ w_dirs w ->
  write_file p d w = (Err ("ENOENT: no such file or directory, open '" +:+ p +:+ "'"), w).
Proof.
  intros Hd. unfold write_file. rewrite bind_run. cbn [gets].
  by rewrite bool_decide_eq_false_2 by done.
Qed.

Lemma bind_ret {A B} (a : A) (f : A -> M B) w : (mret a ≫= f) w = f a w.
Proof. reflexivity. Qed.

Lemma bind_ok {A B} (m : M A) (f : A -> M B) w a w' :
  m w = (Ok a, w') -> (m ≫= f) w = f a w'.
Proof. intros H. unfold mbind, M_bind. by rewrite H. Qed.

Lemma bind_err {A B} (m : M A) (f : A -> M B) w e w' :
  m w = (Err e, w') -> (m ≫= f) w = (Err e, w').
Proof. intros H. unfold mbind, M_bind. by rewrite H. Qed.

(** ** Paths *)

Lemma dirname_aux_noslash (b cur last : string) :
  str_has "/" b = false -> dirname_aux b cur last = last.
Proof.
  revert cur. induction b as [|c b IH]; intros cur Hb; [done|]. simpl.
  unfold str_has in Hb. simpl in Hb.
  destruct (Ascii.eqb_spec c "/"); [done|]. apply IH. by rewrite andb_true_l in Hb.
Qed.

Lemma dirname_aux_app_slash (a b cur last : string) :
  dirname_aux (a +:+ String "/" b) cur last = dirname_aux b (cur +:+ a +:+ "/") (cur +:+ a).
Proof.
  revert cur last. induction a as [|c a IH]; intros cur last.
  - rewrite sapp_nil_l, sapp_nil_r. reflexivity.
  - rewrite sapp_cons. simpl. rewrite !IH, !sapp_snoc_cons, !sapp_cons.
    by destruct (Ascii.eqb_spec c "/") as [->|].
Qed.

(** The directory of [path.join(dir, name)] is [dir] when [name] has no
    slash. *)
Lemma dirname_path_join (dir name : string) :
  dir <> "" -> str_has "/" name = false -> dirname (path_join dir name) = dir.
Proof.
  intros Hdir Hname. unfold dirname, path_join.
  destruct (String.eqb_spec dir "/") as [->|Hne].
  - rewrite sapp_cons, sapp_nil_l. simpl. by rewrite dirname_aux_noslash.
  - rewrite sapp_cons, sapp_nil_l, dirname_aux_app_slash, dirname_aux_noslash by done.
    rewrite sapp_nil_l. by destruct (String.eqb_spec dir "").
Qed.

Lemma path_join_nonempty (dir name : string) : path_join dir name <> "".
Proof.
  unfold path_join. destruct (String.eqb dir "/"); [done|].
  intros [_ H]%sapp_nil_inv. done.
Qed.

(** ** The fuel of [ancestors] is enough *)

Lemma dirname_aux_shorter (p cur last : string) :
  dirname_aux p cur last = last \/
  String.length (dirname_aux p cur last) < String.length cur + String.length p.
Proof.
  revert cur last. induction p as [|c p IH]; intros cur last; cbn; [by left|].
  destruct (Ascii.eqb c "/").
  - destruct (IH (cur +:+ "/") cur) as [-> | H]; right; [lia|].
    rewrite length_sapp in H. cbn in H. lia.
  - destruct (IH (cur +:+ String c "") last) as [-> | H]; [by left | right].
    rewrite length_sapp in H. cbn in H. lia.
Qed.

Lemma dirname_aux_prefix (p cur last : string) :
  dirname_aux p cur last = last \/ String.prefix cur (dirname_aux p cur last) = true.
Proof.
  revert cur last. induction p as [|c p IH]; intros cur last; cbn; [by left|].
  destruct (Ascii.eqb c "/").
  - destruct (IH (cur +:+ "/") cur) as [-> | H]; right; [apply prefix_refl|].
    exact (prefix_app_inv _ _ _ H).
  - destruct (IH (cur +:+ String c "") last) as [-> | H]; [by left | right].
    exact (prefix_app_inv _ _ _ H).
Qed.

Lemma dirname_abs (p : string) :
  String.prefix "/" p = true -> p <> "/" ->
  String.prefix "/" (dirname p) = true /\ String.length (dirname p) < String.length p.
Proof.
  destruct p as [|c p']; [done|]. cbn [String.prefix]. destruct (ascii_dec "/" c) as [<-|]; [|done]. intros _ Hp.
  unfold dirname. cbn [dirname_aux Ascii.eqb]. rewrite sapp_nil_l.
  destruct (dirname_aux_shorter p' "/" "") as [E1|Hl], (dirname_aux_prefix p' "/" "") as [E2|Hpre];
    rewrite ?E1, ?E2 in *; cbn in *.
  - split; [done|]. destruct p'; [done | cbn; lia].
  - split; [done|]. destruct p'; [done | cbn; lia].
  - split; [done|]. destruct p'; [done | cbn; lia].
  - destruct (String.eqb_spec (dirname_aux p' "/" "") ""); cbn; [|done].
    split; [done|]. destruct p'; [done | cbn; lia].
Qed.

(** The walk of [mkdirSync] from an absolute path ends at the root: the
    fuel [String.length p + 1] of [ancestors] is enough. *)
Lemma ancestors_fuel_root n (p : string) :
  String.prefix "/" p = true -> String.length p < n -> last (ancestors_fuel n p) = Some "/".
Proof.
  revert p. induction n as [|n IH]; intros p Hp Hl; [lia|]. cbn [ancestors_fuel].
  destruct (String.eqb_spec p "/") as [->|Hne]; [done|].
  destruct (dirname_abs p Hp Hne) as [Hp' Hl'].
  destruct n as [|n]; [destruct p as [|c [|d q]]; cbn in *; try done; lia|].
  rewrite last_cons, IH; [done | done | lia].
Qed.

Lemma ancestors_root (p : string) : String.prefix "/" p = true -> last (ancestors p) = Some "/".
Proof. intros Hp. apply ancestors_fuel_root; [done | lia]. Qed.

(** What [fs.existsSync(p)] tests: a file or a directory at [p]. *)
Definition file_exists (w : World) (p : string) : Prop := p ∈ dom (w_files w) \/ p ∈ w_dirs w.

Lemma run_existsSync p w : existsSync p w = (Ok (bool_decide (file_exists w p)), w).
Proof. reflexivity. Qed.

(** Run the monad's plumbing of a program forward, bind by bind. *)
Ltac mcompute :=
  repeat first
    [ rewrite bind_run
    | rewrite run_ask
    | rewrite run_locale_date_now
    | progress cbn [gets tick ask throw record_mail record_event set_files set_dirs
                    set_transporter existsSync env_var]
    | progress unfold mret, M_ret
    | progress cbv beta iota ];
  wsimpl.

(** ** Forward reasoning through binds *)

Lemma bind_ok_inv {A B} (m : M A) (f : A -> M B) w b w'' :
  (m ≫= f) w = (Ok b, w'') -> exists a w', m w = (Ok a, w') /\ f a w' = (Ok b, w'').
Proof.
  unfold mbind, M_bind. destruct (m w) as [[a|e] w']; intros H; [eauto | discriminate].
Qed.

Lemma try_catch_ok_inv {A} (m : M A) h w a w' :
  try_catch m h w = (Ok a, w') ->
  m w = (Ok a, w') \/ exists e w1, m w = (Err e, w1) /\ h e w1 = (Ok a, w').
Proof. unfold try_catch. destruct (m w) as [[b|e] w1]; intros H; [inv_result; auto | eauto]. Qed.

(** Two worlds with the same files, directories, working directory,
    oracle, environment, transport and trace: they differ at most in the
    oracle counter. *)
Definition same_fs (w w' : World) : Prop :=
  w_files w' = w_files w /\ w_dirs w' = w_dirs w /\ w_cwd w' = w_cwd w /\
  w_oracle w' = w_oracle w /\ w_trace w' = w_trace w /\ w_env w' = w_env w /\
  w_transporter w' = w_transporter w /\ w_sent w' = w_sent w.

Lemma same_fs_refl w : same_fs w w.
Proof. repeat split. Qed.

Lemma same_fs_advance w w' : same_fs w w' -> same_fs w (advance w').
Proof. unfold same_fs. wsimpl. done. Qed.

Lemma same_fs_trans w1 w2 w3 : same_fs w1 w2 -> same_fs w2 w3 -> same_fs w1 w3.
Proof. unfold same_fs. intuition congruence. Qed.

#[export] Hint Resolve same_fs_refl same_fs_advance : jsdb.

(** What a write leaves behind: on success the file is stored; on failure
    the world is as before, up to the oracle counter. *)
Lemma write_file_inv p d w r w' :
  write_file p d w = (r, w') ->
  (r = Ok tt /\ w' = with_files (advance w) (<[p := d]> (w_files w)) (EvWrite p)) \/
  (exists e, r = Err e /\ same_fs w w').
Proof.
  unfold write_file. rewrite bind_run. cbn [gets].
  case_bool_decide as Hdir.
  - rewrite bind_run, run_ask. wsimpl.
    destruct (io_error _ _ p) as [e|]; intros Hw; injection Hw as <- <-;
      [right; eauto with jsdb | left; done].
  - intros Hw. injection Hw as <- <-. right. eauto with jsdb.
Qed.

Ltac inv_pair H := injection H as <- <-.

(** ** Frame properties of whole programs

    [preserves R m]: every run of [m] relates its initial and final worlds
    by [R].  For a preorder [R], binds, [try]/[catch] and the pure
    primitives preserve [R]; each effectful primitive needs [R] to hold
    across its own update. *)

Definition lift {A} (r : result A) : M A := fun w => (r, w).

Section Preserves.
Context (R : World -> World -> Prop) `{!PreOrder R}.

Definition preserves {A} (m : M A) : Prop := forall w r w', m w = (r, w') -> R w w'.

Lemma preserves_ret {A} (a : A) : preserves (mret a).
Proof. intros w r w' H. inv_pair H. reflexivity. Qed.

Lemma preserves_throw {A} (msg : string) : preserves (throw (A := A) msg).
Proof. intros w r w' H. inv_pair H. reflexivity. Qed.

Lemma preserves_gets {A} (f : World -> A) : preserves (gets f).
Proof. intros w r w' H. inv_pair H. reflexivity. Qed.

Lemma preserves_lift {A} (x : result A) : preserves (lift x).
Proof. intros w r w' H. inv_pair H. reflexivity. Qed.

Lemma preserves_bind {A B} (m : M A) (f : A -> M B) :
  preserves m -> (forall a, preserves (f a)) -> preserves (m ≫= f).
Proof.
  intros Hm Hf w r w'. rewrite bind_run. destruct (m w) as [[a|e] w1] eqn:E.
  - intros H. etransitivity; [exact (Hm _ _ _ E) | exact (Hf a _ _ _ H)].
  - intros H. inv_pair H. exact (Hm _ _ _ E).
Qed.

Lemma preserves_try_catch {A} (m : M A) (h : string -> M A) :
  preserves m -> (forall e, preserves (h e)) -> preserves (try_catch m h).
Proof.
  intros Hm Hh w r w'. unfold try_catch. destruct (m w) as [[a|e] w1] eqn:E.
  - intros H. inv_pair H. exact (Hm _ _ _ E).
  - intros H. etransitivity; [exact (Hm _ _ _ E) | exact (Hh e _ _ _ H)].
Qed.

Context (Hadv : forall w, R w (advance w)).

Lemma preserves_tick : preserves tick.
Proof. intros w r w' H. inv_pair H. apply Hadv. Qed.

Lemma preserves_ask {A} (q : Oracle -> nat -> A) : preserves (ask q).
Proof. intros w r w'. rewrite run_ask. intros H. inv_pair H. apply Hadv. Qed.

Lemma preserves_locale_date_now : preserves locale_date_now.
Proof. intros w r w'. rewrite run_locale_date_now. intros H. inv_pair H. apply Hadv. Qed.

Lemma preserves_set_files fs ev :
  (forall w, R w (with_files w fs ev)) -> preserves (set_files fs ev).
Proof. intros Hf w r w' H. inv_pair H. apply Hf. Qed.

Lemma preserves_set_dirs ds ev :
  (forall w, R w (with_dirs w ds ev)) -> preserves (set_dirs ds ev).
Proof. intros Hd w r w' H. inv_pair H. apply Hd. Qed.

Lemma preserves_set_transporter t :
  (forall w, R w (with_transporter w t)) -> preserves (set_transporter t).
Proof. intros Ht w r w' H. inv_pair H. apply Ht. Qed.

Lemma preserves_record_mail m b :
  (forall w, R w (with_mail w m b)) -> preserves (record_mail m b).
Proof. intros Hm w r w' H. inv_pair H. apply Hm. Qed.

Lemma preserves_record_event ev :
  (forall w, R w (with_event w ev)) -> preserves (record_event ev).
Proof. intros He w r w' H. inv_pair H. apply He. Qed.

Lemma preserves_write_file p d :
  (forall w fs, R w (with_files w fs (EvWrite p))) -> preserves (write_file p d).
Proof.
  intros Hf. unfold write_file. apply preserves_bind; [apply preserves_gets | intros dirs].
  case_bool_decide; [|apply preserves_throw].
  apply preserves_bind; [apply preserves_ask | intros [e|]]; [apply preserves_throw|].
  apply preserves_bind; [apply preserves_gets | intros fs]. by apply preserves_set_files.
Qed.
End Preserves.

#[export] Hint Resolve preserves_ret preserves_throw preserves_gets preserves_lift
  preserves_tick preserves_ask preserves_locale_date_now : jsdb.

(** Decompose a program into its binds, branches and primitives. *)
Ltac solve_preserves :=
  repeat first
    [ apply preserves_bind; [..|intros ?]
    | apply preserves_try_catch; [..|intros ?]
    | apply preserves_write_file
    | apply preserves_set_files
    | apply preserves_set_dirs
    | apply preserves_set_transporter
    | apply preserves_record_mail
    | apply preserves_record_event
    | match goal with
      | |- preserves _ (match ?x with _ => _ end) => destruct x
      | |- preserves _ (if ?x then _ else _) => destruct x
      end
    | progress cbv zeta
    | solve [eauto with jsdb typeclass_instances] ].

(** Programs never change the oracle or the working directory. *)
Definition same_env (w w' : World) : Prop := w_oracle w' = w_oracle w /\ w_cwd w' = w_cwd w.

#[export] Instance same_env_preorder : PreOrder same_env.
Proof. split; [intros w; done | intros w1 w2 w3 [? ?] [? ?]; split; congruence]. Qed.

Lemma same_env_advance w : same_env w (advance w).
Proof. done. Qed.
Lemma same_env_files w fs ev : same_env w (with_files w fs ev).
Proof. done. Qed.
Lemma same_env_dirs w ds ev : same_env w (with_dirs w ds ev).
Proof. done. Qed.
Lemma same_env_transporter w t : same_env w (with_transporter w t).
Proof. done. Qed.
Lemma same_env_mail w m b : same_env w (with_mail w m b).
Proof. done. Qed.
Lemma same_env_event w ev : same_env w (with_event w ev).
Proof. done. Qed.

#[export] Hint Resolve same_env_advance same_env_files same_env_dirs same_env_transporter
  same_env_mail same_env_event : jsdb.
