(* ===== verification/CertService.v ===== *)
(** * CertService: [src/lib/certificate-generator.js]

    The module creates the certificates directory when it is loaded
    (lines 6-10, [module_init]); [generateCertificate] (lines 12-40)
    destructures the request body, builds the certificate id from
    [Date.now()] and [Math.random()] (line 16), renders the image
    ([generateJPG], lines 42-146: the drawing of [Canvas.jpg_ops], then a
    JPEG encode and write, with a PNG encode and write when either throws)
    and the document ([generatePDF], lines 148-213: the drawing of
    [Pdf.pdf_ops] streamed to a file), and returns the paths. *)

From stdpp Require Import gmap.
From S2P Require Import Prelude JsString JsValue Layout Canvas Pdf Runtime.

Local Open Scope string_scope.
Local Open Scope list_scope.
Local Open Scope js_scope.

Module CertService.

(** [path.join(process.cwd(), "public", "certificates")] *)
Definition certificatesDir (cwd : string) : string :=
  path_join (path_join cwd "public") "certificates".

(** Lines 7-10, run when the module is first imported. *)
Definition module_init : M unit :=
  dir ← gets (fun w => certificatesDir (w_cwd w));
  ex ← existsSync dir;
  if ex is true then mret tt else mkdirSync_recursive dir.

(** [`cert-${Date.now()}-${Math.random().toString(36).substr(2, 9)}`] *)
Definition make_certificate_id (now : Z) (r36 : string) : string :=
  "cert-" +:+ js_Z_to_string now +:+ "-" +:+ js_substr r36 2 (Some 9%Z).

Record CertArtifact := {
  certificateId : string;
  jpgPath : string;
  pdfPath : string;
  fileName : string;
}.

(** [const { name, email, gstNumber, businessName, businessAddress } = data]
    and the conversion to strings that [fillText] and PDFKit's [text]
    apply to the fields. *)
Definition fields_of (body : JsValue) : result CertFields :=
  name ← body.["name"];
  _ ← body.["email"];
  gst ← body.["gstNumber"];
  bn ← body.["businessName"];
  ba ← body.["businessAddress"];
  Ok {| cf_name := js_to_string name; cf_gstNumber := js_to_string gst;
        cf_businessName := js_to_string bn; cf_businessAddress := js_to_string ba |}.

(** [canvas.toBuffer(cb, "image/jpeg", { quality: 0.95 })]: the callback's
    error rejects the promise. *)
Definition encode_jpeg : M unit :=
  e ← ask jpeg_error; match e with Some m => throw m | None => mret tt end.

(** [canvas.toBuffer("image/png")], which throws on failure. *)
Definition encode_png : M unit :=
  e ← ask png_error; match e with Some m => throw m | None => mret tt end.

(** Lines 42-146. *)
Definition generateJPG (certificateId : string) (data : CertFields) : M string :=
  date ← locale_date_now;
  let marks := Canvas.jpg_marks data date in
  dir ← gets (fun w => certificatesDir (w_cwd w));
  let jpgPath := path_join dir (certificateId +:+ ".jpg") in
  try_catch
    (encode_jpeg ;; writeFileSync jpgPath (ImageFile Jpeg marks) ;; mret jpgPath)
    (fun _ =>
       encode_png ;;
       let pngPath := js_replace jpgPath ".jpg" ".png" in
       writeFileSync pngPath (ImageFile Png marks) ;;
       mret pngPath).

(** Lines 148-213: the drawing runs synchronously (the date is read at
    line 202), then the stream opens [pdfPath]; its [error] event rejects,
    its [finish] event resolves with the path. *)
Definition generatePDF (certificateId : string) (data : CertFields) : M string :=
  dir ← gets (fun w => certificatesDir (w_cwd w));
  let pdfPath := path_join dir (certificateId +:+ ".pdf") in
  date ← locale_date_now;
  write_file pdfPath (PdfFile (Pdf.pdf_marks data date)) ;;
  mret pdfPath.

(** Lines 12-40. *)
Definition generateCertificate (body : JsValue) : M CertArtifact :=
  data ← lift (fields_of body);
  now ← date_now;
  r ← ask random36;
  let cid := make_certificate_id now r in
  jpg ← generateJPG cid data;
  pdf ← generatePDF cid data;
  mret {| certificateId := cid; jpgPath := jpg; pdfPath := pdf; fileName := cid |}.

(** ** Running the renderers *)

Lemma encode_jpeg_inv w r w' : encode_jpeg w = (r, w') -> w' = advance w.
Proof.
  unfold encode_jpeg. rewrite bind_run, run_ask.
  destruct (jpeg_error _ _); intros H; by inv_pair H.
Qed.

Lemma encode_png_inv w r w' : encode_png w = (r, w') -> w' = advance w.
Proof.
  unfold encode_png. rewrite bind_run, run_ask.
  destruct (png_error _ _); intros H; by inv_pair H.
Qed.

Section Attempt.
(** An encode followed by a write of [p], as in lines 122-145. *)
Context (enc : M unit) (Henc : forall w r w', enc w = (r, w') -> w' = advance w).

Lemma attempt_ok p d w q w' :
  (enc ;; writeFileSync p d ;; mret p) w = (Ok q, w') ->
  q = p /\ exists w0, same_fs w w0 /\ w' = with_files w0 (<[p := d]> (w_files w)) (EvWrite p).
Proof.
  intros H. apply bind_ok_inv in H as ([] & w1 & H1 & H). apply Henc in H1 as ->.
  apply bind_ok_inv in H as ([] & w2 & H2 & H). unfold writeFileSync in H2.
  apply write_file_inv in H2 as [[_ ->] | (e & ? & _)]; [|discriminate].
  inv_pair H. split; [done|]. exists (advance (advance w)). auto with jsdb.
Qed.

Lemma attempt_err p d w e w' :
  (enc ;; writeFileSync p d ;; mret p) w = (Err e, w') -> same_fs w w'.
Proof.
  rewrite bind_run. destruct (enc w) as [r1 w1] eqn:E1. apply Henc in E1 as ->.
  destruct r1 as [[]|e1]; [|intros H; inv_pair H; auto with jsdb].
  rewrite bind_run. unfold writeFileSync.
  destruct (write_file p d (advance w)) as [r2 w2] eqn:E2.
  apply write_file_inv in E2 as [[-> ->] | (e2 & -> & Hs)]; [discriminate|].
  intros H. inv_pair H. eapply same_fs_trans; [|exact Hs]. auto with jsdb.
Qed.
End Attempt.

Lemma encode_jpeg_ok_inv {A} (m : M A) w a w' :
  (encode_jpeg ;; m) w = (Ok a, w') -> jpeg_error (w_oracle w) (w_tick w) = None.
Proof. unfold encode_jpeg. rewrite !bind_run, run_ask. by destruct (jpeg_error _ _). Qed.

Lemma generateJPG_inv cid data w p w' :
  generateJPG cid data w = (Ok p, w') ->
  let marks := Canvas.jpg_marks data (locale_date (w_oracle w) (clock (w_oracle w) (w_tick w))) in
  let jpg := path_join (certificatesDir (w_cwd w)) (cid +:+ ".jpg") in
  (p = jpg \/ p = js_replace jpg ".jpg" ".png") /\
  exists fmt w0, same_fs w w0 /\ w' = with_files w0 (<[p := ImageFile fmt marks]> (w_files w)) (EvWrite p) /\
    (jpeg_error (w_oracle w) (S (w_tick w)) <> None -> fmt = Png).
Proof.
  unfold generateJPG. intros H.
  apply bind_ok_inv in H as (date & w1 & Hd & H). rewrite run_locale_date_now in Hd. inv_pair Hd.
  apply bind_ok_inv in H as (dir & w2 & Hdir & H). inv_pair Hdir. wsimpl.
  apply try_catch_ok_inv in H as [H | (e & w3 & H1 & H)].
  - pose proof (encode_jpeg_ok_inv _ _ _ _ H) as Hj. wsimpl.
    apply attempt_ok in H as [-> (w0 & Hs & ->)]; [|exact encode_jpeg_inv].
    split; [by left|]. exists Jpeg, w0. split; [|split; [done | by rewrite Hj]].
    eapply same_fs_trans; [|exact Hs]. auto with jsdb.
  - apply attempt_err in H1; [|exact encode_jpeg_inv].
    apply attempt_ok in H as [-> (w0 & Hs & ->)]; [|exact encode_png_inv].
    split; [by right|]. exists Png, w0. split; [|split; [|done]].
    + eapply same_fs_trans; [|exact Hs]. eapply same_fs_trans; [|exact H1]. auto with jsdb.
    + destruct H1 as (Hf & _). by rewrite Hf.
Qed.

Lemma generatePDF_inv cid data w p w' :
  generatePDF cid data w = (Ok p, w') ->
  p = path_join (certificatesDir (w_cwd w)) (cid +:+ ".pdf") /\
  exists w0, same_fs w w0 /\
    w' = with_files w0
           (<[p := PdfFile (Pdf.pdf_marks data (locale_date (w_oracle w) (clock (w_oracle w) (w_tick w))))]>
              (w_files w)) (EvWrite p).
Proof.
  unfold generatePDF. intros H.
  apply bind_ok_inv in H as (dir & w1 & Hdir & H). inv_pair Hdir.
  apply bind_ok_inv in H as (date & w2 & Hd & H). rewrite run_locale_date_now in Hd. inv_pair Hd.
  apply bind_ok_inv in H as ([] & w3 & Hw & H).
  apply write_file_inv in Hw as [[_ ->] | (e & ? & _)]; [|discriminate].
  inv_pair H. split; [done|]. exists (advance (advance w)). split; [auto with jsdb | done].
Qed.

Lemma last_char_path_join dir (x ext : string) :
  ext <> "" -> last_char (path_join dir (x +:+ ext)) = last_char ext.
Proof.
  intros He. unfold path_join.
  destruct (String.eqb dir "/"); rewrite ?sapp_assoc, last_char_app by done; done.
Qed.

(** ** The PNG fallback path *)

Lemma certificatesDir_not_root cwd : certificatesDir cwd <> "/".
Proof.
  unfold certificatesDir, path_join at 1. intros H.
  apply (f_equal String.length) in H. destruct (String.eqb _ "/"); rewrite !length_sapp in H; cbn in H; lia.
Qed.

(** [jpgPath.replace(".jpg", ".png")] rewrites the directory part of the
    path when the directory already contains [".jpg"]. *)
Lemma js_replace_path_join dir name :
  str_index_of ".jpg" dir <> None -> dir <> "/" ->
  js_replace (path_join dir name) ".jpg" ".png" = path_join (js_replace dir ".jpg" ".png") name.
Proof.
  intros Hin Hdir. unfold path_join.
  destruct (String.eqb_spec dir "/"); [done|].
  destruct (String.eqb_spec (js_replace dir ".jpg" ".png") "/") as [Hr|].
  - pose proof (length_js_replace_ge dir ".jpg" ".png" Hin) as Hl. rewrite Hr in Hl. cbn in Hl. lia.
  - by rewrite js_replace_app.
Qed.

Lemma js_replace_nonempty dir : str_index_of ".jpg" dir <> None -> js_replace dir ".jpg" ".png" <> "".
Proof. intros Hin Hr. pose proof (length_js_replace_ge dir ".jpg" ".png" Hin) as Hl. rewrite Hr in Hl. cbn in Hl. lia. Qed.

(** When the JPEG encoder fails and the directory path contains [".jpg"],
    the fallback writes into a directory whose name has [".png"] instead;
    if that directory does not exist, [generateJPG] throws [ENOENT] and
    writes nothing. *)
Lemma generateJPG_fallback_enoent cid data w e :
  jpeg_error (w_oracle w) (S (w_tick w)) = Some e ->
  png_error (w_oracle w) (S (S (w_tick w))) = None ->
  str_has "/" cid = false ->
  str_index_of ".jpg" (certificatesDir (w_cwd w)) <> None ->
  js_replace (certificatesDir (w_cwd w)) ".jpg" ".png" ∉ w_dirs w ->
  generateJPG cid data w =
  (Err ("ENOENT: no such file or directory, open '" +:+
        path_join (js_replace (certificatesDir (w_cwd w)) ".jpg" ".png") (cid +:+ ".jpg") +:+ "'"),
   advance (advance (advance w))).
Proof.
  intros Hj Hp Hcid Hin Hdir. unfold generateJPG. rewrite bind_run, run_locale_date_now.
  cbn [gets]. rewrite bind_run. cbn [gets]. unfold try_catch, encode_jpeg.
  rewrite !bind_run, run_ask. wsimpl. rewrite Hj. cbn [throw].
  unfold encode_png. rewrite !bind_run, run_ask. wsimpl. rewrite Hp. unfold mret, M_ret.
  cbv beta iota. rewrite bind_run. unfold writeFileSync.
  rewrite js_replace_path_join by auto using certificatesDir_not_root.
  rewrite run_write_file_enoent; [done|]. wsimpl.
  rewrite dirname_path_join; [done | by apply js_replace_nonempty |].
  rewrite str_has_app. by rewrite Hcid.
Qed.

(** Without [".jpg"] in the directory, [replace] changes the extension. *)
Lemma js_replace_png_path dir cid :
  dir <> "/" -> str_index_of ".jpg" dir = None -> str_has "." cid = false ->
  js_replace (path_join dir (cid +:+ ".jpg")) ".jpg" ".png" = path_join dir (cid +:+ ".png").
Proof.
  intros Hroot Hdir Hcid. unfold path_join. destruct (String.eqb_spec dir "/"); [done|].
  rewrite !sapp_cons, !sapp_nil_l.
  replace (dir +:+ String "/" (cid +:+ ".jpg")) with ((dir +:+ String "/" cid) +:+ ".jpg")
    by (by rewrite <- sapp_assoc, sapp_cons).
  replace (dir +:+ String "/" (cid +:+ ".png")) with ((dir +:+ String "/" cid) +:+ ".png")
    by (by rewrite <- sapp_assoc, sapp_cons).
  apply js_replace_suffix. rewrite <- sapp_assoc, sapp_cons, str_index_of_sep by done.
  rewrite str_index_of_suffix by done. cbn. rewrite length_sapp. cbn. f_equal. lia.
Qed.

(** Spec section 8, scenario D, for the image: the JPEG encoder fails,
    the PNG encoder and the disk succeed, and the image is written as
    [<id>.png]. *)
Lemma generateJPG_fallback_ok cid data w e :
  jpeg_error (w_oracle w) (S (w_tick w)) = Some e ->
  png_error (w_oracle w) (S (S (w_tick w))) = None ->
  (forall n p, io_error (w_oracle w) n p = None) ->
  str_has "/" cid = false -> str_has "." cid = false ->
  str_index_of ".jpg" (certificatesDir (w_cwd w)) = None ->
  certificatesDir (w_cwd w) ∈ w_dirs w ->
  let png := path_join (certificatesDir (w_cwd w)) (cid +:+ ".png") in
  exists w', generateJPG cid data w = (Ok png, w') /\
    w_files w' = <[png := ImageFile Png
                     (Canvas.jpg_marks data (locale_date (w_oracle w) (clock (w_oracle w) (w_tick w))))]>
                   (w_files w) /\ same_env w w' /\ w_dirs w' = w_dirs w.
Proof.
  intros Hj Hp Hio Hcid Hdot Hin Hdir png. unfold generateJPG. rewrite bind_run, run_locale_date_now.
  cbn [gets]. rewrite bind_run. cbn [gets]. unfold try_catch, encode_jpeg.
  rewrite !bind_run, run_ask. wsimpl. rewrite Hj. cbn [throw].
  unfold encode_png. rewrite !bind_run, run_ask. wsimpl. rewrite Hp. unfold mret, M_ret.
  cbv beta iota. rewrite bind_run. unfold writeFileSync.
  rewrite js_replace_png_path by auto using certificatesDir_not_root.
  rewrite run_write_file_ok; wsimpl; [by eexists | | apply Hio].
  rewrite dirname_path_join; [done | apply path_join_nonempty |].
  rewrite str_has_app. by rewrite Hcid.
Qed.

(** ** What generation does not touch *)

(** Generation leaves the delivered mail and the transport alone and adds
    no mail event to the trace. *)
Definition no_mail_frame (w w' : World) : Prop :=
  w_sent w' = w_sent w /\ w_transporter w' = w_transporter w /\ w_env w' = w_env w /\
  exists evs, w_trace w' = w_trace w ++ evs /\ Forall (fun e => forall m, e <> EvSendMail m) evs.

#[export] Instance no_mail_frame_preorder : PreOrder no_mail_frame.
Proof.
  split.
  - intros w. repeat split. exists []. by rewrite app_nil_r.
  - intros w1 w2 w3 (Hs1 & Ht1 & He1 & evs1 & Htr1 & Hf1) (Hs2 & Ht2 & He2 & evs2 & Htr2 & Hf2).
    repeat split; try congruence. exists (evs1 ++ evs2). split.
    + by rewrite Htr2, Htr1, app_assoc.
    + by apply Forall_app.
Qed.

Lemma no_mail_frame_advance w : no_mail_frame w (advance w).
Proof. repeat split. exists []. by rewrite app_nil_r. Qed.

Lemma no_mail_frame_write w fs p : no_mail_frame w (with_files w fs (EvWrite p)).
Proof. repeat split. exists [EvWrite p]. split; [done|]. repeat constructor. done. Qed.

Lemma no_mail_frame_mkdir w ds dir : no_mail_frame w (with_dirs w ds (EvMkdir dir)).
Proof. repeat split. exists [EvMkdir dir]. split; [done|]. repeat constructor. done. Qed.

#[export] Hint Resolve no_mail_frame_advance no_mail_frame_write no_mail_frame_mkdir : jsdb.

Lemma generateCertificate_frame body : preserves no_mail_frame (generateCertificate body).
Proof.
  unfold generateCertificate, generateJPG, generatePDF, encode_jpeg, encode_png,
    writeFileSync, date_now.
  solve_preserves.
Qed.

Lemma module_init_frame : preserves no_mail_frame module_init.
Proof. unfold module_init, mkdirSync_recursive, existsSync. solve_preserves. Qed.

Lemma generateCertificate_env body : preserves same_env (generateCertificate body).
Proof.
  unfold generateCertificate, generateJPG, generatePDF, encode_jpeg, encode_png,
    writeFileSync, date_now.
  solve_preserves.
Qed.

(** C17: module initialisation (lines 7-10) leaves the directory
    [<cwd>/public/certificates] in place when no regular file lies on its
    path, creating it and its missing ancestors; when the directory is
    missing and a regular file has the path of one of its ancestors,
    [mkdirSync] throws [ENOTDIR] and the module fails to load.  (When a
    regular file has the path of the directory itself, [existsSync] is
    true and nothing is made.) *)
Theorem module_init_dir w :
  let dir := certificatesDir (w_cwd w) in
  (Forall (fun p => p ∉ dom (w_files w)) (ancestors dir) ->
   dir ∈ w_dirs (snd (module_init w))) /\
  (dir ∉ w_dirs w -> dir ∉ dom (w_files w) -> Exists (fun p => p ∈ dom (w_files w)) (ancestors dir) ->
   fst (module_init w) = Err ("ENOTDIR: not a directory, mkdir '" +:+ dir +:+ "'")).
Proof.
  cbv zeta. unfold module_init. rewrite bind_run. cbn [gets]. rewrite bind_run, run_existsSync.
  split.
  - intros Hf. case_bool_decide as He; cbn.
    + destruct He as [Hd | Hd]; [|exact Hd].
      exfalso. unfold ancestors in Hf. cbn [ancestors_fuel] in Hf.
      destruct (String.eqb_spec (certificatesDir (w_cwd w)) "/") as [Heq|];
        apply Forall_inv in Hf; [rewrite Heq in Hd|]; contradiction.
    + unfold mkdirSync_recursive. rewrite bind_run. cbn [gets].
      rewrite bool_decide_eq_false_2 by (by rewrite <- Forall_Exists_neg).
      cbn. apply elem_of_union_l, elem_of_list_to_set. unfold ancestors. cbn [ancestors_fuel].
      destruct (String.eqb_spec (certificatesDir (w_cwd w)) "/") as [->|]; apply list_elem_of_here.
  - intros Hd Hf Hex. rewrite bool_decide_eq_false_2 by (intros [?|?]; contradiction).
    cbn. unfold mkdirSync_recursive. rewrite bind_run. cbn [gets].
    by rewrite bool_decide_eq_true_2.
Qed.

(** ** Certificate ids *)

(** The lowercase digits of [Number.prototype.toString(36)]. *)
Definition is_base36 (c : ascii) : bool :=
  is_digit c || (Ascii.leb "a" c && Ascii.leb c "z").

(** What [Math.random().toString(36)] returns for a double in [0, 1):
    ["0"] for zero, otherwise ["0."] and at least one base-36 digit. *)
Definition radix36_output (s : string) : Prop :=
  s = "0" \/ exists ds, s = ("0." +:+ ds)%string /\ ds <> "" /\ str_all is_base36 ds = true.

Definition id_suffix (r36 : string) : string := js_substr r36 2 (Some 9%Z).

(** Reading an id back: ["cert-"], decimal digits, ["-"], the suffix. *)
Definition parse_certificate_id (s : string) : option (N * string) :=
  if String.prefix "cert-" s then
    let '(ds, after) := scan_digits 10 (String.substring 5 (String.length s) s) in
    match ds, after with
    | String _ _, String c sfx => if Ascii.eqb c "-" then Some (digits_value 10 ds, sfx) else None
    | _, _ => None
    end
  else None.

Lemma js_Z_to_string_nonneg (z : Z) : (0 <= z)%Z -> js_Z_to_string z = js_N_to_string (Z.to_N z).
Proof. intros Hz. unfold js_Z_to_string. by destruct (Z.ltb_spec z 0); [lia|]. Qed.

Lemma id_suffix_cases r :
  radix36_output r ->
  (r = "0" /\ id_suffix r = "") \/
  (exists ds, r = ("0." +:+ ds)%string /\ id_suffix r = String.substring 0 9 ds /\
              str_all is_base36 ds = true).
Proof.
  intros [-> | (ds & -> & _ & Hds)]; [left; done | right].
  exists ds. unfold id_suffix. by rewrite js_substr_after_prefix.
Qed.

Lemma id_suffix_base36 r : radix36_output r -> str_all is_base36 (id_suffix r) = true.
Proof.
  intros [[_ ->] | (ds & _ & -> & Hds)]%id_suffix_cases; [done|].
  by apply str_all_substring.
Qed.

Lemma base36_char c :
  is_base36 c = true -> Ascii.eqb c "-" = false /\ Ascii.eqb c "/" = false /\ Ascii.eqb c "." = false.
Proof. ascii_cases c. Qed.

Lemma make_certificate_id_eq now r :
  (0 <= now)%Z ->
  make_certificate_id now r = ("cert-" +:+ js_N_to_string (Z.to_N now) +:+ "-" +:+ id_suffix r)%string.
Proof. intros Hn. unfold make_certificate_id. by rewrite js_Z_to_string_nonneg. Qed.

(** C15: the certificate id reads back: parsing [make_certificate_id now r]
    gives the timestamp and the random suffix, so the id determines the
    time it was made at. *)
Theorem certificate_id_roundtrip now r :
  (0 <= now)%Z -> radix36_output r ->
  parse_certificate_id (make_certificate_id now r) = Some (Z.to_N now, id_suffix r).
Proof.
  intros Hn Hr. rewrite make_certificate_id_eq by done. unfold parse_certificate_id.
  rewrite prefix_app.
  change 5 with (String.length "cert-" + 0). rewrite substring_app_r.
  rewrite substring_0_ge by (rewrite !length_sapp; lia).
  rewrite scan_digits_all.
  - pose proof (js_N_to_string_nonempty (Z.to_N now)) as Hne.
    destruct (js_N_to_string (Z.to_N now)) as [|d ds] eqn:E; [done|].
    rewrite sapp_cons, sapp_nil_l. simpl. rewrite <- E. by rewrite js_N_to_string_value.
  - apply js_N_to_string_digits.
  - done.
Qed.

Lemma certificate_id_roundtrip_witness :
  (0 <= 1731196800123)%Z /\ radix36_output "0.4fzyo82mvyr" /\
  parse_certificate_id (make_certificate_id 1731196800123 "0.4fzyo82mvyr")
    = Some (1731196800123%N, "4fzyo82mv").
Proof.
  assert (H : radix36_output "0.4fzyo82mvyr") by (right; exists "4fzyo82mvyr"; done).
  split; [lia | split; [exact H|]].
  exact (certificate_id_roundtrip 1731196800123 "0.4fzyo82mvyr" ltac:(lia) H).
Defined.

(** C16: the random part of the id has at most nine characters, all
    lowercase base-36 digits, and exactly [min 9 n] of them when the
    random number prints with [n] digits: a number with a short base-36
    expansion (such as 0.5, printed ["0.i"]) gives a suffix shorter than
    the nine characters spec section 4.3 states. *)
Theorem certificate_id_suffix now r :
  (0 <= now)%Z -> radix36_output r ->
  make_certificate_id now r = ("cert-" +:+ js_N_to_string (Z.to_N now) +:+ "-" +:+ id_suffix r)%string /\
  str_all is_base36 (id_suffix r) = true /\
  (forall ds, r = ("0." +:+ ds)%string -> String.length (id_suffix r) = Nat.min 9 (String.length ds)).
Proof.
  intros Hn Hr. split; [by apply make_certificate_id_eq|]. split; [by apply id_suffix_base36|].
  intros ds ->. unfold id_suffix. rewrite js_substr_after_prefix. apply substring_0_length.
Qed.

Lemma certificate_id_suffix_witness :
  (0 <= 1731196800123)%Z /\ radix36_output "0.i" /\
  String.length (id_suffix "0.i") = 1.
Proof.
  assert (H : radix36_output "0.i") by (right; exists "i"; done).
  split; [lia | split; [exact H|]].
  exact (proj2 (proj2 (certificate_id_suffix 1731196800123 "0.i" ltac:(lia) H)) "i" eq_refl).
Defined.

(** No id contains a slash, so it names a file inside the directory. *)
(** A character that is neither a decimal nor a base-36 digit, nor in
    ["cert-"], does not occur in an id. *)
Lemma make_certificate_id_avoid now r c :
  (0 <= now)%Z -> radix36_output r -> is_digit c = false -> is_base36 c = false ->
  str_has c "cert-" = false -> str_has c "-" = false -> str_has c (make_certificate_id now r) = false.
Proof.
  intros Hn Hr Hd Hb Hc Hm. rewrite make_certificate_id_eq by done. rewrite !str_has_app, Hc, Hm.
  rewrite (str_all_has_false is_digit c (js_N_to_string _)) by (done || apply js_N_to_string_digits).
  by rewrite (str_all_has_false is_base36 c (id_suffix r)) by (done || by apply id_suffix_base36).
Qed.

Lemma make_certificate_id_no_slash now r :
  (0 <= now)%Z -> radix36_output r -> str_has "/" (make_certificate_id now r) = false.
Proof. intros Hn Hr. by apply make_certificate_id_avoid. Qed.

Lemma make_certificate_id_no_dot now r :
  (0 <= now)%Z -> radix36_output r -> str_has "." (make_certificate_id now r) = false.
Proof. intros Hn Hr. by apply make_certificate_id_avoid. Qed.

(** ** Generation in an environment where nothing fails *)

Lemma fields_of_defined body : body <> JNull -> body <> JUndefined -> exists f, fields_of body = Ok f.
Proof. destruct body; try congruence; intros _ _; eexists; reflexivity. Qed.

(** The encoder and the disk never fail, the clock is past the epoch and
    [Math.random] prints as [toString(36)] does. *)
Definition healthy (o : Oracle) : Prop :=
  (forall n, jpeg_error o n = None) /\ (forall n p, io_error o n p = None) /\
  (forall n, (0 <= clock o n)%Z) /\ (forall n, radix36_output (random36 o n)).

Lemma sample_oracle_healthy : healthy sample_oracle.
Proof.
  split; [done|]. split; [done|]. split; [intros; cbn; lia|]. intros n. right. by exists "4fzyo82mvyr".
Qed.

Lemma certificatesDir_nonempty cwd : certificatesDir cwd <> "".
Proof. apply path_join_nonempty. Qed.

Lemma dirname_in_certificatesDir w cid ext :
  str_has "/" cid = false -> str_has "/" ext = false ->
  dirname (path_join (certificatesDir (w_cwd w)) (cid +:+ ext)) = certificatesDir (w_cwd w).
Proof.
  intros Hc He. apply dirname_path_join; [apply certificatesDir_nonempty|].
  by rewrite str_has_app, Hc, He.
Qed.

Lemma generateJPG_ok cid data w :
  healthy (w_oracle w) -> str_has "/" cid = false -> certificatesDir (w_cwd w) ∈ w_dirs w ->
  exists w', generateJPG cid data w = (Ok (path_join (certificatesDir (w_cwd w)) (cid +:+ ".jpg")), w').
Proof.
  intros (Hj & Hio & _) Hcid Hdir. unfold generateJPG. rewrite bind_run, run_locale_date_now.
  cbn [gets]. rewrite bind_run. cbn [gets]. unfold try_catch, encode_jpeg.
  rewrite !bind_run, run_ask. wsimpl. rewrite Hj. unfold mret, M_ret. cbv beta iota.
  rewrite bind_run. unfold writeFileSync.
  rewrite run_write_file_ok; wsimpl; [by eexists | | apply Hio].
  by rewrite dirname_in_certificatesDir.
Qed.

Lemma generatePDF_ok cid data w :
  (forall n p, io_error (w_oracle w) n p = None) -> str_has "/" cid = false ->
  certificatesDir (w_cwd w) ∈ w_dirs w ->
  exists w', generatePDF cid data w = (Ok (path_join (certificatesDir (w_cwd w)) (cid +:+ ".pdf")), w').
Proof.
  intros Hio Hcid Hdir. unfold generatePDF. rewrite bind_run. cbn [gets].
  rewrite bind_run, run_locale_date_now, bind_run.
  rewrite run_write_file_ok; wsimpl; [by eexists | | apply Hio].
  by rewrite dirname_in_certificatesDir.
Qed.

Lemma generateCertificate_ok body w f :
  fields_of body = Ok f -> healthy (w_oracle w) -> certificatesDir (w_cwd w) ∈ w_dirs w ->
  exists a w', generateCertificate body w = (Ok a, w') /\
    jpgPath a = path_join (certificatesDir (w_cwd w)) (certificateId a +:+ ".jpg") /\
    pdfPath a = path_join (certificatesDir (w_cwd w)) (certificateId a +:+ ".pdf").
Proof.
  intros Hf Hh Hdir. pose proof Hh as (_ & _ & Hc & Hr).
  unfold generateCertificate, lift. rewrite bind_run, Hf, bind_run. unfold date_now.
  rewrite run_ask, bind_run, run_ask. wsimpl.
  set (cid := make_certificate_id _ _).
  assert (Hcid : str_has "/" cid = false) by (apply make_certificate_id_no_slash; auto).
  destruct (generateJPG_ok cid f (advance (advance w))) as (w1 & Ej); wsimpl; [done..|].
  rewrite bind_run, Ej.
  apply generateJPG_inv in Ej as [_ (fmt & w0 & (_ & Hd0 & Hc0 & Ho0 & _) & -> & _)]. wsimpl.
  rewrite bind_run.
  match goal with |- context [generatePDF cid f ?w3] =>
    destruct (generatePDF_ok cid f w3) as (w2 & Ep) end;
    wsimpl; [rewrite Ho0; apply Hh | done | by rewrite Hd0, Hc0 |].
  rewrite Ep. eexists _, _. split; [reflexivity|]. by rewrite Hc0.
Qed.

(** ** Both artifacts *)

(** What a successful generation leaves on disk. *)
Lemma generateCertificate_written body w a w' :
  generateCertificate body w = (Ok a, w') ->
  exists f fmt d1 d2,
    fields_of body = Ok f /\
    w_files w' !! jpgPath a = Some (ImageFile fmt (Canvas.jpg_marks f d1)) /\
    w_files w' !! pdfPath a = Some (PdfFile (Pdf.pdf_marks f d2)) /\
    w_trace w' = w_trace w ++ [EvWrite (jpgPath a); EvWrite (pdfPath a)] /\
    (jpeg_error (w_oracle w) (w_tick w + 3) <> None -> fmt = Png).
Proof.
  unfold generateCertificate. intros H.
  apply bind_ok_inv in H as (f & w1 & Hf & H). unfold lift in Hf.
  destruct (fields_of body) as [f'|e] eqn:Ef; [|discriminate Hf]. inv_pair Hf.
  apply bind_ok_inv in H as (now & w2 & Hn & H). unfold date_now in Hn. rewrite run_ask in Hn. inv_pair Hn.
  apply bind_ok_inv in H as (r & w3 & Hr & H). rewrite run_ask in Hr. inv_pair Hr.
  apply bind_ok_inv in H as (jpg & w4 & Hj & H).
  apply bind_ok_inv in H as (pdf & w5 & Hp & H). inv_pair H. cbn [jpgPath pdfPath].
  apply generateJPG_inv in Hj as [Hjp (fmt & w0 & Hs0 & -> & Hfmt)].
  apply generatePDF_inv in Hp as [Hpp (w6 & Hs6 & ->)].
  destruct Hs6 as (_ & _ & _ & _ & Ht6 & _). destruct Hs0 as (_ & _ & _ & _ & Ht0 & _). wsimpl.
  assert (Hne : jpg <> pdf).
  { intros <-. assert (Hl : last_char jpg = Some "g"%char).
    { destruct Hjp as [-> | ->]; [by rewrite last_char_path_join|].
      apply js_replace_last_char; [by rewrite last_char_path_join | done]. }
    rewrite Hpp, last_char_path_join in Hl by done. discriminate. }
  eexists f', fmt, _, _. split; [done|]. split.
  { rewrite lookup_insert_ne by done. apply lookup_insert_eq. }
  split; [apply lookup_insert_eq|].
  split; [rewrite Ht6; wsimpl; rewrite Ht0; wsimpl; by rewrite <- app_assoc|].
  wsimpl. intros He. apply Hfmt. by replace (S (S (S (w_tick w)))) with (w_tick w + 3) by lia.
Qed.

(** C6: whatever the encoders and the disk do, when [generateCertificate]
    succeeds it has written exactly two files, in this order, the image
    (JPEG or its PNG fallback) and then the document, at two different
    paths; both show the nine lines of the certificate layout, with the
    same texts, colors, sizes and weights, drawn from the same request
    fields (the date line of each carries the date read when it was
    drawn). *)
Theorem generateCertificate_artifacts body w a w' :
  generateCertificate body w = (Ok a, w') ->
  exists f fmt d1 d2 m1 m2,
    fields_of body = Ok f /\
    w_files w' !! jpgPath a = Some (ImageFile fmt m1) /\
    w_files w' !! pdfPath a = Some (PdfFile m2) /\
    omap mark_line m1 = certificate_layout f d1 /\
    omap mark_line m2 = certificate_layout f d2 /\
    w_trace w' = w_trace w ++ [EvWrite (jpgPath a); EvWrite (pdfPath a)].
Proof.
  intros H. apply generateCertificate_written in H as (f & fmt & d1 & d2 & Hf & Hj & Hp & Ht & _).
  eexists f, fmt, d1, d2, _, _. repeat split; [done | exact Hj | exact Hp | | | done].
  - exact (render_layout (Mark := Canvas.Mark) f d1).
  - exact (render_layout (Mark := Pdf.PMark) f d2).
Qed.

Lemma generateCertificate_artifacts_witness :
  exists a w', generateCertificate sample_body (snd (module_init sample_world)) = (Ok a, w') /\
  exists f fmt d1 d2 m1 m2,
    fields_of sample_body = Ok f /\
    w_files w' !! jpgPath a = Some (ImageFile fmt m1) /\
    w_files w' !! pdfPath a = Some (PdfFile m2) /\
    omap mark_line m1 = certificate_layout f d1 /\
    omap mark_line m2 = certificate_layout f d2 /\
    w_trace w' = w_trace (snd (module_init sample_world)) ++ [EvWrite (jpgPath a); EvWrite (pdfPath a)].
Proof.
  destruct (generateCertificate sample_body (snd (module_init sample_world))) as [[a|e] w'] eqn:E.
  - exists a, w'. split; [done|]. exact (generateCertificate_artifacts _ _ _ _ E).
  - exfalso. vm_compute in E. discriminate E.
Defined.

(** Scenario A run from the working directory [cwd], on a host whose
    canvas cannot encode JPEG. *)
Definition no_jpeg_world (cwd : string) : World :=
  {| w_cwd := cwd; w_dirs := {["/"]}; w_files := ∅; w_env := w_env sample_world;
     w_transporter := None; w_sent := []; w_trace := []; w_tick := 0;
     w_oracle := {| clock := clock sample_oracle; locale_date := locale_date sample_oracle;
                    random36 := random36 sample_oracle;
                    jpeg_error := fun _ => Some "JPEG support is not compiled in";
                    png_error := png_error sample_oracle; io_error := io_error sample_oracle;
                    smtp_send := smtp_send sample_oracle; smtp_verify := smtp_verify sample_oracle |} |}.

(** C10: with a working directory whose path contains [".jpg"] (say
    [/srv/x.jpg]), a failure of the JPEG encoder makes the whole
    generation fail: [jpgPath.replace(".jpg", ".png")] (line 139) rewrites
    the first [".jpg"], the one in the directory, so the PNG goes to a
    directory that does not exist, while the image keeps the name
    [<id>.jpg]; the call throws [ENOENT] and no file is written. *)
Theorem generateCertificate_png_enoent body w f e :
  fields_of body = Ok f ->
  (0 <= clock (w_oracle w) (w_tick w))%Z ->
  radix36_output (random36 (w_oracle w) (S (w_tick w))) ->
  jpeg_error (w_oracle w) (w_tick w + 3) = Some e ->
  png_error (w_oracle w) (w_tick w + 4) = None ->
  str_index_of ".jpg" (certificatesDir (w_cwd w)) <> None ->
  js_replace (certificatesDir (w_cwd w)) ".jpg" ".png" ∉ w_dirs w ->
  let cid := make_certificate_id (clock (w_oracle w) (w_tick w)) (random36 (w_oracle w) (S (w_tick w))) in
  generateCertificate body w =
  (Err ("ENOENT: no such file or directory, open '" +:+
        path_join (js_replace (certificatesDir (w_cwd w)) ".jpg" ".png") (cid +:+ ".jpg") +:+ "'"),
   Nat.iter 5 advance w).
Proof.
  intros Hf Hc Hr Hj Hp Hin Hdir cid. unfold generateCertificate, lift.
  rewrite bind_run, Hf, bind_run. unfold date_now. rewrite run_ask, bind_run, run_ask. wsimpl.
  rewrite bind_run, (generateJPG_fallback_enoent _ _ _ e); wsimpl;
    [done | by rewrite <- Hj; f_equal; lia | by rewrite <- Hp; f_equal; lia
    | by apply make_certificate_id_no_slash | done | done].
Qed.

Lemma generateCertificate_png_enoent_witness :
  exists f, fields_of sample_body = Ok f /\
  fst (generateCertificate sample_body (snd (module_init (no_jpeg_world "/srv/x.jpg")))) =
  Err "ENOENT: no such file or directory, open '/srv/x.png/public/certificates/cert-1731196800123-4fzyo82mv.jpg'".
Proof.
  set (f := match fields_of sample_body with Ok f => f | Err _ => sample_fields end).
  assert (Hf : fields_of sample_body = Ok f) by reflexivity.
  exists f. split; [exact Hf|].
  rewrite (generateCertificate_png_enoent _ _ _ "JPEG support is not compiled in" Hf).
  - reflexivity.
  - vm_compute. discriminate.
  - right. by exists "4fzyo82mvyr".
  - reflexivity.
  - reflexivity.
  - vm_compute. discriminate.
  - apply (bool_decide_unpack _). vm_compute. reflexivity.
Defined.



Lemma module_init_dir_witness :
  Forall (fun p => p ∉ dom (w_files sample_world)) (ancestors (certificatesDir (w_cwd sample_world))) /\
  ("/srv/app/public/certificates" ∈ w_dirs (snd (module_init sample_world))).
Proof.
  assert (H : Forall (fun p => p ∉ dom (w_files sample_world)) (ancestors (certificatesDir (w_cwd sample_world))))
    by (apply Forall_forall; intros; cbn; set_solver).
  split; [exact H | exact (proj1 (module_init_dir sample_world) H)].
Defined.

(** C14: spec section 8, round trip: two generations from the same request
    body, in any two worlds, write image files and documents whose lines
    are identical (text, color, size, weight) except the date line. *)
Theorem generateCertificate_same_text body w1 w2 a1 a2 w1' w2' :
  generateCertificate body w1 = (Ok a1, w1') -> generateCertificate body w2 = (Ok a2, w2') ->
  exists fmt1 fmt2 m1 m2 p1 p2,
    w_files w1' !! jpgPath a1 = Some (ImageFile fmt1 m1) /\ w_files w2' !! jpgPath a2 = Some (ImageFile fmt2 m2) /\
    w_files w1' !! pdfPath a1 = Some (PdfFile p1) /\ w_files w2' !! pdfPath a2 = Some (PdfFile p2) /\
    forall i, i <> 7 ->
      omap mark_line m1 !! i = omap mark_line m2 !! i /\ omap mark_line p1 !! i = omap mark_line p2 !! i.
Proof.
  intros E1 E2.
  apply generateCertificate_written in E1 as (f1 & fmt1 & d1 & e1 & Hf1 & Hj1 & Hp1 & _).
  apply generateCertificate_written in E2 as (f2 & fmt2 & d2 & e2 & Hf2 & Hj2 & Hp2 & _).
  rewrite Hf1 in Hf2. injection Hf2 as <-.
  eexists fmt1, fmt2, _, _, _, _. split; [exact Hj1|]. split; [exact Hj2|].
  split; [exact Hp1|]. split; [exact Hp2|]. intros i Hi. split.
  - exact (render_only_date (M1 := Canvas.Mark) f1 d1 d2 i Hi).
  - exact (render_only_date (M1 := Pdf.PMark) f1 e1 e2 i Hi).
Qed.

Lemma generateCertificate_same_text_witness :
  let w := snd (module_init sample_world) in
  exists a1 w1' a2 w2',
    generateCertificate sample_body w = (Ok a1, w1') /\ generateCertificate sample_body w1' = (Ok a2, w2') /\
    exists fmt1 fmt2 m1 m2 p1 p2,
      w_files w1' !! jpgPath a1 = Some (ImageFile fmt1 m1) /\ w_files w2' !! jpgPath a2 = Some (ImageFile fmt2 m2) /\
      w_files w1' !! pdfPath a1 = Some (PdfFile p1) /\ w_files w2' !! pdfPath a2 = Some (PdfFile p2) /\
      forall i, i <> 7 ->
        omap mark_line m1 !! i = omap mark_line m2 !! i /\ omap mark_line p1 !! i = omap mark_line p2 !! i.
Proof.
  cbv zeta.
  destruct (generateCertificate sample_body (snd (module_init sample_world))) as [[a1|e] w1'] eqn:E1;
    [|exfalso; vm_compute in E1; discriminate E1].
  destruct (generateCertificate sample_body w1') as [[a2|e] w2'] eqn:E2.
  - exists a1, w1', a2, w2'. split; [done|]. split; [done|].
    exact (generateCertificate_same_text _ _ _ _ _ _ _ E1 E2).
  - exfalso. apply (f_equal snd) in E1. cbn in E1. rewrite <- E1 in E2. vm_compute in E2. discriminate E2.
Defined.


(** C12: spec section 8, scenario D: when the JPEG encoder fails and the
    PNG encoder and the disk succeed (and the directory path has no
    [".jpg"]), generation still succeeds: the image is a PNG written as
    [<id>.png] and the document is written as [<id>.pdf]. *)
Theorem generateCertificate_png_fallback body w f e :
  fields_of body = Ok f ->
  (0 <= clock (w_oracle w) (w_tick w))%Z ->
  radix36_output (random36 (w_oracle w) (S (w_tick w))) ->
  jpeg_error (w_oracle w) (w_tick w + 3) = Some e ->
  png_error (w_oracle w) (w_tick w + 4) = None ->
  (forall n p, io_error (w_oracle w) n p = None) ->
  str_index_of ".jpg" (certificatesDir (w_cwd w)) = None ->
  certificatesDir (w_cwd w) ∈ w_dirs w ->
  exists a w', generateCertificate body w = (Ok a, w') /\
    jpgPath a = path_join (certificatesDir (w_cwd w)) (certificateId a +:+ ".png") /\
    pdfPath a = path_join (certificatesDir (w_cwd w)) (certificateId a +:+ ".pdf") /\
    (exists m1, w_files w' !! jpgPath a = Some (ImageFile Png m1)) /\
    (exists m2, w_files w' !! pdfPath a = Some (PdfFile m2)).
Proof.
  intros Hf Hc Hr Hj Hp Hio Hin Hdir.
  assert (Eg : exists a w', generateCertificate body w = (Ok a, w') /\
    jpgPath a = path_join (certificatesDir (w_cwd w)) (certificateId a +:+ ".png") /\
    pdfPath a = path_join (certificatesDir (w_cwd w)) (certificateId a +:+ ".pdf")).
  { unfold generateCertificate, lift. rewrite bind_run, Hf, bind_run. unfold date_now.
    rewrite run_ask, bind_run, run_ask. wsimpl. set (cid := make_certificate_id _ _).
    destruct (generateJPG_fallback_ok cid f (advance (advance w)) e) as (w1 & Ej & _ & [Ho1 Hc1] & Hd1);
      wsimpl; [by rewrite <- Hj; f_equal; lia | by rewrite <- Hp; f_equal; lia | done
              | by apply make_certificate_id_no_slash | by apply make_certificate_id_no_dot | done | done |].
    rewrite bind_run, Ej, bind_run.
    destruct (generatePDF_ok cid f w1) as (w2 & Ep);
      [by rewrite Ho1 | by apply make_certificate_id_no_slash | by rewrite Hd1, Hc1 |].
    rewrite Ep. eexists _, _. split; [reflexivity|]. by rewrite Hc1. }
  destruct Eg as (a & w' & Eg & Hjp & Hpp). exists a, w'. split; [done|]. split; [done|]. split; [done|].
  apply generateCertificate_written in Eg as (f' & fmt & d1 & d2 & _ & Hj1 & Hp1 & _ & Hfmt).
  rewrite Hfmt in Hj1 by (rewrite Hj; discriminate). split; eexists; done.
Qed.

Lemma generateCertificate_png_fallback_witness :
  let w := snd (module_init (no_jpeg_world "/srv/app")) in
  exists f, fields_of sample_body = Ok f /\
  exists a w', generateCertificate sample_body w = (Ok a, w') /\
    jpgPath a = "/srv/app/public/certificates/cert-1731196800123-4fzyo82mv.png" /\
    (exists m1, w_files w' !! jpgPath a = Some (ImageFile Png m1)) /\
    (exists m2, w_files w' !! pdfPath a = Some (PdfFile m2)).
Proof.
  cbv zeta.
  set (f := match fields_of sample_body with Ok f => f | Err _ => sample_fields end).
  assert (Hf : fields_of sample_body = Ok f) by reflexivity.
  exists f. split; [exact Hf|].
  destruct (generateCertificate_png_fallback sample_body (snd (module_init (no_jpeg_world "/srv/app")))
              f "JPEG support is not compiled in" Hf)
    as (a & w' & Eg & Hjp & _ & H1 & H2).
  - vm_compute. discriminate.
  - right. by exists "4fzyo82mvyr".
  - reflexivity.
  - reflexivity.
  - intros n p. reflexivity.
  - reflexivity.
  - apply (bool_decide_unpack _). vm_compute. reflexivity.
  - exists a, w'. split; [exact Eg|]. split; [|done].
    rewrite Hjp. pose proof Eg as E. vm_compute in E. injection E as <- _. reflexivity.
Defined.

End CertService.
