(* ===== verification/EmailService.v ===== *)
(** * EmailService: [src/lib/email-service.js]

    The module keeps one piece of state, [let transporter = null] (line 5),
    modelled as [w_transporter]: [getTransporter] (lines 7-21) builds it
    from the environment on its first call and returns the same object
    afterwards.  [sendCertificateEmail] (lines 23-80) checks that both
    files exist, builds the message (sender, recipient, subject, HTML body,
    two attachments) and hands it to the transport; [testEmailConnection]
    (lines 82-90) asks the transport to verify its connection.  The SMTP
    server's answers come from the oracle. *)

From stdpp Require Import gmap.
From S2P Require Import Prelude JsString JsValue Runtime.

Local Open Scope string_scope.
Local Open Scope list_scope.

Module EmailService.

(** The options of [nodemailer.createTransport] (lines 10-18), read from
    [process.env]; [process.env.SMTP_PORT || "587"] uses the default for
    an unset or empty variable. *)
Definition transport_config (env : gmap string string) : Transport :=
  {| t_host := env !! "SMTP_HOST";
     t_port := js_parseInt
                 (match env !! "SMTP_PORT" with
                  | Some s => if String.eqb s "" then "587" else s
                  | None => "587"
                  end);
     t_secure := match env !! "SMTP_SECURE" with Some s => String.eqb s "true" | None => false end;
     t_user := env !! "SMTP_USER";
     t_pass := env !! "SMTP_PASSWORD" |}.

(** Lines 7-21. *)
Definition getTransporter : M Transport :=
  cur ← gets w_transporter;
  match cur with
  | Some t => mret t
  | None =>
      env ← gets w_env;
      let t := transport_config env in
      set_transporter t ;;
      mret t
  end.

(** The fields [sendCertificateEmail] reads from its second argument,
    [{ ...certificateData, name: body.name }]. *)
Record CertMailData := {
  cm_name : JsValue;
  cm_jpgPath : string;
  cm_pdfPath : string;
  cm_certificateId : string;
}.

Definition nl : string := chr 10.
Definition dq : string := chr 34.

(** The HTML template of lines 51-68, line by line. *)
Definition html_lines (name certificateId : string) : list string :=
  [ "      <div style=" +:+ dq +:+ "font-family: Arial, sans-serif; max-width: 600px; margin: 0 auto;" +:+ dq +:+ ">";
    "        <h1 style=" +:+ dq +:+ "color: #1e3a8a;" +:+ dq +:+ ">Certificate of Completion</h1>";
    "        <p>Dear " +:+ name +:+ ",</p>";
    "        <p>Congratulations! Your certificate of completion has been generated and is attached to this email.</p>";
    "        <p>You will find two versions attached:</p>";
    "        <ul>";
    "          <li><strong>JPG Format:</strong> For viewing and sharing on digital platforms</li>";
    "          <li><strong>PDF Format:</strong> For printing and official records</li>";
    "        </ul>";
    "        <p style=" +:+ dq +:+ "background-color: #f3f4f6; padding: 15px; border-radius: 5px; margin: 20px 0;" +:+ dq +:+ ">";
    "          <strong>Certificate Details:</strong><br>";
    "          Certificate ID: " +:+ certificateId;
    "        </p>";
    "        <p>If you have any questions, please don't hesitate to reach out.</p>";
    "        <p>Best regards,<br>Certificate Generation Team</p>";
    "      </div>" ].

Definition html_body (name certificateId : string) : string :=
  nl +:+ js_join nl (html_lines name certificateId) +:+ nl +:+ "    ".

(** The attachments of lines 36-45. *)
Definition attachments_of (d : CertMailData) : list Attachment :=
  [ {| att_filename := cm_certificateId d +:+ ".jpg"; att_path := cm_jpgPath d |};
    {| att_filename := cm_certificateId d +:+ ".pdf"; att_path := cm_pdfPath d |} ].

Definition mail_of (from : option string) (email : JsValue) (d : CertMailData) : Mail :=
  {| mail_from := from;
     mail_to := email;
     mail_subject := "Your Certificate of Completion - " +:+ js_to_string (cm_name d);
     mail_html := html_body (js_to_string (cm_name d)) (cm_certificateId d);
     mail_attachments := attachments_of d |}.

(** Lines 23-80: the transporter is obtained before the files are
    checked; the result is the provider's message id. *)
Definition sendCertificateEmail (email : JsValue) (d : CertMailData) : M string :=
  transporter ← getTransporter;
  jpgOk ← existsSync (cm_jpgPath d);
  if jpgOk is false then throw ("JPG file not found: " +:+ cm_jpgPath d) else
  pdfOk ← existsSync (cm_pdfPath d);
  if pdfOk is false then throw ("PDF file not found: " +:+ cm_pdfPath d) else
  from ← env_var "SMTP_FROM_EMAIL";
  let mail := mail_of from email d in
  reply ← ask (fun o n => smtp_send o n transporter mail);
  match reply with
  | Ok messageId => record_mail mail true ;; mret messageId
  | Err e => record_mail mail false ;; throw ("Failed to send email: " +:+ e)
  end.

(** Lines 82-90. *)
Definition testEmailConnection : M string :=
  transporter ← getTransporter;
  r ← ask (fun o n => smtp_verify o n transporter);
  record_event EvVerify ;;
  match r with
  | None => mret "Email connection verified"
  | Some e => throw ("Email connection failed: " +:+ e)
  end.

(** ** Lemmas *)

Lemma run_getTransporter_cached w t :
  w_transporter w = Some t -> getTransporter w = (Ok t, w).
Proof. intros H. unfold getTransporter. rewrite bind_run. cbn [gets]. by rewrite H. Qed.

Lemma run_getTransporter_init w :
  w_transporter w = None ->
  getTransporter w = (Ok (transport_config (w_env w)), with_transporter w (transport_config (w_env w))).
Proof. intros H. unfold getTransporter. rewrite bind_run. cbn [gets]. by rewrite H. Qed.

Lemma getTransporter_inv w t w' :
  getTransporter w = (Ok t, w') ->
  w_transporter w' = Some t /\ w_files w' = w_files w /\ w_trace w' = w_trace w /\
  w_sent w' = w_sent w /\ w_env w' = w_env w /\ w_tick w' = w_tick w /\ w_oracle w' = w_oracle w /\
  (w_transporter w = None -> t = transport_config (w_env w)) /\
  (forall t0, w_transporter w = Some t0 -> t = t0 /\ w' = w).
Proof.
  destruct (w_transporter w) as [t0|] eqn:E.
  - rewrite (run_getTransporter_cached w t0 E). intros H. inv_pair H. rewrite E. naive_solver.
  - rewrite (run_getTransporter_init w E). intros H. inv_pair H. wsimpl. naive_solver.
Qed.

(** C18: the transport is created once: the first call builds it from the
    environment of that moment and stores it; every later call returns
    that object without reading the environment again, whatever it has
    become. *)
Theorem getTransporter_once w t w1 :
  getTransporter w = (Ok t, w1) ->
  w_transporter w1 = Some t /\
  (w_transporter w = None -> t = transport_config (w_env w)) /\
  (forall w2, w_transporter w2 = w_transporter w1 -> getTransporter w2 = (Ok t, w2)).
Proof.
  intros H. apply getTransporter_inv in H as (Ht & _ & _ & _ & _ & _ & _ & Hinit & _).
  split; [done|]. split; [done|]. intros w2 H2. rewrite Ht in H2.
  by apply run_getTransporter_cached.
Qed.

Lemma getTransporter_once_witness :
  exists t w1, getTransporter sample_world = (Ok t, w1) /\
  w_transporter w1 = Some t /\ t = transport_config (w_env sample_world) /\
  getTransporter (with_transporter sample_world t) = (Ok t, with_transporter sample_world t).
Proof.
  pose proof (run_getTransporter_init sample_world eq_refl) as E.
  eexists _, _. split; [exact E|].
  destruct (getTransporter_once sample_world _ _ E) as (H1 & H2 & H3).
  split; [exact H1|]. split; [exact (H2 eq_refl)|]. apply H3. exact H1.
Defined.

(** C21: the port of the transport is the number [SMTP_PORT] spells (in
    decimal), and 587 when the variable is unset or empty. *)
Theorem transport_port env :
  (env !! "SMTP_PORT" = None \/ env !! "SMTP_PORT" = Some "" ->
   t_port (transport_config env) = Some 587%Z) /\
  (forall n, env !! "SMTP_PORT" = Some (js_N_to_string n) ->
   t_port (transport_config env) = Some (Z.of_N n)).
Proof.
  unfold transport_config; cbn [t_port]. split.
  - intros [-> | ->]; reflexivity.
  - intros n ->. pose proof (js_N_to_string_nonempty n) as Hne.
    destruct (String.eqb_spec (js_N_to_string n) ""); [done|]. apply js_parseInt_N_to_string.
Qed.

Lemma transport_port_witness :
  w_env sample_world !! "SMTP_PORT" = Some (js_N_to_string 465%N) /\
  t_port (transport_config (w_env sample_world)) = Some 465%Z.
Proof.
  assert (H : w_env sample_world !! "SMTP_PORT" = Some (js_N_to_string 465%N)) by reflexivity.
  split; [exact H | exact (proj2 (transport_port _) 465%N H)].
Defined.

(** The transport a call of [getTransporter] in [w] returns. *)
Definition current_transport (w : World) : Transport :=
  match w_transporter w with Some t => t | None => transport_config (w_env w) end.

Lemma run_sendCertificateEmail email d w :
  file_exists w (cm_jpgPath d) -> file_exists w (cm_pdfPath d) ->
  let t := current_transport w in
  let mail := mail_of (w_env w !! "SMTP_FROM_EMAIL") email d in
  let '(r, w') := sendCertificateEmail email d w in
  w_transporter w' = Some t /\ w_trace w' = w_trace w ++ [EvSendMail mail] /\ w_files w' = w_files w /\
  match smtp_send (w_oracle w) (w_tick w) t mail with
  | Ok mid => r = Ok mid /\ w_sent w' = w_sent w ++ [mail]
  | Err e => r = Err ("Failed to send email: " +:+ e) /\ w_sent w' = w_sent w
  end.
Proof.
  intros Hj Hp. unfold sendCertificateEmail, current_transport. rewrite bind_run.
  destruct (w_transporter w) as [t0|] eqn:Et;
    [rewrite (run_getTransporter_cached w t0 Et) | rewrite (run_getTransporter_init w Et)];
    mcompute; unfold file_exists in *;
    repeat (rewrite bool_decide_eq_true_2 by done; mcompute);
    destruct (smtp_send _ _ _ _); mcompute; rewrite ?Et; done.
Qed.

(** C19: with both files on disk, [sendCertificateEmail] obtains the
    transport, builds one message (the sender read from the environment
    at this call, the recipient as given, two attachments) and submits it
    once: on the server's acceptance it returns the message id and the
    message is delivered; on a rejection it throws
    ["Failed to send email: " + the server's message] and nothing is
    delivered.  No file changes either way. *)
Theorem sendCertificateEmail_result email d w :
  file_exists w (cm_jpgPath d) -> file_exists w (cm_pdfPath d) ->
  let t := current_transport w in
  let mail := mail_of (w_env w !! "SMTP_FROM_EMAIL") email d in
  let '(r, w') := sendCertificateEmail email d w in
  w_transporter w' = Some t /\ w_trace w' = w_trace w ++ [EvSendMail mail] /\ w_files w' = w_files w /\
  match smtp_send (w_oracle w) (w_tick w) t mail with
  | Ok mid => r = Ok mid /\ w_sent w' = w_sent w ++ [mail]
  | Err e => r = Err ("Failed to send email: " +:+ e) /\ w_sent w' = w_sent w
  end.
Proof. exact (run_sendCertificateEmail email d w). Qed.

(** The mail data of scenario A, and a world where both files of it are
    on disk. *)
Definition sample_mail_data : CertMailData :=
  {| cm_name := JStr "Jane Doe"; cm_jpgPath := "/srv/app/public/certificates/c.jpg";
     cm_pdfPath := "/srv/app/public/certificates/c.pdf"; cm_certificateId := "c" |}.

Definition sample_mail_world : World :=
  {| w_cwd := w_cwd sample_world; w_dirs := w_dirs sample_world;
     w_files := <["/srv/app/public/certificates/c.jpg" := ImageFile Jpeg []]>
                  (<["/srv/app/public/certificates/c.pdf" := PdfFile []]> ∅);
     w_env := w_env sample_world; w_transporter := None; w_sent := []; w_trace := [];
     w_tick := 0; w_oracle := sample_oracle |}.

Lemma sample_mail_files :
  file_exists sample_mail_world (cm_jpgPath sample_mail_data) /\
  file_exists sample_mail_world (cm_pdfPath sample_mail_data).
Proof. split; left; apply elem_of_dom; by eexists. Qed.

Lemma sendCertificateEmail_result_witness :
  file_exists sample_mail_world (cm_jpgPath sample_mail_data) /\
  file_exists sample_mail_world (cm_pdfPath sample_mail_data) /\
  fst (sendCertificateEmail (JStr "jane@example.com") sample_mail_data sample_mail_world) = Ok "<cert-1@mail>" /\
  w_sent (snd (sendCertificateEmail (JStr "jane@example.com") sample_mail_data sample_mail_world)) =
    [mail_of (Some "certs@example.com") (JStr "jane@example.com") sample_mail_data].
Proof.
  destruct sample_mail_files as [Hj Hp]. split; [exact Hj|]. split; [exact Hp|].
  pose proof (sendCertificateEmail_result (JStr "jane@example.com") _ _ Hj Hp) as H.
  destruct (sendCertificateEmail _ _ _) as [r w']. cbn in H |- *.
  destruct H as (_ & _ & _ & -> & ->). split; reflexivity.
Defined.

(** C20: a missing attachment fails the send before anything is sent,
    with the error naming the first missing path (the image is checked
    first); the transport has been created all the same, since
    [getTransporter] runs before the check. *)
Theorem sendCertificateEmail_missing email d w :
  ~ file_exists w (cm_jpgPath d) \/ ~ file_exists w (cm_pdfPath d) ->
  let '(r, w') := sendCertificateEmail email d w in
  r = Err (if bool_decide (file_exists w (cm_jpgPath d))
           then "PDF file not found: " +:+ cm_pdfPath d
           else "JPG file not found: " +:+ cm_jpgPath d) /\
  w_sent w' = w_sent w /\ w_trace w' = w_trace w /\ w_files w' = w_files w /\
  w_transporter w' = Some (current_transport w).
Proof.
  intros Hmiss. unfold sendCertificateEmail, current_transport. rewrite bind_run.
  destruct (w_transporter w) as [t0|] eqn:Et;
    [rewrite (run_getTransporter_cached w t0 Et) | rewrite (run_getTransporter_init w Et)];
    mcompute; unfold file_exists in *;
    (case_bool_decide as Hj; mcompute; [|rewrite ?Et; done]);
    (rewrite bool_decide_eq_false_2 by tauto); mcompute; rewrite ?Et; done.
Qed.

Lemma sendCertificateEmail_missing_witness :
  ~ file_exists sample_world (cm_jpgPath sample_mail_data) /\
  fst (sendCertificateEmail (JStr "jane@example.com") sample_mail_data sample_world) =
    Err "JPG file not found: /srv/app/public/certificates/c.jpg".
Proof.
  assert (Hj : ~ file_exists sample_world (cm_jpgPath sample_mail_data))
    by (apply (bool_decide_unpack _); vm_compute; done).
  split; [exact Hj|].
  pose proof (sendCertificateEmail_missing (JStr "jane@example.com") sample_mail_data sample_world
                (or_introl Hj)) as H.
  destruct (sendCertificateEmail _ _ _) as [r w']. cbn. destruct H as [-> _].
  by rewrite bool_decide_eq_false_2 by exact Hj.
Defined.

(** C22: [testEmailConnection] obtains the transport (creating it on first
    use), asks the server to verify it once, and reports
    ["Email connection verified"] or throws
    ["Email connection failed: " + the server's message]; it sends
    nothing. *)
Theorem testEmailConnection_result w :
  let t := current_transport w in
  let '(r, w') := testEmailConnection w in
  w_transporter w' = Some t /\ w_sent w' = w_sent w /\ w_files w' = w_files w /\
  w_trace w' = w_trace w ++ [EvVerify] /\
  r = match smtp_verify (w_oracle w) (w_tick w) t with
      | None => Ok "Email connection verified"
      | Some e => Err ("Email connection failed: " +:+ e)
      end.
Proof.
  unfold testEmailConnection, current_transport. rewrite bind_run.
  destruct (w_transporter w) as [t0|] eqn:Et;
    [rewrite (run_getTransporter_cached w t0 Et) | rewrite (run_getTransporter_init w Et)];
    mcompute; destruct (smtp_verify _ _ _); mcompute; rewrite ?Et; done.
Qed.

(** C31: the recipient's name is pasted into the HTML body as it is: the
    body is a fixed prefix, the name, and a suffix that depends on the
    certificate id only, so markup in the name (such as [<a href=...>])
    reaches the message unescaped. *)
Theorem html_body_name_verbatim cid :
  exists pre post, forall name, html_body name cid = pre +:+ name +:+ post.
Proof.
  exists (nl +:+ js_join nl (firstn 2 (html_lines "" cid)) +:+ nl +:+ "        <p>Dear "),
    (",</p>" +:+ nl +:+ js_join nl (skipn 3 (html_lines "" cid)) +:+ nl +:+ "    ").
  intros name. unfold html_body. cbn [html_lines firstn skipn js_join].
  rewrite !sapp_assoc. reflexivity.
Qed.

End EmailService.
