(* ===== verification/Route.v ===== *)
(** * Route: [POST /api/generate-certificate]

    [src/app/api/generate-certificate/route.js], lines 5-51.  The handler
    parses the JSON body, validates it ([Validation.validate]), generates
    the certificate ([CertService.generateCertificate]), mails it
    ([EmailService.sendCertificateEmail]) and answers with
    [NextResponse.json(body, { status })].  Every exception of these steps
    is caught (lines 46-49) and answered with status 500 and the
    exception's message, or a fixed text when the message is empty. *)

From stdpp Require Import gmap.
From S2P Require Import Prelude JsString JsValue Regex Validation Layout Canvas Pdf Runtime CertService EmailService.

Local Open Scope string_scope.
Local Open Scope list_scope.
Local Open Scope js_scope.

Module Route.

Import Validation CertService EmailService.

(** The request as [request.json()] sees it: a parsed JSON value, or a body
    that is not JSON, which makes [request.json()] throw. *)
Inductive Request : Type :=
| ReqJson (body : JsValue)
| ReqBadJson (msg : string).

(** [NextResponse.json(payload, { status })] *)
Record Response := { status : Z; payload : JsValue }.

Definition json_error (msg : string) (st : Z) : Response :=
  {| status := st; payload := JObj [("error", JStr msg)] |}.

Definition success_response (cid : string) : Response :=
  {| status := 200;
     payload := JObj [("success", JBool true);
                      ("message", JStr "Certificate generated and sent successfully");
                      ("certificateId", JStr cid)] |}.

(** [await request.json()] *)
Definition parse_body (req : Request) : M JsValue :=
  match req with ReqJson b => mret b | ReqBadJson m => throw m end.

(** [error.message || "Failed to generate certificate"] *)
Definition error_text (e : string) : string :=
  if String.eqb e "" then "Failed to generate certificate" else e.

(** Lines 13-45: the answer once the body is validated. *)
Definition answer (body : JsValue) (v : verdict) : M Response :=
  match v with
  | VMissing missing => mret (json_error (missing_message missing) 400)
  | VBadEmail => mret (json_error "Invalid email address" 400)
  | VOk =>
      certificateData ← generateCertificate body;
      email ← lift body.["email"];
      name ← lift body.["name"];
      _ ← sendCertificateEmail email
            {| cm_name := name; cm_jpgPath := jpgPath certificateData;
               cm_pdfPath := pdfPath certificateData;
               cm_certificateId := certificateId certificateData |};
      mret (success_response (certificateId certificateData))
  end.

(** Lines 5-50. *)
Definition POST (req : Request) : M Response :=
  try_catch
    (body ← parse_body req;
     v ← lift (validate body);
     answer body v)
    (fun e => mret (json_error (error_text e) 500)).

(** ** Early answers *)

Lemma run_POST_validate body w :
  POST (ReqJson body) w =
  match validate body with
  | Err e => (Ok (json_error (error_text e) 500), w)
  | Ok v => try_catch (answer body v) (fun e => mret (json_error (error_text e) 500)) w
  end.
Proof.
  unfold POST, try_catch. rewrite bind_run. cbn [parse_body mret M_ret]. rewrite bind_run.
  unfold lift. by destruct (validate body).
Qed.

(** ** The whole request *)

Definition mail_data_of (name : JsValue) (a : CertArtifact) : CertMailData :=
  {| cm_name := name; cm_jpgPath := jpgPath a; cm_pdfPath := pdfPath a;
     cm_certificateId := certificateId a |}.

(** After a successful generation, the answer is decided by the send. *)
Lemma run_POST_generated body w a w1 email name :
  validate body = Ok VOk -> generateCertificate body w = (Ok a, w1) ->
  js_get body "email" = Ok email -> js_get body "name" = Ok name ->
  POST (ReqJson body) w =
  match sendCertificateEmail email (mail_data_of name a) w1 with
  | (Ok _, w2) => (Ok (success_response (certificateId a)), w2)
  | (Err e, w2) => (Ok (json_error (error_text e) 500), w2)
  end.
Proof.
  intros Hv Hg He Hn. rewrite run_POST_validate, Hv. unfold answer, try_catch.
  rewrite bind_run, Hg. unfold lift. rewrite !bind_run, He, Hn, bind_run. cbv beta iota.
  rewrite bind_run. unfold mail_data_of. by destruct (sendCertificateEmail _ _ w1) as [[]].
Qed.

Lemma run_POST_gen_failed body w e w1 :
  validate body = Ok VOk -> generateCertificate body w = (Err e, w1) ->
  POST (ReqJson body) w = (Ok (json_error (error_text e) 500), w1).
Proof. intros Hv Hg. rewrite run_POST_validate, Hv. unfold answer, try_catch. by rewrite bind_run, Hg. Qed.

Lemma error_text_prefix_nonempty e : "Failed to send email: " +:+ e <> "".
Proof. by rewrite sapp_cons. Qed.

Lemma error_text_nonempty e : error_text e <> "".
Proof. unfold error_text. by destruct (String.eqb_spec e ""). Qed.

(** What a 200 answer implies: the body validated, the certificate was
    generated, and the message the SMTP server accepted is the last one
    delivered; the send changed no file. *)
Lemma POST_ok_200 body w resp w' :
  POST (ReqJson body) w = (Ok resp, w') -> status resp = 200%Z ->
  exists a w1 name email,
    validate body = Ok VOk /\ generateCertificate body w = (Ok a, w1) /\
    resp = success_response (certificateId a) /\ w_files w' = w_files w1 /\
    w_sent w' = w_sent w1 ++ [mail_of (w_env w1 !! "SMTP_FROM_EMAIL") email (mail_data_of name a)].
Proof.
  intros HP Hst. destruct (validate body) as [[missing| |]|e] eqn:Ev.
  1,2,4: rewrite run_POST_validate, Ev in HP; injection HP as <- _; discriminate Hst.
  destruct (validate_defined _ _ Ev) as [Hn Hu].
  destruct (js_get_defined body "email" Hn Hu) as [email He].
  destruct (js_get_defined body "name" Hn Hu) as [name Hnm].
  destruct (generateCertificate body w) as [[a|e] w1] eqn:Eg.
  - rewrite (run_POST_generated body w a w1 email name Ev Eg He Hnm) in HP.
    apply generateCertificate_written in Eg as Hw. destruct Hw as (f & fmt & d1 & d2 & _ & Hj & Hp & _).
    assert (Hfj : file_exists w1 (jpgPath a)) by (left; apply elem_of_dom; eauto).
    assert (Hfp : file_exists w1 (pdfPath a)) by (left; apply elem_of_dom; eauto).
    pose proof (run_sendCertificateEmail email (mail_data_of name a) w1 Hfj Hfp) as Hsend.
    destruct (sendCertificateEmail email _ w1) as [r2 w2].
    destruct Hsend as (_ & _ & Hfiles & Hr).
    destruct (smtp_send _ _ _ _) as [mid|e]; destruct Hr as [-> Hsent]; injection HP as <- <-;
      [|discriminate Hst].
    exists a, w1, name, email. done.
  - rewrite (run_POST_gen_failed body w e w1 Ev Eg) in HP. injection HP as <- _. discriminate Hst.
Qed.

(** ** The contract of the handler (spec sections 4.5 and 6)

    What the caller and the outside world observe: the response, the mail
    delivered and the files on disk. *)
Inductive post_spec (req : Request) (w : World) : Response -> World -> Prop :=
| spec_missing body missing :
    req = ReqJson body -> validate body = Ok (VMissing missing) ->
    post_spec req w (json_error ("Missing required fields: " +:+ js_join ", " missing) 400) w
| spec_bad_email body :
    req = ReqJson body -> validate body = Ok VBadEmail ->
    post_spec req w (json_error "Invalid email address" 400) w
| spec_delivered body email cid mail w' :
    req = ReqJson body -> validate body = Ok VOk -> js_get body "email" = Ok email ->
    w_sent w' = w_sent w ++ [mail] -> mail_to mail = email ->
    map att_filename (mail_attachments mail) = [cid +:+ ".jpg"; cid +:+ ".pdf"] ->
    Forall (fun att => file_exists w' (att_path att)) (mail_attachments mail) ->
    post_spec req w (success_response cid) w'
| spec_failed msg w' :
    msg <> "" -> w_sent w' = w_sent w ->
    post_spec req w (json_error msg 500) w'.

(** The members of the request of spec section 8, scenario A, with the
    [email] member left out (scenario B) or replaced (scenario C). *)
Definition scenario_members (email : option JsValue) : list (string * JsValue) :=
  [("name", JStr "Jane Doe")] ++
  (match email with Some e => [("email", e)] | None => [] end) ++
  [("gstNumber", JStr "27AABCT1234H1Z0"); ("businessName", JStr "ABC Corp");
   ("businessAddress", JStr "123 Main St")].

(** C4: a body that lacks required fields (absent, or present with a value
    that [!] takes for false: [""], [0], [false], [null]) is answered with
    status 400 and the message listing exactly the missing names, in the
    order of [required], joined with [", "]; nothing is written or sent. *)
Theorem POST_missing_fields ms w :
  let missing :=
    List.filter (fun f => negb (js_truthy (default JUndefined (assoc_last f ms)))) required in
  missing <> [] ->
  POST (ReqJson (JObj ms)) w =
  (Ok (json_error ("Missing required fields: " +:+ js_join ", " missing) 400), w).
Proof.
  cbv zeta. intros H. rewrite run_POST_validate, validate_obj.
  destruct (List.filter _ required); [done | reflexivity].
Qed.

Lemma POST_missing_fields_witness :
  List.filter (fun f => negb (js_truthy (default JUndefined (assoc_last f (scenario_members None)))))
    required = ["email"] /\
  POST (ReqJson (JObj (scenario_members None))) sample_world =
  (Ok (json_error "Missing required fields: email" 400), sample_world).
Proof.
  split; [reflexivity|].
  exact (POST_missing_fields (scenario_members None) sample_world ltac:(discriminate)).
Defined.

(** C5: a body with every required field but an email that does not have
    the shape [local@domain.tld] (see [email_shape]) is answered with
    status 400 ["Invalid email address"]; nothing is written or sent. *)
Theorem POST_invalid_email ms w :
  Forall (fun f => js_truthy (default JUndefined (assoc_last f ms)) = true) required ->
  ~ email_shape (js_to_string (default JUndefined (assoc_last "email" ms))) ->
  POST (ReqJson (JObj ms)) w = (Ok (json_error "Invalid email address" 400), w).
Proof.
  intros Hall Hbad. rewrite run_POST_validate, validate_obj.
  rewrite (filter_negb_all (fun f => js_truthy (default JUndefined (assoc_last f ms)))) by done.
  destruct (regex_test emailRegex _) eqn:E; [|done].
  by apply email_regex_shape in E.
Qed.

Lemma POST_invalid_email_witness :
  Forall (fun f => js_truthy (default JUndefined (assoc_last f (scenario_members (Some (JStr "not-an-email"))))) = true)
    required /\
  ~ email_shape "not-an-email" /\
  POST (ReqJson (JObj (scenario_members (Some (JStr "not-an-email"))))) sample_world =
  (Ok (json_error "Invalid email address" 400), sample_world).
Proof.
  assert (Hall : Forall (fun f => js_truthy (default JUndefined
                   (assoc_last f (scenario_members (Some (JStr "not-an-email"))))) = true) required)
    by repeat constructor.
  assert (Hbad : ~ email_shape "not-an-email") by (apply (bool_decide_unpack _); vm_compute; done).
  split; [exact Hall | split; [exact Hbad|]].
  exact (POST_invalid_email _ sample_world Hall Hbad).
Defined.


Lemma POST_contract req w :
  let '(r, w') := POST req w in exists resp, r = Ok resp /\ post_spec req w resp w'.
Proof.
  destruct req as [body|m].
  2: { cbn. eexists. split; [done|]. apply spec_failed; [apply error_text_nonempty | done]. }
  destruct (validate body) as [[missing| |]|e] eqn:Ev.
  - rewrite run_POST_validate, Ev. eexists. split; [done|]. by eapply spec_missing.
  - rewrite run_POST_validate, Ev. eexists. split; [done|]. by eapply spec_bad_email.
  - destruct (validate_defined _ _ Ev) as [Hn Hu].
    destruct (js_get_defined body "email" Hn Hu) as [email He].
    destruct (js_get_defined body "name" Hn Hu) as [name Hnm].
    destruct (generateCertificate body w) as [[a|e] w1] eqn:Eg.
    + rewrite (run_POST_generated body w a w1 email name Ev Eg He Hnm).
      pose proof (generateCertificate_frame body w _ w1 Eg) as (Hs1 & _).
      apply generateCertificate_written in Eg as (f & fmt & d1 & d2 & _ & Hj & Hp & _).
      assert (Hfj : file_exists w1 (jpgPath a)) by (left; apply elem_of_dom; eauto).
      assert (Hfp : file_exists w1 (pdfPath a)) by (left; apply elem_of_dom; eauto).
      pose proof (run_sendCertificateEmail email (mail_data_of name a) w1 Hfj Hfp) as Hsend.
      destruct (sendCertificateEmail email _ w1) as [r2 w2].
      destruct Hsend as (_ & _ & Hfiles & Hr).
      destruct (smtp_send _ _ _ _) as [mid|e]; destruct Hr as [-> Hsent].
      * eexists. split; [done|]. eapply (spec_delivered _ _ body email (certificateId a)
          (mail_of (w_env w1 !! "SMTP_FROM_EMAIL") email (mail_data_of name a)));
          [done | done | exact He | | done | done |].
        -- by rewrite Hsent, Hs1.
        -- repeat apply Forall_cons_2; [..|apply Forall_nil_2];
           left; cbn; rewrite Hfiles; apply elem_of_dom; eauto.
      * eexists. split; [done|]. apply spec_failed; [apply error_text_nonempty|]. by rewrite Hsent.
    + rewrite (run_POST_gen_failed body w e w1 Ev Eg).
      pose proof (generateCertificate_frame body w _ w1 Eg) as (Hs1 & _).
      eexists. split; [done|]. apply spec_failed; [apply error_text_nonempty | done].
  - rewrite run_POST_validate, Ev. eexists. split; [done|].
    apply spec_failed; [apply error_text_nonempty | done].
Qed.

(** C1: the handler refines its contract: every request is answered (the
    handler never throws), and the answer is one of: 400 with the list of
    missing fields, 400 for a malformed email, both leaving the world
    unchanged; 200 with the certificate id, after exactly one message was
    delivered to the request's email with the two files of that id, both
    on disk; or 500 with a non-empty message and no message delivered. *)
Theorem POST_refines req w :
  let '(r, w') := POST req w in exists resp, r = Ok resp /\ post_spec req w resp w'.
Proof. exact (POST_contract req w). Qed.

(** C11: when the JPEG encoder fails and the handler still answers 200,
    the message delivered carries as its first attachment a file named
    [<id>.jpg] (line 38 of the email service) whose content is the PNG
    image of the fallback: the attachment's name and its format
    disagree. *)
Theorem POST_png_attachment_named_jpg body w resp w' :
  POST (ReqJson body) w = (Ok resp, w') -> status resp = 200%Z ->
  jpeg_error (w_oracle w) (w_tick w + 3) <> None ->
  exists cid mail p marks,
    resp = success_response cid /\ last (w_sent w') = Some mail /\
    head (mail_attachments mail) = Some {| att_filename := cid +:+ ".jpg"; att_path := p |} /\
    w_files w' !! p = Some (ImageFile Png marks).
Proof.
  intros HP Hst Hj.
  destruct (POST_ok_200 _ _ _ _ HP Hst) as (a & w1 & name & email & _ & Eg & -> & Hfiles & Hsent).
  apply generateCertificate_written in Eg as (f & fmt & d1 & d2 & _ & Hjp & _ & _ & Hfmt).
  rewrite (Hfmt Hj) in Hjp.
  eexists (certificateId a), _, (jpgPath a), _. split; [done|].
  rewrite Hsent, last_snoc. split; [done|]. split; [done|]. by rewrite Hfiles.
Qed.

Lemma POST_png_attachment_named_jpg_witness :
  exists resp w', POST (ReqJson sample_body) (snd (module_init (no_jpeg_world "/srv/app"))) = (Ok resp, w') /\
  status resp = 200%Z /\
  jpeg_error (w_oracle (snd (module_init (no_jpeg_world "/srv/app"))))
    (w_tick (snd (module_init (no_jpeg_world "/srv/app"))) + 3) <> None /\
  exists cid mail p marks,
    resp = success_response cid /\ last (w_sent w') = Some mail /\
    head (mail_attachments mail) = Some {| att_filename := cid +:+ ".jpg"; att_path := p |} /\
    w_files w' !! p = Some (ImageFile Png marks).
Proof.
  destruct (POST (ReqJson sample_body) (snd (module_init (no_jpeg_world "/srv/app")))) as [[resp|e] w'] eqn:E.
  - pose proof E as E'. vm_compute in E'. injection E' as <- _.
    eexists _, w'. split; [reflexivity|]. split; [reflexivity|]. split; [vm_compute; discriminate|].
    exact (POST_png_attachment_named_jpg _ _ _ _ E eq_refl ltac:(vm_compute; discriminate)).
  - exfalso. vm_compute in E. discriminate E.
Defined.

(** C2: the converse of the contract: after module initialisation (the
    certificates directory exists), in an environment where the encoder,
    the disk and the SMTP server never fail, every request that passes
    validation is answered 200 with its certificate id, after exactly one
    message was delivered. *)
Theorem POST_success_complete body w :
  validate body = Ok VOk -> healthy (w_oracle w) -> certificatesDir (w_cwd w) ∈ w_dirs w ->
  (forall n t m, exists mid, smtp_send (w_oracle w) n t m = Ok mid) ->
  exists cid w' mail, POST (ReqJson body) w = (Ok (success_response cid), w') /\
    w_sent w' = w_sent w ++ [mail] /\ js_get body "email" = Ok (mail_to mail) /\
    map att_filename (mail_attachments mail) = [cid +:+ ".jpg"; cid +:+ ".pdf"].
Proof.
  intros Ev Hh Hdir Hsmtp. destruct (validate_defined _ _ Ev) as [Hn Hu].
  destruct (js_get_defined body "email" Hn Hu) as [email He].
  destruct (js_get_defined body "name" Hn Hu) as [name Hnm].
  destruct (fields_of_defined body Hn Hu) as [f Hf].
  destruct (generateCertificate_ok body w f Hf Hh Hdir) as (a & w1 & Eg & _).
  rewrite (run_POST_generated body w a w1 email name Ev Eg He Hnm).
  pose proof (generateCertificate_frame body w _ w1 Eg) as (Hs1 & _).
  pose proof (generateCertificate_env body w _ w1 Eg) as [Ho1 _].
  apply generateCertificate_written in Eg as (f' & fmt & d1 & d2 & _ & Hj & Hp & _).
  assert (Hfj : file_exists w1 (jpgPath a)) by (left; apply elem_of_dom; eauto).
  assert (Hfp : file_exists w1 (pdfPath a)) by (left; apply elem_of_dom; eauto).
  pose proof (run_sendCertificateEmail email (mail_data_of name a) w1 Hfj Hfp) as Hsend.
  destruct (sendCertificateEmail email _ w1) as [r2 w2].
  destruct Hsend as (_ & _ & _ & Hr). rewrite Ho1 in Hr.
  destruct (Hsmtp (w_tick w1) (current_transport w1)
              (mail_of (w_env w1 !! "SMTP_FROM_EMAIL") email (mail_data_of name a))) as [mid Hm].
  rewrite Hm in Hr. destruct Hr as [-> Hsent].
  exists (certificateId a), w2, (mail_of (w_env w1 !! "SMTP_FROM_EMAIL") email (mail_data_of name a)).
  split; [done|]. split; [by rewrite Hsent, Hs1|]. done.
Qed.

Lemma POST_success_complete_witness :
  validate sample_body = Ok VOk /\ healthy (w_oracle (snd (module_init sample_world))) /\
  certificatesDir (w_cwd (snd (module_init sample_world))) ∈ w_dirs (snd (module_init sample_world)) /\
  exists cid w' mail, POST (ReqJson sample_body) (snd (module_init sample_world)) = (Ok (success_response cid), w') /\
    w_sent w' = w_sent (snd (module_init sample_world)) ++ [mail] /\
    js_get sample_body "email" = Ok (mail_to mail) /\
    map att_filename (mail_attachments mail) = [cid +:+ ".jpg"; cid +:+ ".pdf"].
Proof.
  assert (Hv : validate sample_body = Ok VOk) by reflexivity.
  assert (Hh : healthy (w_oracle (snd (module_init sample_world)))) by exact sample_oracle_healthy.
  assert (Hd : certificatesDir (w_cwd (snd (module_init sample_world))) ∈ w_dirs (snd (module_init sample_world)))
    by (apply (bool_decide_unpack _); vm_compute; reflexivity).
  split; [exact Hv|]. split; [exact Hh|]. split; [exact Hd|].
  exact (POST_success_complete _ _ Hv Hh Hd (fun n t m => ex_intro _ "<cert-1@mail>" eq_refl)).
Defined.

(** Scenario A on a process whose SMTP server rejects the credentials. *)
Definition smtp_down_world : World :=
  {| w_cwd := w_cwd sample_world; w_dirs := w_dirs sample_world; w_files := ∅;
     w_env := w_env sample_world; w_transporter := None; w_sent := []; w_trace := []; w_tick := 0;
     w_oracle := {| clock := clock sample_oracle; locale_date := locale_date sample_oracle;
                    random36 := random36 sample_oracle; jpeg_error := jpeg_error sample_oracle;
                    png_error := png_error sample_oracle; io_error := io_error sample_oracle;
                    smtp_send := fun _ _ _ => Err "Invalid login: 535 Authentication failed";
                    smtp_verify := smtp_verify sample_oracle |} |}.

(** C8: spec section 8, scenario E: when the SMTP server rejects the
    message (say, an authentication failure [e]) in an environment where
    generation succeeds, the handler answers 500 with
    ["Failed to send email: " + e], nothing is delivered, and both files
    of the certificate stay on disk; the caller is not told they exist. *)
Theorem POST_send_failure_keeps_files body w e :
  validate body = Ok VOk -> healthy (w_oracle w) -> certificatesDir (w_cwd w) ∈ w_dirs w ->
  (forall n t m, smtp_send (w_oracle w) n t m = Err e) ->
  exists cid w', POST (ReqJson body) w = (Ok (json_error ("Failed to send email: " +:+ e) 500), w') /\
    w_sent w' = w_sent w /\
    path_join (certificatesDir (w_cwd w)) (cid +:+ ".jpg") ∈ dom (w_files w') /\
    path_join (certificatesDir (w_cwd w)) (cid +:+ ".pdf") ∈ dom (w_files w').
Proof.
  intros Ev Hh Hdir Hsmtp. destruct (validate_defined _ _ Ev) as [Hn Hu].
  destruct (js_get_defined body "email" Hn Hu) as [email He].
  destruct (js_get_defined body "name" Hn Hu) as [name Hnm].
  destruct (fields_of_defined body Hn Hu) as [f Hf].
  destruct (generateCertificate_ok body w f Hf Hh Hdir) as (a & w1 & Eg & Hjp & Hpp).
  rewrite (run_POST_generated body w a w1 email name Ev Eg He Hnm).
  pose proof (generateCertificate_frame body w _ w1 Eg) as (Hs1 & _).
  pose proof (generateCertificate_env body w _ w1 Eg) as [Ho1 _].
  apply generateCertificate_written in Eg as (f' & fmt & d1 & d2 & _ & Hj & Hp & _).
  assert (Hfj : file_exists w1 (jpgPath a)) by (left; apply elem_of_dom; eauto).
  assert (Hfp : file_exists w1 (pdfPath a)) by (left; apply elem_of_dom; eauto).
  pose proof (run_sendCertificateEmail email (mail_data_of name a) w1 Hfj Hfp) as Hsend.
  destruct (sendCertificateEmail email _ w1) as [r2 w2].
  destruct Hsend as (_ & _ & Hfiles & Hr). rewrite Ho1, Hsmtp in Hr. destruct Hr as [-> Hsent].
  exists (certificateId a), w2. split.
  { unfold error_text. by rewrite (proj2 (String.eqb_neq _ "") (error_text_prefix_nonempty e)). }
  split; [by rewrite Hsent, Hs1|].
  rewrite Hfiles, <- Hjp, <- Hpp. split; apply elem_of_dom; eauto.
Qed.

Lemma POST_send_failure_keeps_files_witness :
  let w := snd (module_init smtp_down_world) in
  validate sample_body = Ok VOk /\ healthy (w_oracle w) /\ certificatesDir (w_cwd w) ∈ w_dirs w /\
  exists cid w', POST (ReqJson sample_body) w =
    (Ok (json_error "Failed to send email: Invalid login: 535 Authentication failed" 500), w') /\
    w_sent w' = [] /\
    path_join "/srv/app/public/certificates" (cid +:+ ".jpg") ∈ dom (w_files w') /\
    path_join "/srv/app/public/certificates" (cid +:+ ".pdf") ∈ dom (w_files w').
Proof.
  cbv zeta.
  assert (Hv : validate sample_body = Ok VOk) by reflexivity.
  assert (Hh : healthy (w_oracle (snd (module_init smtp_down_world)))).
  { split; [done|]. split; [done|]. split; [intros n; vm_compute; discriminate|]. intros n. right. by exists "4fzyo82mvyr". }
  assert (Hd : certificatesDir (w_cwd (snd (module_init smtp_down_world)))
                 ∈ w_dirs (snd (module_init smtp_down_world)))
    by (apply (bool_decide_unpack _); vm_compute; reflexivity).
  split; [exact Hv|]. split; [exact Hh|]. split; [exact Hd|].
  exact (POST_send_failure_keeps_files _ _ _ Hv Hh Hd (fun n t m => eq_refl)).
Defined.

End Route.
