(* ===== verification/Form.v ===== *)
(** * Form: the client form [src/components/certificate-form.jsx]

    The component keeps four pieces of React state (lines 7-16):
    [loading], [message], [error] and [formData], the five input values in
    the order they are declared.  [handleSubmit] (lines 28-62) is
    asynchronous: it runs up to the [await fetch] when the form is
    submitted, and the rest when the reply arrives; its closure keeps the
    [formData] of the render that submitted, which [inflight] records.
    The inputs stay enabled while a request is in flight, so [Change]
    events may come between the two halves.

    Which events can happen is decided by the markup: a [Change] comes
    from one of the five named inputs (lines 68-128); the browser fires
    [submit] only when the button is enabled ([disabled={loading}], line
    145) and every [required] input is non-empty.  The browser's own
    check of [type="email"] is not modelled: the model lets through more
    submissions than the browser does, which keeps every invariant sound. *)

From S2P Require Import Prelude JsString JsValue Regex Validation.

Local Open Scope string_scope.
Local Open Scope list_scope.
Local Open Scope js_scope.

Module Form.

Import Validation.

(** The form values as a JavaScript object: keys in insertion order. *)
Definition FormData := list (string * string).

(** The [name] attributes of the five inputs, in document order. *)
Definition field_names : list string :=
  ["name"; "email"; "gstNumber"; "businessName"; "businessAddress"].

(** Lines 10-16 and 50-56. *)
Definition empty_form : FormData := map (fun k => (k, "")) field_names.

(** [{ ...prev, [name]: value }]: an existing key keeps its place. *)
Fixpoint assoc_set (k v : string) (l : FormData) : FormData :=
  match l with
  | [] => [(k, v)]
  | (k', v') :: l' => if String.eqb k k' then (k, v) :: l' else (k', v') :: assoc_set k v l'
  end.

Fixpoint assoc_get (k : string) (l : FormData) : option string :=
  match l with
  | [] => None
  | (k', v) :: l' => if String.eqb k k' then Some v else assoc_get k l'
  end.

Record FormState := {
  loading : bool;
  message : string;
  error : string;
  formData : FormData;
  inflight : option FormData;
}.

Definition initial_state : FormState :=
  {| loading := false; message := ""; error := ""; formData := empty_form; inflight := None |}.

(** What [fetch] delivers: a response with its status and the outcome of
    [response.json()], or a rejection (network failure). *)
Inductive Reply : Type :=
| RResponse (status : Z) (data : result JsValue)
| RNetError (msg : string).

Inductive FormEvent : Type :=
| Change (name value : string)
| Submit
| Resolve (r : Reply).

(** [response.ok] *)
Definition response_ok (status : Z) : bool := (200 <=? status)%Z && (status <=? 299)%Z.

(** [`${v}`] of a member that may be missing. *)
Definition field_text (k : string) (d : FormData) : string :=
  match assoc_get k d with Some v => v | None => "undefined" end.

Definition success_message (d : FormData) : string :=
  "Success! Certificate has been generated and sent to " +:+ field_text "email" d.

(** The [try] block of lines 42-56 after the [fetch]: the message it sets,
    or the message of the exception it throws. *)
Definition reply_outcome (snap : FormData) (r : Reply) : result string :=
  match r with
  | RNetError m => Err m
  | RResponse st data =>
      d ← data;
      if response_ok st then Ok (success_message snap)
      else e ← d.["error"];
           Err (if js_truthy e then js_to_string e else "Failed to generate certificate")
  end.

(** [err.message || "An error occurred"] *)
Definition error_display (m : string) : string :=
  if String.eqb m "" then "An error occurred" else m.

(** The browser's guard on submission: no [required] input is empty. *)
Definition required_filled (d : FormData) : bool :=
  forallb (fun kv => negb (String.eqb kv.2 "")) d.

Definition is_field (k : string) : bool := existsb (String.eqb k) field_names.

(** One event; [None] when it cannot happen in that state. *)
Definition form_step (s : FormState) (ev : FormEvent) : option FormState :=
  match ev with
  | Change k v =>
      (* lines 18-26 *)
      if is_field k then
        Some {| loading := loading s; message := ""; error := "";
                formData := assoc_set k v (formData s); inflight := inflight s |}
      else None
  | Submit =>
      (* lines 29-41, up to the await *)
      if loading s then None
      else if required_filled (formData s) then
        Some {| loading := true; message := ""; error := "";
                formData := formData s; inflight := Some (formData s) |}
      else None
  | Resolve r =>
      (* lines 42-61, after the await *)
      match inflight s with
      | None => None
      | Some snap =>
          match reply_outcome snap r with
          | Ok m => Some {| loading := false; message := m; error := error s;
                            formData := empty_form; inflight := None |}
          | Err e => Some {| loading := false; message := message s; error := error_display e;
                             formData := formData s; inflight := None |}
          end
      end
  end.

(** A sequence of events, in order. *)
Fixpoint form_run (s : FormState) (evs : list FormEvent) : option FormState :=
  match evs with
  | [] => Some s
  | ev :: evs' => s' ← form_step s ev; form_run s' evs'
  end.

Inductive reachable : FormState -> Prop :=
| reach_init : reachable initial_state
| reach_step s ev s' : reachable s -> form_step s ev = Some s' -> reachable s'.

(** [JSON.stringify(formData)] as the handler's [request.json()] reads it. *)
Definition form_body (d : FormData) : JsValue := JObj (map (fun kv => (kv.1, JStr kv.2)) d).

(** ** Invariant *)

Definition form_inv (s : FormState) : Prop :=
  (message s = "" \/ error s = "") /\
  (loading s = true <-> is_Some (inflight s)) /\
  (loading s = true -> message s = "" /\ error s = "") /\
  map fst (formData s) = field_names /\
  (forall snap, inflight s = Some snap ->
     map fst snap = field_names /\ required_filled snap = true).

Lemma assoc_set_keys k v l : k ∈ map fst l -> map fst (assoc_set k v l) = map fst l.
Proof.
  induction l as [|[k' v'] l IH]; cbn; [by intros ?%elem_of_nil|].
  destruct (String.eqb_spec k k') as [->|Hne]; [done|].
  intros [?|Hin]%elem_of_cons; [done|]. cbn. f_equal. by apply IH.
Qed.

Lemma is_field_keys k : is_field k = true -> k ∈ field_names.
Proof. unfold is_field. intros (k' & Hin & ->%String.eqb_eq)%existsb_exists. by apply list_elem_of_In. Qed.

Lemma form_step_inv s ev s' : form_inv s -> form_step s ev = Some s' -> form_inv s'.
Proof.
  intros (Hme & Hli & Hlme & Hkeys & Hsnap) Hstep.
  destruct ev as [k v| |r]; unfold form_step in Hstep.
  - destruct (is_field k) eqn:Hk; [|discriminate]. injection Hstep as <-. unfold form_inv; cbn.
    split; [by left|]. split; [done|]. split; [done|]. split; [|done].
    rewrite assoc_set_keys; [done|]. rewrite Hkeys. by apply is_field_keys.
  - destruct (loading s); [discriminate|]. destruct (required_filled _) eqn:Hf; [|discriminate].
    injection Hstep as <-. unfold form_inv; cbn. split; [by left|].
    split; [done|]. split; [done|]. split; [done|]. by intros ? [= <-].
  - destruct (inflight s) as [snap|] eqn:Hin; [|discriminate].
    assert (Hl : loading s = true) by (apply Hli; by eexists).
    destruct (Hlme Hl) as [Hm He].
    destruct (reply_outcome snap r); injection Hstep as <-; unfold form_inv; cbn;
      (split; [auto|]); (split; [split; [done | by intros []%is_Some_None]|]);
      (split; [done|]); split; done.
Qed.

Lemma reachable_inv s : reachable s -> form_inv s.
Proof.
  induction 1 as [|s ev s' _ IH Hstep].
  - unfold form_inv; cbn. split; [by left|]. split; [split; [done | by intros []%is_Some_None]|].
    split; [done|]. split; done.
  - exact (form_step_inv s ev s' IH Hstep).
Qed.

(** A snapshot taken by [Submit] in a reachable state: the five fields,
    in order, none empty. *)
Lemma snapshot_shape snap :
  map fst snap = field_names -> required_filled snap = true ->
  exists a b c d e, snap = [("name", a); ("email", b); ("gstNumber", c);
                            ("businessName", d); ("businessAddress", e)] /\
    a <> "" /\ b <> "" /\ c <> "" /\ d <> "" /\ e <> "".
Proof.
  destruct snap as [|[k1 a] [|[k2 b] [|[k3 c] [|[k4 d] [|[k5 e] [|]]]]]]; try discriminate.
  intros [= -> -> -> -> ->]. unfold required_filled; cbn.
  rewrite !andb_true_iff, !negb_true_iff, !String.eqb_neq. intros (? & ? & ? & ? & ? & _).
  exists a, b, c, d, e. auto 10.
Qed.

Lemma reachable_run s evs s' : reachable s -> form_run s evs = Some s' -> reachable s'.
Proof.
  revert s. induction evs as [|ev evs IH]; intros s Hs; cbn; [by intros [= <-]|].
  destruct (form_step s ev) as [s1|] eqn:E; [|discriminate]. cbn. apply IH. by econstructor.
Qed.

(** ** Properties *)

(** C23: in every reachable state of the form at most one of the two
    banners (error, success) is shown, and while a request is in flight
    neither is shown and the submitted values are kept: the five fields,
    in order, all non-empty. *)
Theorem form_invariant s :
  reachable s ->
  (message s = "" \/ error s = "") /\
  (loading s = true ->
   message s = "" /\ error s = "" /\
   exists snap, inflight s = Some snap /\ map fst snap = field_names /\ required_filled snap = true).
Proof.
  intros (Hme & Hli & Hlme & _ & Hsnap)%reachable_inv. split; [done|].
  intros Hl. destruct (Hlme Hl) as [Hm He]. split; [done|]. split; [done|].
  destruct (proj1 Hli Hl) as [snap Hin]. exists snap. split; [done|]. by apply Hsnap.
Qed.

(** C26: whatever [fetch] delivers (a response, parseable or not, of any
    status, or a rejection), the second half of [handleSubmit] ends the
    request: the button is enabled again ([finally], line 60). *)
Theorem form_resolve_ends_loading s r :
  reachable s -> loading s = true ->
  exists s', form_step s (Resolve r) = Some s' /\ loading s' = false /\ inflight s' = None.
Proof.
  intros (_ & Hli & _)%reachable_inv Hl. destruct (proj1 Hli Hl) as [snap Hin].
  unfold form_step. rewrite Hin. by destruct (reply_outcome snap r); eexists.
Qed.

(** C27: a submission the form lets through never gets the server's
    "Missing required fields" answer: the request body it sends (the
    snapshot of the five inputs) passes the handler's required-field
    filter with nothing missing. *)
Theorem form_submission_complete s s' :
  reachable s -> form_step s Submit = Some s' ->
  exists snap, inflight s' = Some snap /\ filter_missing (form_body snap) required = Ok [].
Proof.
  intros (_ & _ & _ & Hkeys & _)%reachable_inv. unfold form_step.
  destruct (loading s); [discriminate|]. destruct (required_filled (formData s)) eqn:Hf; [|discriminate].
  intros [= <-]. exists (formData s). split; [done|].
  destruct (snapshot_shape _ Hkeys Hf) as (a & b & c & d & e & -> & Ha & Hb & Hc & Hd & He).
  apply String.eqb_neq in Ha, Hb, Hc, Hd, He. cbn. by rewrite Ha, Hb, Hc, Hd, He.
Qed.

Lemma changes_keep_inflight s edits s' :
  form_run s (map (fun kv => Change kv.1 kv.2) edits) = Some s' ->
  inflight s' = inflight s.
Proof.
  revert s. induction edits as [|[k v] edits IH]; intros s; cbn [form_run map fst snd]; [by intros [= <-]|].
  unfold form_step. destruct (is_field k); [|intros H; discriminate H]. cbn. intros H. by rewrite (IH _ H).
Qed.

Lemma form_run_app s evs1 evs2 :
  form_run s (evs1 ++ evs2) = s1 ← form_run s evs1; form_run s1 evs2.
Proof.
  revert s. induction evs1 as [|ev evs1 IH]; intros s; cbn; [done|].
  destruct (form_step s ev); cbn; [apply IH | done].
Qed.

(** C28: when the server accepts a request, the form shows the success
    message with the email of the submitted snapshot and empties every
    input, even when the user edited the inputs while the request was in
    flight: those edits are discarded, and a changed email is not the one
    the message names. *)
Theorem form_success_discards_edits s snap edits st d s' :
  inflight s = Some snap -> response_ok st = true ->
  form_run s (map (fun kv => Change kv.1 kv.2) edits ++ [Resolve (RResponse st (Ok d))]) = Some s' ->
  message s' = success_message snap /\ formData s' = empty_form /\ loading s' = false.
Proof.
  intros Hin Hok. rewrite form_run_app.
  destruct (form_run s _) as [s1|] eqn:E1; cbn; [|discriminate].
  rewrite (changes_keep_inflight _ _ _ E1), Hin. cbn. rewrite Hok. by intros [= <-].
Qed.

(** C24: one request at a time: while a request is in flight, no event
    but its reply changes that: a second [Submit] cannot happen (the
    button is disabled) and edits keep the request and its snapshot. *)
Theorem form_single_inflight s ev s' :
  loading s = true -> form_step s ev = Some s' ->
  (exists r, ev = Resolve r) \/ (loading s' = true /\ inflight s' = inflight s).
Proof.
  intros Hl. destruct ev as [k v| |r]; unfold form_step.
  - destruct (is_field k); [|discriminate]. intros [= <-]. by right.
  - by rewrite Hl.
  - intros _. left. by exists r.
Qed.

Lemma reply_outcome_ok snap r m : reply_outcome snap r = Ok m -> m = success_message snap.
Proof.
  destruct r as [st [d|e]|e]; cbn; try discriminate.
  destruct (response_ok st); [by intros [= <-]|]. by destruct (js_get d "error").
Qed.

(** C25: spec section 4.6: the inputs are emptied only after a confirmed
    success: a step that changes the form values is an edit of one input,
    or the reply of the request in flight whose outcome is the success
    message, which empties every input. *)
Theorem form_cleared_only_on_success s ev s' :
  form_step s ev = Some s' -> formData s' <> formData s ->
  (exists k v, ev = Change k v) \/
  (exists snap r, inflight s = Some snap /\ ev = Resolve r /\
     reply_outcome snap r = Ok (success_message snap) /\ formData s' = empty_form).
Proof.
  destruct ev as [k v| |r]; unfold form_step.
  - intros _ _. left. by exists k, v.
  - destruct (loading s); [discriminate|]. destruct (required_filled _); [|discriminate].
    by intros [= <-].
  - destruct (inflight s) as [snap|] eqn:Hin; [|discriminate].
    destruct (reply_outcome snap r) as [m|e] eqn:Ho; intros [= <-]; [|done].
    intros _. right. exists snap, r. apply reply_outcome_ok in Ho as Hm. subst m. done.
Qed.

(** The state after filling the form with the example of spec section 8,
    scenario A, and submitting it. *)
Definition sample_form_state : FormState :=
  {| loading := true; message := ""; error := "";
     formData := [("name", "Jane Doe"); ("email", "jane@example.com");
                  ("gstNumber", "27AABCT1234H1Z0"); ("businessName", "ABC Corp");
                  ("businessAddress", "123 Main St")];
     inflight := Some [("name", "Jane Doe"); ("email", "jane@example.com");
                  ("gstNumber", "27AABCT1234H1Z0"); ("businessName", "ABC Corp");
                  ("businessAddress", "123 Main St")] |}.

Definition sample_events : list FormEvent :=
  [Change "name" "Jane Doe"; Change "email" "jane@example.com";
   Change "gstNumber" "27AABCT1234H1Z0"; Change "businessName" "ABC Corp";
   Change "businessAddress" "123 Main St"; Submit].

Lemma sample_form_state_reachable : reachable sample_form_state.
Proof. apply (reachable_run initial_state sample_events); [apply reach_init | reflexivity]. Qed.

Lemma form_invariant_witness :
  reachable sample_form_state /\ error sample_form_state = "" /\
  exists snap, inflight sample_form_state = Some snap /\ map fst snap = field_names.
Proof.
  split; [exact sample_form_state_reachable|].
  destruct (form_invariant _ sample_form_state_reachable) as [_ H].
  destruct (H eq_refl) as (_ & He & snap & Hin & Hk & _). split; [exact He|]. by exists snap.
Defined.

Lemma form_resolve_ends_loading_witness :
  loading sample_form_state = true /\
  exists s', form_step sample_form_state (Resolve (RNetError "Failed to fetch")) = Some s' /\
             loading s' = false /\ inflight s' = None.
Proof.
  split; [reflexivity|].
  exact (form_resolve_ends_loading _ _ sample_form_state_reachable eq_refl).
Defined.

Lemma form_submission_complete_witness :
  exists snap, inflight sample_form_state = Some snap /\
    filter_missing (form_body snap) required = Ok [].
Proof.
  apply (form_submission_complete
           (default initial_state (form_run initial_state (removelast sample_events)))).
  - apply (reachable_run initial_state (removelast sample_events)); [apply reach_init | reflexivity].
  - reflexivity.
Defined.

Lemma form_success_discards_edits_witness :
  exists s', form_run sample_form_state
               (map (fun kv => Change kv.1 kv.2) [("email", "other@example.com")] ++
                [Resolve (RResponse 200 (Ok JNull))]) = Some s' /\
  message s' = "Success! Certificate has been generated and sent to jane@example.com" /\
  formData s' = empty_form /\ loading s' = false.
Proof.
  eexists. split; [reflexivity|].
  exact (form_success_discards_edits sample_form_state _ [("email", "other@example.com")] 200 JNull _ eq_refl eq_refl eq_refl).
Defined.

Lemma form_single_inflight_witness :
  loading sample_form_state = true /\
  form_step sample_form_state Submit = None /\
  exists s', form_step sample_form_state (Change "email" "x@y.z") = Some s' /\
    loading s' = true /\ inflight s' = inflight sample_form_state.
Proof.
  split; [reflexivity|]. split; [reflexivity|].
  eexists. split; [reflexivity|].
  destruct (form_single_inflight sample_form_state (Change "email" "x@y.z") _ eq_refl eq_refl)
    as [[r Hr] | H]; [discriminate Hr | exact H].
Defined.

Lemma form_cleared_only_on_success_witness :
  exists s', form_step sample_form_state (Resolve (RResponse 200 (Ok JNull))) = Some s' /\
  formData s' <> formData sample_form_state /\ formData s' = empty_form.
Proof.
  set (s' := default sample_form_state (form_step sample_form_state (Resolve (RResponse 200 (Ok JNull))))).
  assert (Hs : form_step sample_form_state (Resolve (RResponse 200 (Ok JNull))) = Some s') by reflexivity.
  assert (Hd : formData s' <> formData sample_form_state) by (vm_compute; discriminate).
  exists s'. split; [exact Hs|]. split; [exact Hd|].
  destruct (form_cleared_only_on_success _ _ _ Hs Hd) as [(k & v & Hk) | (snap & r & _ & _ & _ & H)];
    [discriminate Hk | exact H].
Defined.

End Form.
