(* ===== verification/System.v ===== *)
(** * System: the form talking to the handler

    The page [src/app/page.jsx] renders [CertificateForm], whose
    [handleSubmit] posts [JSON.stringify(formData)] to
    [/api/generate-certificate] and reads the JSON answer of [POST].  This
    file connects the two models: the reply the form receives is the
    [Response] of [Route.POST] on the body the form sent. *)

From S2P Require Import Prelude JsString JsValue Regex Validation Layout Canvas Pdf Runtime CertService EmailService Route Form.

Local Open Scope string_scope.
Local Open Scope list_scope.

Module System.

Import Validation Route Form.

(** The reply [fetch] delivers for a response of the handler:
    [NextResponse.json] always sends a JSON body. *)
Definition reply_of (resp : Response) : Reply := RResponse (status resp) (Ok (payload resp)).


Lemma json_error_outcome snap msg st :
  msg <> "" -> response_ok st = false ->
  reply_outcome snap (RResponse st (Ok (payload (json_error msg st)))) = Err msg.
Proof.
  intros Hm Hok. unfold reply_outcome; cbn. rewrite Hok. cbn.
  by rewrite (proj2 (String.eqb_neq msg "") Hm).
Qed.

Lemma missing_text_nonempty missing : "Missing required fields: " +:+ js_join ", " missing <> "".
Proof. by rewrite sapp_cons. Qed.

Lemma error_display_nonempty m : m <> "" -> error_display m = m.
Proof. unfold error_display. by intros ->%String.eqb_neq. Qed.

(** The form's side of a failure answer. *)
Lemma resolve_error s snap msg st :
  form_inv s -> inflight s = Some snap -> msg <> "" -> response_ok st = false ->
  exists s', form_step s (Resolve (RResponse st (Ok (payload (json_error msg st))))) = Some s' /\
    loading s' = false /\ error s' = msg /\ message s' = "".
Proof.
  intros (_ & Hli & Hlme & _) Hin Hm Hok.
  assert (Hl : loading s = true) by (apply Hli; by rewrite Hin).
  unfold form_step. rewrite Hin, json_error_outcome by done. eexists. split; [done|].
  cbn. rewrite error_display_nonempty by done. split; [done|]. split; [done|]. apply (Hlme Hl).
Qed.

Lemma resolve_success s snap cid :
  inflight s = Some snap ->
  exists s', form_step s (Resolve (RResponse 200 (Ok (payload (success_response cid))))) = Some s' /\
    loading s' = false /\ message s' = success_message snap /\ error s' = error s /\
    formData s' = empty_form.
Proof. intros Hin. unfold form_step. rewrite Hin. by eexists. Qed.

(** C3: a request in flight from the form, answered by the handler in
    any world: the handler answers, the form takes the answer and ends the
    request, and either the handler delivered one message to the address
    the form submitted and the form shows the success message naming that
    address with every input emptied, or the handler answered an error
    status with a non-empty message, delivered nothing, and the form shows
    exactly the handler's message. *)
Theorem form_server_roundtrip s snap w :
  reachable s -> inflight s = Some snap ->
  let '(r, w') := POST (ReqJson (form_body snap)) w in
  exists resp s', r = Ok resp /\ form_step s (Resolve (reply_of resp)) = Some s' /\
    loading s' = false /\
    ((status resp = 200%Z /\ message s' = success_message snap /\ error s' = "" /\
      formData s' = empty_form /\
      exists mail, w_sent w' = w_sent w ++ [mail] /\ mail_to mail = JStr (field_text "email" snap)) \/
     (status resp <> 200%Z /\ exists msg, resp = json_error msg (status resp) /\ msg <> "" /\
      error s' = msg /\ message s' = "" /\ w_sent w' = w_sent w)).
Proof.
  intros Hr Hin. pose proof (reachable_inv s Hr) as Hinv.
  destruct Hinv as (_ & Hli & Hlme & _ & Hsnap).
  destruct (Hsnap snap Hin) as [Hk Hf].
  assert (Hl : loading s = true) by (apply Hli; by rewrite Hin).
  pose proof (POST_contract (ReqJson (form_body snap)) w) as H.
  destruct (POST _ w) as [r w']. destruct H as (resp & -> & Hspec).
  exists resp. unfold reply_of. destruct Hspec as [body missing [= <-] _ | body [= <-] _
                                 | body email cid mail w'' [= <-] _ He Hsent Hto _ _ | msg w'' Hm Hsent].
  - destruct (resolve_error s snap _ 400 (reachable_inv s Hr) Hin (missing_text_nonempty missing) eq_refl)
      as (s' & Hs & ? & ? & ?).
    exists s'. split; [done|]. split; [exact Hs|]. split; [done|]. right. split; [done|]. by eexists.
  - destruct (resolve_error s snap "Invalid email address" 400 (reachable_inv s Hr) Hin ltac:(done) eq_refl)
      as (s' & Hs & ? & ? & ?).
    exists s'. split; [done|]. split; [exact Hs|]. split; [done|]. right. split; [done|]. by eexists.
  - destruct (resolve_success s snap cid Hin) as (s' & Hs & ? & ? & Herr & ?).
    exists s'. split; [done|]. split; [exact Hs|]. split; [done|]. left.
    split; [done|]. split; [done|]. split; [rewrite Herr; apply (Hlme Hl)|]. split; [done|].
    exists mail. split; [done|]. rewrite Hto.
    destruct (snapshot_shape _ Hk Hf) as (a & b & c & d & e & -> & _). by injection He as <-.
  - destruct (resolve_error s snap msg 500 (reachable_inv s Hr) Hin Hm eq_refl)
      as (s' & Hs & ? & ? & ?).
    exists s'. split; [done|]. split; [exact Hs|]. split; [done|]. right. split; [done|]. by eexists.
Qed.

Lemma form_server_roundtrip_witness :
  reachable sample_form_state /\
  exists resp s', fst (POST (ReqJson (form_body (formData sample_form_state))) (snd (CertService.module_init sample_world)))
                  = Ok resp /\
    form_step sample_form_state (Resolve (reply_of resp)) = Some s' /\
    message s' = "Success! Certificate has been generated and sent to jane@example.com".
Proof.
  split; [exact sample_form_state_reachable|].
  pose proof (form_server_roundtrip sample_form_state (formData sample_form_state)
                (snd (CertService.module_init sample_world)) sample_form_state_reachable eq_refl) as H.
  destruct (POST _ _) as [r w'] eqn:E. destruct H as (resp & s' & -> & Hs & _ & Hcase).
  exists resp, s'. split; [done|]. split; [exact Hs|].
  destruct Hcase as [(_ & Hm & _) | (Hst & _)]; [exact Hm|].
  exfalso. apply Hst. vm_compute in E. by injection E as <- _.
Defined.


End System.
